(** * Minesweeper engine: cells, field, bomb placement, flood opening

    A shallow embedding of [states.js], the [Cell] class and the
    [Minesweeper] class, followed by the properties of the engine.

    Conventions of the embedding.
    - A JavaScript cell object is shared between the grid and the local
      variables that hold it.  Here a cell is referred to by the grid slot
      that holds it (a [position]); reading goes through [cell_at] and a
      mutation through [store], so every reader sees every write.
    - [fieldSize] is an array length and [bombNumber] a number of bombs:
      both are natural numbers.  Coordinates are arbitrary integers.
    - A [TypeError] (a property read on [undefined]) does not roll the
      engine back: the outcome carries the engine as it is at the throw.
    - The observer callbacks are recorded as a trace [notified], oldest
      first.
    - [Math.random()] is an oracle: a sequence of numbers of [0,1), each an
      exact fraction. *)

From Stdlib Require Import ZArith Lia List Bool.
From stdpp Require Import base tactics list.

#[local] Open Scope Z_scope.

(** ** states.js *)

Inductive CellState := INITIAL | OPENED | MARKED_AS_BOMB | DEFUSED | DETONATED.

Inductive GameState := INITIATED | READY | RUNNING | WIN | LOSS.

#[global] Instance CellState_eq_dec : EqDecision CellState.
Proof. solve_decision. Defined.

#[global] Instance GameState_eq_dec : EqDecision GameState.
Proof. solve_decision. Defined.

Definition position : Type := Z * Z.

(** ** The Cell class *)

Module Cell.

Record t := mk { _isBomb : bool; _state : CellState; _position : position }.

(** [new Cell()] followed by [cell._position = { x: i, y: j }]. *)
Definition new (i j : Z) : t :=
  {| _isBomb := false; _state := INITIAL; _position := (i, j) |}.

Definition set_state (this : t) (s : CellState) : t :=
  {| _isBomb := _isBomb this; _state := s; _position := _position this |}.

Definition set_isBomb (this : t) (value : bool) : t :=
  {| _isBomb := value; _state := _state this; _position := _position this |}.

Definition _openOrDoOtherIfBomb (otherState : CellState) (this : t) : t * bool :=
  if bool_decide (_state this = INITIAL) || bool_decide (_state this = MARKED_AS_BOMB)
  then (set_state this (if _isBomb this then otherState else OPENED), true)
  else (this, false).

Definition openOrDetonate (this : t) : t * bool := _openOrDoOtherIfBomb DETONATED this.

Definition openOrDefuse (this : t) : t * bool := _openOrDoOtherIfBomb DEFUSED this.

Definition toggleBombMark (this : t) : t * bool :=
  let initialState := _state this in
  let this' :=
    match _state this with
    | MARKED_AS_BOMB => set_state this INITIAL
    | INITIAL => set_state this MARKED_AS_BOMB
    | _ => this
    end in
  (this', negb (bool_decide (initialState = _state this'))).

Definition clear (this : t) : t * bool :=
  let this1 := set_isBomb this false in
  if negb (bool_decide (_state this1 = INITIAL))
  then (set_state this1 INITIAL, true)
  else (this1, false).

End Cell.

(** ** The engine's data *)

Record CellData := { state : CellState; numberBombs : option nat }.

Inductive Notification :=
| onCellStateChanged (x y : Z) (data : CellData)
| onGameStateChanged (newState : GameState).

Record Minesweeper := {
  _fieldSize : nat;
  _bombNumber : nat;
  _state : GameState;
  _gameField : list (list (option Cell.t));
  notified : list Notification
}.

Definition with_state (this : Minesweeper) (s : GameState) : Minesweeper :=
  {| _fieldSize := _fieldSize this; _bombNumber := _bombNumber this; _state := s;
     _gameField := _gameField this; notified := notified this |}.

Definition with_gameField (this : Minesweeper) (f : list (list (option Cell.t))) : Minesweeper :=
  {| _fieldSize := _fieldSize this; _bombNumber := _bombNumber this; _state := _state this;
     _gameField := f; notified := notified this |}.

Definition fire (this : Minesweeper) (e : Notification) : Minesweeper :=
  {| _fieldSize := _fieldSize this; _bombNumber := _bombNumber this; _state := _state this;
     _gameField := _gameField this; notified := notified this ++ [e] |}.

(** What a call of the engine comes to: a value, a [TypeError] thrown with
    the engine in the state [thrown_in], or a recursion that was cut off. *)
Inductive outcome (A : Type) :=
| Ok (a : A)
| TypeError (thrown_in : Minesweeper)
| OutOfFuel.

Arguments Ok {A} a.
Arguments TypeError {A} thrown_in.
Arguments OutOfFuel {A}.

Definition bind {A B : Type} (o : outcome A) (k : A -> outcome B) : outcome B :=
  match o with
  | Ok a => k a
  | TypeError m => TypeError m
  | OutOfFuel => OutOfFuel
  end.

Notation "x <- e ;; k" := (bind e (fun x => k))
  (at level 100, e at next level, k at level 200, right associativity).

(** ** Reading and writing the grid *)

(** [this._gameField[i]]: [None] is [undefined]. *)
Definition row_at (this : Minesweeper) (i : Z) : option (list (option Cell.t)) :=
  if 0 <=? i then _gameField this !! Z.to_nat i else None.

(** [this._gameField[x][y]]: indexing [undefined] throws, an index outside
    the row or an empty slot reads [undefined] (here [Ok None]). *)
Definition slot_at (this : Minesweeper) (p : position) : outcome (option Cell.t) :=
  match row_at this p.1 with
  | None => TypeError this
  | Some row => Ok (if 0 <=? p.2 then default None (row !! Z.to_nat p.2) else None)
  end.

(** The cell object in a slot, at the first read of one of its properties. *)
Definition cell_at (this : Minesweeper) (p : position) : outcome Cell.t :=
  s <- slot_at this p ;;
  match s with
  | Some c => Ok c
  | None => TypeError this
  end.

(** The object in slot [p] becomes [c]. *)
Definition store (this : Minesweeper) (p : position) (c : Cell.t) : Minesweeper :=
  if (0 <=? p.1) && (0 <=? p.2)
  then with_gameField this
         (alter (fun row => <[Z.to_nat p.2 := Some c]> row) (Z.to_nat p.1) (_gameField this))
  else this.

(** ** The two iterations *)

(** [lo, lo+1, ..., hi] *)
Definition upto (lo hi : Z) : list Z :=
  map (fun k => lo + Z.of_nat k) (seq 0 (Z.to_nat (hi + 1 - lo))).

(** The slots visited by [_forEachCell], in order. *)
Definition fieldPositions (fieldSize : nat) : list position :=
  flat_map (fun i => map (fun j => (i, j)) (upto 0 (Z.of_nat fieldSize - 1)))
           (upto 0 (Z.of_nat fieldSize - 1)).

(** The slots visited by [_forEachAdjacentCell] around [(x, y)], in order. *)
Definition adjacentPositions (fieldSize : nat) (pos : position) : list position :=
  let x := pos.1 in
  let y := pos.2 in
  flat_map (fun i =>
    flat_map (fun j => if (x =? i) && (y =? j) then [] else [(i, j)])
             (upto (Z.max (y - 1) 0) (Z.min (y + 1) (Z.of_nat fieldSize - 1))))
    (upto (Z.max (x - 1) 0) (Z.min (x + 1) (Z.of_nat fieldSize - 1))).

(** The loop shared by both: [func] is given what it has accumulated (its
    captured variables, or the engine itself when it mutates it) and the
    slot; it answers with [canBeStopped]. *)
Fixpoint forEach {A : Type} (func : A -> position -> outcome (A * bool))
    (cells : list position) (acc : A) : outcome A :=
  match cells with
  | [] => Ok acc
  | p :: rest =>
      r <- func acc p ;;
      if r.2 then Ok r.1 else forEach func rest r.1
  end.

Definition _forEachCell {A : Type} (this : Minesweeper)
    (func : A -> position -> outcome (A * bool)) (acc : A) : outcome A :=
  forEach func (fieldPositions (_fieldSize this)) acc.

Definition _forEachAdjacentCell {A : Type} (this : Minesweeper)
    (func : A -> position -> outcome (A * bool)) (cell : position) (acc : A) : outcome A :=
  c <- cell_at this cell ;;
  forEach func (adjacentPositions (_fieldSize this) (Cell._position c)) acc.

(** ** The engine's private methods *)

Definition _allAdjacentCellsAreBombs (this : Minesweeper) (cell : position) : outcome bool :=
  _forEachAdjacentCell this
    (fun allBombs adjacentCell =>
       c <- cell_at this adjacentCell ;;
       if negb (Cell._isBomb c) then Ok (false, true) else Ok (allBombs, false))
    cell true.

Definition _getNumberAdjacentBombs (this : Minesweeper) (cell : position) : outcome nat :=
  _forEachAdjacentCell this
    (fun number adjacentCell =>
       c <- cell_at this adjacentCell ;;
       Ok (if Cell._isBomb c then S number else number, false))
    cell 0%nat.

Definition _getCellData (this : Minesweeper) (cell : position) : outcome CellData :=
  c <- cell_at this cell ;;
  if bool_decide (Cell._state c = OPENED)
  then n <- _getNumberAdjacentBombs this cell ;;
       Ok {| state := Cell._state c; numberBombs := Some n |}
  else Ok {| state := Cell._state c; numberBombs := None |}.

Definition _notifyCellStateChanged (this : Minesweeper) (cell : position) : outcome Minesweeper :=
  c <- cell_at this cell ;;
  d <- _getCellData this cell ;;
  Ok (fire this (onCellStateChanged (Cell._position c).1 (Cell._position c).2 d)).

Definition _setGameState (this : Minesweeper) (newState : GameState) : Minesweeper :=
  fire (with_state this newState) (onGameStateChanged newState).

Definition _startGameIfNeeded (this : Minesweeper) : Minesweeper * bool :=
  let this' := if bool_decide (_state this = READY) then _setGameState this RUNNING else this in
  (this', bool_decide (_state this' = RUNNING)).

(** The callback of [_setLoss] and, with [Cell.openOrDefuse], of the
    winning branch of [_setWinIfNeeded]. *)
Definition resolveCell (resolve : Cell.t -> Cell.t * bool)
    (this : Minesweeper) (paramCell : position) : outcome (Minesweeper * bool) :=
  c <- cell_at this paramCell ;;
  let this1 := store this paramCell (resolve c).1 in
  if (resolve c).2
  then this2 <- _notifyCellStateChanged this1 paramCell ;; Ok (this2, false)
  else Ok (this1, false).

Definition _setLoss (this : Minesweeper) : outcome Minesweeper :=
  this' <- _forEachCell this (resolveCell Cell.openOrDetonate) this ;;
  Ok (_setGameState this' LOSS).

Definition _setWinIfNeeded (this : Minesweeper) : outcome Minesweeper :=
  if negb (bool_decide (_state this = RUNNING)) then Ok this else
  win <- _forEachCell this
    (fun win cell =>
       c <- cell_at this cell ;;
       if bool_decide (Cell._state c = INITIAL)
          || (bool_decide (Cell._state c = MARKED_AS_BOMB) && negb (Cell._isBomb c))
       then Ok (false, true)
       else Ok (win, false))
    true ;;
  if (win : bool)
  then this' <- _forEachCell this (resolveCell Cell.openOrDefuse) this ;;
       Ok (_setGameState this' WIN)
  else Ok this.

(** [_openCell]; [fuel] bounds the depth of the recursion. *)
Fixpoint _openCell (fuel : nat) (this : Minesweeper) (cell : position) : outcome Minesweeper :=
  match fuel with
  | O => OutOfFuel
  | S fuel' =>
      c <- cell_at this cell ;;
      let this1 := store this cell (Cell.openOrDetonate c).1 in
      if (Cell.openOrDetonate c).2 then
        this2 <- _notifyCellStateChanged this1 cell ;;
        c' <- cell_at this2 cell ;;
        if bool_decide (Cell._state c' = DETONATED) then _setLoss this2
        else
          n <- _getNumberAdjacentBombs this2 cell ;;
          if negb (bool_decide (n = 0%nat)) then Ok this2
          else _forEachAdjacentCell this2
                 (fun this3 adjacentCell =>
                    this4 <- _openCell fuel' this3 adjacentCell ;; Ok (this4, false))
                 cell this2
      else Ok this1
  end.

(** ** Bomb placement *)

(** A value of [Math.random()]: the fraction [numer / (numer + slack + 1)]. *)
Record fraction := { numer : nat; slack : nat }.

(** [Math.floor(r * fieldSize)] *)
Definition floorTimes (r : fraction) (fieldSize : nat) : Z :=
  Z.of_nat ((numer r * fieldSize) / (numer r + slack r + 1)).

(** The first loop of [_setBombsOnGameField]. *)
Definition clearCell (this : Minesweeper) (p : position) : outcome (Minesweeper * bool) :=
  paramCell <- slot_at this p ;;
  match paramCell with
  | Some c =>
      let this1 := store this p (Cell.clear c).1 in
      if (Cell.clear c).2
      then this2 <- _notifyCellStateChanged this1 p ;; Ok (this2, false)
      else Ok (this1, false)
  | None => Ok (store this p (Cell.new p.1 p.2), false)
  end.

(** The variables of the [while] loop; [iterations] counts its rounds. *)
Record Placing := {
  engine : Minesweeper;
  numberSetBombs : nat;
  admissibleNumberFailedAttemptsToPutBomb : nat;
  iterations : nat
}.

Definition placing_goes_on (s : Placing) : bool :=
  (numberSetBombs s <? _bombNumber (engine s))%nat
  && negb (admissibleNumberFailedAttemptsToPutBomb s =? 0)%nat.

(** The test made by the body of the loop on [selectedCell]: the answer
    [bombCanBeSetHere], and the engine once the fake bomb is cleared. *)
Definition bombCanBeSetHere (this : Minesweeper) (selectedCell : position)
    : outcome (Minesweeper * bool) :=
  c <- cell_at this selectedCell ;;
  if Cell._isBomb c then Ok (this, false) else
  allBombs <- _allAdjacentCellsAreBombs this selectedCell ;;
  let thereIsAtLeastOneAdjacentCellWithoutBomb := negb allBombs in
  if thereIsAtLeastOneAdjacentCellWithoutBomb then
    let fake := store this selectedCell (Cell.set_isBomb c true) in
    can <- _forEachAdjacentCell fake
      (fun can adjacentCell =>
         a <- cell_at fake adjacentCell ;;
         if Cell._isBomb a then
           surrounded <- _allAdjacentCellsAreBombs fake adjacentCell ;;
           if (surrounded : bool) then Ok (false, true) else Ok (can, false)
         else Ok (can, false))
      selectedCell true ;;
    c1 <- cell_at fake selectedCell ;;
    Ok (store fake selectedCell (Cell.set_isBomb c1 false), can)
  else Ok (this, false).

Definition placing_round (random : nat -> fraction) (s : Placing) : outcome Placing :=
  let x := floorTimes (random (2 * iterations s)%nat) (_fieldSize (engine s)) in
  let y := floorTimes (random (2 * iterations s + 1)%nat) (_fieldSize (engine s)) in
  let selectedCell := (x, y) in
  tried <- bombCanBeSetHere (engine s) selectedCell ;;
  if tried.2
  then c <- cell_at tried.1 selectedCell ;;
       Ok {| engine := store tried.1 selectedCell (Cell.set_isBomb c true);
             numberSetBombs := S (numberSetBombs s);
             admissibleNumberFailedAttemptsToPutBomb := admissibleNumberFailedAttemptsToPutBomb s;
             iterations := S (iterations s) |}
  else Ok {| engine := tried.1;
             numberSetBombs := numberSetBombs s;
             admissibleNumberFailedAttemptsToPutBomb :=
               Nat.pred (admissibleNumberFailedAttemptsToPutBomb s);
             iterations := S (iterations s) |}.

Fixpoint placing_loop (random : nat -> fraction) (fuel : nat) (s : Placing) : outcome Placing :=
  if placing_goes_on s then
    match fuel with
    | O => OutOfFuel
    | S fuel' => s' <- placing_round random s ;; placing_loop random fuel' s'
    end
  else Ok s.

(** The variables as the [while] loop is entered. *)
Definition startPlacing (this : Minesweeper) : Placing :=
  {| engine := this;
     numberSetBombs := 0;
     admissibleNumberFailedAttemptsToPutBomb := (_fieldSize this * _fieldSize this)%nat;
     iterations := 0 |}.

(** The loop is given as many rounds as it can need (see
    [placing_loop_spec]). *)
Definition placingFuel (this : Minesweeper) : nat :=
  (_bombNumber this + _fieldSize this * _fieldSize this)%nat.

(** [_setBombsOnGameField] up to the end of the [while] loop. *)
Definition placeBombs (random : nat -> fraction) (this : Minesweeper) : outcome Placing :=
  this1 <- _forEachCell this clearCell this ;;
  placing_loop random (placingFuel this1) (startPlacing this1).

Definition _setBombsOnGameField (random : nat -> fraction) (this : Minesweeper)
    : outcome Minesweeper :=
  s <- placeBombs random this ;;
  Ok (_setGameState (engine s) READY).

(** ** The constructor and the public methods *)

(** The object as the constructor has it before it calls
    [_setBombsOnGameField]: the arrays are allocated, their slots empty. *)
Definition allocated (fieldSize bombNumber : nat) : Minesweeper :=
  {| _fieldSize := fieldSize; _bombNumber := bombNumber; _state := INITIATED;
     _gameField := replicate fieldSize (replicate fieldSize None);
     notified := [] |}.

Definition new_Minesweeper (fieldSize bombNumber : nat) (random : nat -> fraction)
    : outcome Minesweeper :=
  _setBombsOnGameField random (allocated fieldSize bombNumber).

(** The recursion of [_openCell] opens a cell at each level, so the number
    of slots plus one is depth enough (see [openCell_floods]). *)
Definition openFuel (this : Minesweeper) : nat :=
  S (length (fieldPositions (_fieldSize this))).

Definition openCell (x y : Z) (this : Minesweeper) : outcome Minesweeper :=
  let started := _startGameIfNeeded this in
  if negb started.2 then Ok started.1 else
  this1 <- _openCell (openFuel started.1) started.1 (x, y) ;;
  _setWinIfNeeded this1.

Definition toggleCellBombMark (x y : Z) (this : Minesweeper) : outcome Minesweeper :=
  let started := _startGameIfNeeded this in
  if negb started.2 then Ok started.1 else
  cell <- cell_at started.1 (x, y) ;;
  let this1 := store started.1 (x, y) (Cell.toggleBombMark cell).1 in
  if (Cell.toggleBombMark cell).2
  then this2 <- _notifyCellStateChanged this1 (x, y) ;; _setWinIfNeeded this2
  else Ok this1.

Definition restartGame (random : nat -> fraction) (this : Minesweeper) : outcome Minesweeper :=
  _setBombsOnGameField random this.

(** ** Views of the engine used by the statements *)

(** The slots of the grid. *)
Definition inside (fieldSize : nat) (p : position) : Prop :=
  0 <= p.1 < Z.of_nat fieldSize /\ 0 <= p.2 < Z.of_nat fieldSize.

(** The cell a slot holds, if it holds one. *)
Definition look (this : Minesweeper) (p : position) : option Cell.t :=
  match slot_at this p with
  | Ok (Some c) => Some c
  | _ => None
  end.

Definition isBombAt (this : Minesweeper) (p : position) : bool :=
  match look this p with
  | Some c => Cell._isBomb c
  | None => false
  end.

Definition stateAt (this : Minesweeper) (p : position) : option CellState :=
  match look this p with
  | Some c => Some (Cell._state c)
  | None => None
  end.

(** INITIAL or MARKED_AS_BOMB: the states a cell can still leave by an open. *)
Definition pending (s : CellState) : bool :=
  bool_decide (s = INITIAL) || bool_decide (s = MARKED_AS_BOMB).

Definition pendingAt (this : Minesweeper) (p : position) : bool :=
  match look this p with
  | Some c => pending (Cell._state c)
  | None => false
  end.

Definition count (f : position -> bool) (l : list position) : nat :=
  length (List.filter f l).

(** The number of cells of the grid that hold a bomb. *)
Definition bombsOnField (this : Minesweeper) : nat :=
  count (isBombAt this) (fieldPositions (_fieldSize this)).

Definition pendingOnField (this : Minesweeper) : nat :=
  count (pendingAt this) (fieldPositions (_fieldSize this)).

(** The number of bombs around a slot. *)
Definition bombsAround (this : Minesweeper) (p : position) : nat :=
  count (isBombAt this) (adjacentPositions (_fieldSize this) p).

(** Every cell around the slot holds a bomb. *)
Definition surrounded (this : Minesweeper) (p : position) : bool :=
  forallb (isBombAt this) (adjacentPositions (_fieldSize this) p).

(** The grid is [fieldSize] rows of [fieldSize] slots; a slot is empty or
    holds a cell that knows where it is. *)
Definition shaped (this : Minesweeper) : Prop :=
  length (_gameField this) = _fieldSize this /\
  (forall i row, _gameField this !! i = Some row -> length row = _fieldSize this) /\
  (forall p c, look this p = Some c -> Cell._position c = p).

(** The grid once the constructor has run: no slot is empty. *)
Definition wellFormed (this : Minesweeper) : Prop :=
  shaped this /\ forall p, inside (_fieldSize this) p -> is_Some (look this p).

(** Two slots are adjacent: different, and at most one row and one column
    apart. *)
Definition near (p q : position) : Prop :=
  p <> q /\ -1 <= q.1 - p.1 <= 1 /\ -1 <= q.2 - p.2 <= 1.

(** The notification fired for the cell [c] held by slot [p]. *)
Definition cellNotification (this : Minesweeper) (p : position) (c : Cell.t) : Notification :=
  onCellStateChanged p.1 p.2
    {| state := Cell._state c;
       numberBombs := if bool_decide (Cell._state c = OPENED)
                      then Some (bombsAround this p) else None |}.

(** The engine with a bomb in the cell of slot [p]. *)
Definition withBomb (this : Minesweeper) (p : position) : Minesweeper :=
  match look this p with
  | Some c => store this p (Cell.set_isBomb c true)
  | None => this
  end.

(** What [bombCanBeSetHere] answers, read off the grid. *)
Definition canSetBomb (this : Minesweeper) (p : position) : bool :=
  negb (isBombAt this p) && negb (surrounded this p)
  && negb (existsb (fun q => isBombAt (withBomb this p) q && surrounded (withBomb this p) q)
                   (adjacentPositions (_fieldSize this) p)).

(** No cell that holds a bomb has a bomb in every cell around it. *)
Definition noBombSurrounded (this : Minesweeper) : Prop :=
  forall p, inside (_fieldSize this) p -> isBombAt this p = true -> surrounded this p = false.

(** Every cell is INITIAL. *)
Definition allInitial (this : Minesweeper) : Prop :=
  forall p c, look this p = Some c -> Cell._state c = INITIAL.

(** What the [while] loop keeps true of its variables; [base] is the engine
    as the loop is entered. *)
Definition placingInvariant (base : Minesweeper) (s : Placing) : Prop :=
  wellFormed (engine s) /\
  _fieldSize (engine s) = _fieldSize base /\
  _bombNumber (engine s) = _bombNumber base /\
  _state (engine s) = _state base /\
  notified (engine s) = notified base /\
  bombsOnField (engine s) = numberSetBombs s /\
  noBombSurrounded (engine s) /\
  allInitial (engine s) /\
  (numberSetBombs s <= _bombNumber base)%nat /\
  (admissibleNumberFailedAttemptsToPutBomb s <= _fieldSize base * _fieldSize base)%nat /\
  iterations s = (numberSetBombs s
     + (_fieldSize base * _fieldSize base - admissibleNumberFailedAttemptsToPutBomb s))%nat.

(** What the clearing loop has done once it has been through [done]. *)
Definition cleared (m : Minesweeper) (done : list position) (a : Minesweeper) : Prop :=
  shaped a /\ _fieldSize a = _fieldSize m /\ _bombNumber a = _bombNumber m /\
  _state a = _state m /\
  (forall q, In q done ->
     exists c, look a q = Some c /\ Cell._isBomb c = false /\ Cell._state c = INITIAL) /\
  (forall q, ~ In q done -> look a q = look m q).

(** The cell of slot [p] stands in the way of a win. *)
Definition blocksWin (this : Minesweeper) (p : position) : bool :=
  match look this p with
  | Some c => bool_decide (Cell._state c = INITIAL)
              || (bool_decide (Cell._state c = MARKED_AS_BOMB) && negb (Cell._isBomb c))
  | None => false
  end.

(** What the scan of [_setWinIfNeeded] finds. *)
Definition winning (this : Minesweeper) : bool :=
  negb (existsb (blocksWin this) (fieldPositions (_fieldSize this))).

(** Every cell of [m] has been through [resolve]; nothing else differs but
    the trace. *)
Definition resolved (resolve : Cell.t -> Cell.t * bool) (m m' : Minesweeper) : Prop :=
  wellFormed m' /\ _fieldSize m' = _fieldSize m /\ _bombNumber m' = _bombNumber m /\
  _state m' = _state m /\
  forall p c, look m p = Some c -> look m' p = Some (resolve c).1.

(** The same, part of the way: the slots of [done] have been through it. *)
Definition resolving (resolve : Cell.t -> Cell.t * bool) (m : Minesweeper)
    (done : list position) (a : Minesweeper) : Prop :=
  wellFormed a /\ _fieldSize a = _fieldSize m /\ _bombNumber a = _bombNumber m /\
  _state a = _state m /\
  (forall p c, In p done -> look m p = Some c -> look a p = Some (resolve c).1) /\
  (forall p, ~ In p done -> look a p = look m p).

(** What opening without a detonation does to the grid: a cell is as it
    was, or it was pending and free of a bomb and is now OPENED. *)
Definition opens (m m' : Minesweeper) : Prop :=
  wellFormed m /\ wellFormed m' /\
  _fieldSize m' = _fieldSize m /\ _bombNumber m' = _bombNumber m /\ _state m' = _state m /\
  forall p c, look m p = Some c ->
    look m' p = Some c \/
    (pending (Cell._state c) = true /\ Cell._isBomb c = false /\
     look m' p = Some (Cell.set_state c OPENED)).

(** The cell of slot [q] was pending in [m] and is OPENED in [m']. *)
Definition openedBy (m m' : Minesweeper) (q : position) : Prop :=
  pendingAt m q = true /\ stateAt m' q = Some OPENED.

(** The slots the recursion of [_openCell] can come to from [p]: it goes on
    from a cell to the cells around it when no bomb is around that cell. *)
Inductive flood (m : Minesweeper) (p : position) : position -> Prop :=
| flood_here : flood m p p
| flood_step a b :
    flood m p a -> bombsAround m a = 0%nat ->
    In b (adjacentPositions (_fieldSize m) a) -> flood m p b.

(** The connected region of cells with no bomb around them that contains
    [p]. *)
Inductive region (m : Minesweeper) (p : position) : position -> Prop :=
| region_start : bombsAround m p = 0%nat -> region m p p
| region_grow a b :
    region m p a -> In b (adjacentPositions (_fieldSize m) a) ->
    bombsAround m b = 0%nat -> region m p b.

(** That region and the cells bordering it. *)
Definition revealed (m : Minesweeper) (p q : position) : Prop :=
  region m p q \/ exists a, region m p a /\ In q (adjacentPositions (_fieldSize m) a).

(** What [_openCell] on the bomb-free cell of slot [p] has done when it
    returns [m']. *)
Definition floods (m : Minesweeper) (p : position) (m' : Minesweeper) : Prop :=
  opens m m' /\ pendingAt m' p = false /\
  (forall q, openedBy m m' q -> flood m p q) /\
  (forall q, openedBy m m' q -> bombsAround m q = 0%nat ->
     forall r, In r (adjacentPositions (_fieldSize m) q) -> pendingAt m' r = false).

(** The engines a caller can come to hold: built by the constructor, then
    driven through the public methods.  A method that throws leaves the
    engine as it is at the throw. *)
Inductive reachable : Minesweeper -> Prop :=
| reachable_new fieldSize bombNumber random m :
    new_Minesweeper fieldSize bombNumber random = Ok m -> reachable m
| reachable_openCell x y m m' :
    reachable m -> openCell x y m = Ok m' -> reachable m'
| reachable_openCell_throws x y m m' :
    reachable m -> openCell x y m = TypeError m' -> reachable m'
| reachable_toggleCellBombMark x y m m' :
    reachable m -> toggleCellBombMark x y m = Ok m' -> reachable m'
| reachable_toggleCellBombMark_throws x y m m' :
    reachable m -> toggleCellBombMark x y m = TypeError m' -> reachable m'
| reachable_restartGame random m m' :
    reachable m -> restartGame random m = Ok m' -> reachable m'
| reachable_restartGame_throws random m m' :
    reachable m -> restartGame random m = TypeError m' -> reachable m'.

(** Around an OPENED cell with no bomb around it, no cell is pending. *)
Definition floodClosed (m : Minesweeper) : Prop :=
  forall p, stateAt m p = Some OPENED -> bombsAround m p = 0%nat ->
    forall r, In r (adjacentPositions (_fieldSize m) p) -> pendingAt m r = false.

(** Only a cell that holds a bomb is DEFUSED or DETONATED. *)
Definition onlyBombsResolved (m : Minesweeper) : Prop :=
  forall p c, look m p = Some c -> Cell._isBomb c = false ->
    Cell._state c <> DEFUSED /\ Cell._state c <> DETONATED.

(** What holds of every reachable engine. *)
Definition consistent (m : Minesweeper) : Prop :=
  wellFormed m /\ onlyBombsResolved m /\ floodClosed m.

(** OPENED, DEFUSED or DETONATED. *)
Definition terminal (s : CellState) : Prop :=
  s = OPENED \/ s = DEFUSED \/ s = DETONATED.

(** ** Sample engines *)

Definition always (r : fraction) : nat -> fraction := fun _ => r.

(** 0, 1/2 and 2/3 *)
Definition zero : fraction := {| numer := 0; slack := 0 |}.

Definition half : fraction := {| numer := 1; slack := 0 |}.

Definition twoThirds : fraction := {| numer := 2; slack := 0 |}.

(** The engine a call has left behind. *)
Definition the (o : outcome Minesweeper) : Minesweeper :=
  match o with
  | Ok m => m
  | TypeError m => m
  | OutOfFuel => allocated 0 0
  end.

(** A 2x2 field with its bomb in the corner (0, 0). *)
Definition corner2 : Minesweeper :=
  Eval vm_compute in the (new_Minesweeper 2 1 (always zero)).

(** The same once the three other cells have been opened. *)
Definition corner2_opened : Minesweeper :=
  Eval vm_compute in
    the (m <- openCell 0 1 corner2 ;; m <- openCell 1 0 m ;; openCell 1 1 m).

(** The same once the bomb has been opened. *)
Definition corner2_lost : Minesweeper := Eval vm_compute in the (openCell 0 0 corner2).

(** A 3x3 field with its bomb in the corner (2, 2). *)
Definition corner3 : Minesweeper :=
  Eval vm_compute in the (new_Minesweeper 3 1 (always twoThirds)).

(** The same with its bomb marked. *)
Definition corner3_marked : Minesweeper :=
  Eval vm_compute in the (toggleCellBombMark 2 2 corner3).

(** Draws that put three bombs on a 2x2 field: (0,0), (0,1), (1,0). *)
Definition threeDraws (k : nat) : fraction :=
  match k with
  | 0%nat | 1%nat | 2%nat | 5%nat => zero
  | _ => half
  end.

(** The 2x2 field once the cell (0, 1) has been opened. *)
Definition corner2_started : Minesweeper := Eval vm_compute in the (openCell 0 1 corner2).

(** A defused cell. *)
Definition defusedCell : Cell.t :=
  {| Cell._isBomb := true; Cell._state := DEFUSED; Cell._position := (0, 1) |}.

(** The variables a placement has ended with. *)
Definition the_placing (o : outcome Placing) : Placing :=
  match o with
  | Ok s => s
  | _ => startPlacing (allocated 0 0)
  end.

(** The placement of three bombs on a 2x2 field with the draws [threeDraws]. *)
Definition threeBombs_placing : Placing :=
  Eval vm_compute in the_placing (placeBombs threeDraws (allocated 2 3)).

Definition threeBombs : Minesweeper :=
  Eval vm_compute in the (new_Minesweeper 2 3 threeDraws).

(** ** Sequences of commands *)

Inductive Command :=
| Open (p : position)
| Mark (p : position).

Definition run (c : Command) (m : Minesweeper) : outcome Minesweeper :=
  match c with
  | Open p => openCell p.1 p.2 m
  | Mark p => toggleCellBombMark p.1 p.2 m
  end.

Fixpoint play (cs : list Command) (m : Minesweeper) : outcome Minesweeper :=
  match cs with
  | [] => Ok m
  | c :: rest => m' <- run c m ;; play rest m'
  end.

(** The cells of the grid other than [bomb]. *)
Definition otherCells (fieldSize : nat) (bomb : position) : list position :=
  List.filter (fun q => negb ((q.1 =? bomb.1) && (q.2 =? bomb.2))) (fieldPositions fieldSize).

(** ** Definitions for the further properties *)

(** The eight offsets of [_forEachAdjacentCell]. *)
Definition eightAround (p : position) : list position :=
  [(p.1 - 1, p.2 - 1); (p.1 - 1, p.2); (p.1 - 1, p.2 + 1);
   (p.1, p.2 - 1); (p.1, p.2 + 1);
   (p.1 + 1, p.2 - 1); (p.1 + 1, p.2); (p.1 + 1, p.2 + 1)].

(** The slot holds a cell that is not INITIAL: [clear] will answer true. *)
Definition dirtyAt (this : Minesweeper) (p : position) : bool :=
  match look this p with
  | Some c => negb (bool_decide (Cell._state c = INITIAL))
  | None => false
  end.

(** The notification fired for a cell that has been cleared. *)
Definition clearedNotification (p : position) : Notification :=
  onCellStateChanged p.1 p.2 {| state := INITIAL; numberBombs := None |}.

(** The notifications of the clearing loop of [_setBombsOnGameField]. *)
Definition clearingNotifications (this : Minesweeper) : list Notification :=
  map clearedNotification (List.filter (dirtyAt this) (fieldPositions (_fieldSize this))).

(** [inside], as a test. *)
Definition insideb (fieldSize : nat) (p : position) : bool :=
  (0 <=? p.1) && (p.1 <? Z.of_nat fieldSize) && (0 <=? p.2) && (p.2 <? Z.of_nat fieldSize).

(** The cells of a running game: pending, or OPENED and without a bomb. *)
Definition runningCells (this : Minesweeper) : Prop :=
  forall p c, look this p = Some c ->
    pending (Cell._state c) = true \/ (Cell._state c = OPENED /\ Cell._isBomb c = false).

(** The cells of a game that is over: the bombs are in [bombState], the
    other cells OPENED. *)
Definition endedCells (bombState : CellState) (this : Minesweeper) : Prop :=
  forall p c, look this p = Some c ->
    Cell._state c = if Cell._isBomb c then bombState else OPENED.

(** What the state of the game says of the cells. *)
Definition settled (this : Minesweeper) : Prop :=
  _state this <> INITIATED /\
  (_state this = READY -> allInitial this) /\
  (_state this = RUNNING ->
     runningCells this /\ ((0 < _fieldSize this)%nat -> winning this = false)) /\
  (_state this = WIN -> endedCells DEFUSED this) /\
  (_state this = LOSS -> endedCells DETONATED this).

(** What a command keeps of the engine: the size of the grid, the number
    of bombs asked for, where the bombs are, and the cells that are OPENED,
    DEFUSED or DETONATED. *)
Definition keeps (m m' : Minesweeper) : Prop :=
  _fieldSize m' = _fieldSize m /\ _bombNumber m' = _bombNumber m /\
  (forall p, isBombAt m' p = isBombAt m p) /\
  (forall p s, stateAt m p = Some s -> terminal s -> stateAt m' p = Some s).

(** What a call has notified, together with the cells it has left pending,
    is what there was: one notification for each cell that is no longer
    pending. *)
Definition balanced (m m' : Minesweeper) : Prop :=
  (length (notified m') + pendingOnField m' = length (notified m) + pendingOnField m)%nat.

(** The notification of a cell resolved at the end of a game: a bomb in
    [bombState], another cell OPENED with the number of bombs around it. *)
Definition resolvedNotification (bombState : CellState) (this : Minesweeper) (p : position)
    : Notification :=
  onCellStateChanged p.1 p.2
    (if isBombAt this p then {| state := bombState; numberBombs := None |}
     else {| state := OPENED; numberBombs := Some (bombsAround this p) |}).

(** The cell of slot [p] is MARKED_AS_BOMB. *)
Definition markedAt (this : Minesweeper) (p : position) : bool :=
  match look this p with
  | Some c => bool_decide (Cell._state c = MARKED_AS_BOMB)
  | None => false
  end.

(** The notification of a bomb defused by a win. *)
Definition defusedNotification (p : position) : Notification :=
  onCellStateChanged p.1 p.2 {| state := DEFUSED; numberBombs := None |}.

(** Two engines hold the same grid, for the same number of bombs. *)
Definition sameGrid (a b : Minesweeper) : Prop :=
  _fieldSize a = _fieldSize b /\ _bombNumber a = _bombNumber b /\
  _gameField a = _gameField b.

(** The cell the draws of a round of the placement select. *)
Definition drawn (random : nat -> fraction) (s : Placing) : position :=
  (floorTimes (random (2 * iterations s)%nat) (_fieldSize (engine s)),
   floorTimes (random (2 * iterations s + 1)%nat) (_fieldSize (engine s))).

(** The cells of the grid that hold a bomb, and those that do not. *)
Definition bombCells (this : Minesweeper) : list position :=
  List.filter (isBombAt this) (fieldPositions (_fieldSize this)).

Definition safeCells (this : Minesweeper) : list position :=
  List.filter (fun p => negb (isBombAt this p)) (fieldPositions (_fieldSize this)).

(** A way to win: mark every bomb, then open every other cell. *)
Definition winningPlay (this : Minesweeper) : list Command :=
  map Mark (bombCells this) ++ map Open (safeCells this).

(** The game [m0] while its bombs are being marked: the cells passing
    [marked] are MARKED_AS_BOMB, the others INITIAL. *)
Definition marking (m0 : Minesweeper) (marked : position -> bool) (a : Minesweeper) : Prop :=
  reachable a /\ (_state a = READY \/ _state a = RUNNING) /\
  _fieldSize a = _fieldSize m0 /\ (forall q, isBombAt a q = isBombAt m0 q) /\
  forall q c, look a q = Some c ->
    Cell._state c = if marked q then MARKED_AS_BOMB else INITIAL.

(** The game [m0], its bombs marked, while the other cells are being
    opened: it is won, or the cells of [done] are no longer pending. *)
Definition sweeping (m0 : Minesweeper) (done : list position) (a : Minesweeper) : Prop :=
  reachable a /\ _fieldSize a = _fieldSize m0 /\ (forall q, isBombAt a q = isBombAt m0 q) /\
  (_state a = WIN \/
   ((_state a = READY \/ _state a = RUNNING) /\
    (forall q c, look a q = Some c ->
       if Cell._isBomb c then Cell._state c = MARKED_AS_BOMB
       else Cell._state c = INITIAL \/ Cell._state c = OPENED) /\
    forall q, In q done -> pendingAt a q = false)).

(* ================================================================== *)
(** * Properties *)

(** ** Positions *)

Lemma In_upto (lo hi a : Z) : In a (upto lo hi) <-> lo <= a <= hi.
Proof.
  unfold upto. rewrite in_map_iff. split.
  - intros (k & <- & Hk). apply in_seq in Hk. lia.
  - intros H. exists (Z.to_nat (a - lo)). split; [lia|]. apply in_seq. lia.
Qed.

Lemma NoDup_upto (lo hi : Z) : List.NoDup (upto lo hi).
Proof.
  unfold upto. apply Finite.Injective_map_NoDup; [|apply seq_NoDup].
  intros a b H. lia.
Qed.

Lemma In_fieldPositions (n : nat) (p : position) :
  In p (fieldPositions n) <-> inside n p.
Proof.
  unfold fieldPositions, inside. rewrite in_flat_map. split.
  - intros (i & Hi & Hp). apply in_map_iff in Hp as (j & <- & Hj).
    apply In_upto in Hi, Hj. simpl. lia.
  - intros [H1 H2]. exists p.1. split; [apply In_upto; lia|].
    apply in_map_iff. exists p.2. split; [by destruct p|apply In_upto; lia].
Qed.

Lemma NoDup_flat_map {A B : Type} (f : A -> list B) (l : list A) :
  List.NoDup l ->
  (forall a, In a l -> List.NoDup (f a)) ->
  (forall a a' b, In a l -> In a' l -> In b (f a) -> In b (f a') -> a = a') ->
  List.NoDup (flat_map f l).
Proof.
  induction 1 as [|a l Ha Hl IH]; intros Hf Hdisj; simpl; [constructor|].
  apply List.NoDup_app.
  - apply Hf. by left.
  - apply IH; [intros; apply Hf; by right|].
    intros a1 a2 b H1 H2. apply Hdisj; by right.
  - intros b Hb Hb'. apply in_flat_map in Hb' as (a' & Ha' & Hb').
    assert (a = a') by (eapply Hdisj; eauto; [by left|by right]). by subst.
Qed.

Lemma NoDup_fieldPositions (n : nat) : List.NoDup (fieldPositions n).
Proof.
  unfold fieldPositions. apply NoDup_flat_map.
  - apply NoDup_upto.
  - intros i _. apply Finite.Injective_map_NoDup; [|apply NoDup_upto].
    intros a b H. congruence.
  - intros i i' b _ _ H1 H2.
    apply in_map_iff in H1 as (j & <- & _). apply in_map_iff in H2 as (j' & H2 & _).
    congruence.
Qed.

Lemma In_adjacentPositions (n : nat) (p q : position) :
  In q (adjacentPositions n p) <-> inside n q /\ near p q.
Proof.
  unfold adjacentPositions, inside, near. rewrite in_flat_map. split.
  - intros (i & Hi & Hq). apply in_flat_map in Hq as (j & Hj & Hq).
    apply In_upto in Hi, Hj.
    destruct (Z.eqb_spec p.1 i), (Z.eqb_spec p.2 j); simpl in Hq;
      try (destruct Hq as [<-|[]]; simpl; split; [lia|]; split; [|lia];
           destruct p; simpl in *; intros [= ]; lia).
    destruct Hq.
  - intros (Hin & Hne & H1 & H2). exists q.1. split; [apply In_upto; lia|].
    apply in_flat_map. exists q.2. split; [apply In_upto; lia|].
    destruct (Z.eqb_spec p.1 q.1), (Z.eqb_spec p.2 q.2); simpl;
      try (left; by destruct q).
    exfalso. apply Hne. destruct p, q; simpl in *; congruence.
Qed.

Lemma near_sym (p q : position) : near p q -> near q p.
Proof. unfold near. intros (H & H1 & H2). split; [congruence|lia]. Qed.

Lemma adjacent_inside (n : nat) (p q : position) :
  In q (adjacentPositions n p) -> inside n q.
Proof. intros H. by apply In_adjacentPositions in H as [? _]. Qed.

Lemma adjacent_sym (n : nat) (p q : position) :
  inside n p -> In q (adjacentPositions n p) -> In p (adjacentPositions n q).
Proof.
  intros Hp H. apply In_adjacentPositions in H as [_ H].
  apply In_adjacentPositions. split; [done|by apply near_sym].
Qed.

(** ** Reading and writing the grid *)

Lemma look_field (m m' : Minesweeper) (p : position) :
  _gameField m = _gameField m' -> look m p = look m' p.
Proof.
  intros H. unfold look, slot_at, row_at. rewrite H.
  destruct (0 <=? p.1); [|done]. by destruct (_gameField m' !! Z.to_nat p.1).
Qed.

Lemma look_fire (m : Minesweeper) (e : Notification) (p : position) :
  look (fire m e) p = look m p.
Proof. by apply look_field. Qed.

Lemma look_setGameState (m : Minesweeper) (s : GameState) (p : position) :
  look (_setGameState m s) p = look m p.
Proof. by apply look_field. Qed.

Lemma look_Some_rows (m : Minesweeper) (p : position) (c : Cell.t) :
  look m p = Some c <->
  0 <= p.1 /\ 0 <= p.2 /\
  exists row, _gameField m !! Z.to_nat p.1 = Some row /\ row !! Z.to_nat p.2 = Some (Some c).
Proof.
  unfold look, slot_at, row_at.
  destruct (Z.leb_spec 0 p.1) as [H1|H1]; [|split; [done|lia]].
  destruct (_gameField m !! Z.to_nat p.1) as [row|] eqn:Hrow;
    [|split; [done|by intros (_ & _ & ? & ? & _)]].
  destruct (Z.leb_spec 0 p.2) as [H2|H2]; [|split; [done|lia]].
  destruct (row !! Z.to_nat p.2) as [[c'|]|] eqn:Hc; simpl; split;
    try done; try (intros [= ->]; eauto 6);
    intros (_ & _ & row' & [= <-] & Hc'); congruence.
Qed.

Lemma look_inside (m : Minesweeper) (p : position) (c : Cell.t) :
  shaped m -> look m p = Some c -> inside (_fieldSize m) p.
Proof.
  intros (Hlen & Hrows & _) H. apply look_Some_rows in H as (H1 & H2 & row & Hrow & Hc).
  pose proof (Hrows _ _ Hrow) as Hl.
  apply lookup_lt_Some in Hrow, Hc. unfold inside. lia.
Qed.

Lemma slot_at_shaped (m : Minesweeper) (p : position) :
  shaped m -> inside (_fieldSize m) p -> slot_at m p = Ok (look m p).
Proof.
  intros (Hlen & Hrows & _) [H1 H2]. unfold look, slot_at, row_at.
  destruct (Z.leb_spec 0 p.1); [|lia].
  destruct (_gameField m !! Z.to_nat p.1) as [row|] eqn:Hrow.
  - by destruct (if 0 <=? p.2 then _ else _).
  - apply lookup_ge_None in Hrow. lia.
Qed.

Lemma cell_at_look (m : Minesweeper) (p : position) (c : Cell.t) :
  look m p = Some c -> cell_at m p = Ok c.
Proof.
  unfold look, cell_at. destruct (slot_at m p) as [[c'|]| |]; simpl; congruence.
Qed.

Lemma cell_at_None (m : Minesweeper) (p : position) :
  look m p = None -> cell_at m p = TypeError m.
Proof.
  unfold look, cell_at, slot_at.
  destruct (row_at m p.1); simpl; [|done].
  by destruct (if 0 <=? p.2 then _ else _).
Qed.

Lemma look_store (m : Minesweeper) (p q : position) (c : Cell.t) :
  shaped m -> inside (_fieldSize m) p ->
  look (store m p c) q = if decide (p = q) then Some c else look m q.
Proof.
  intros (Hlen & Hrows & _) [H1 H2].
  assert (is_Some (_gameField m !! Z.to_nat p.1)) as [row Hrow]
    by (apply lookup_lt_is_Some; lia).
  pose proof (Hrows _ _ Hrow) as Hl.
  unfold store.
  destruct (Z.leb_spec 0 p.1); [|lia]. destruct (Z.leb_spec 0 p.2); [|lia]. simpl.
  destruct (decide (p = q)) as [<-|Hne].
  - apply look_Some_rows. split; [done|]. split; [done|]. simpl.
    exists (<[Z.to_nat p.2 := Some c]> row). split.
    + by rewrite list_lookup_alter_eq, Hrow.
    + apply list_lookup_insert_eq. lia.
  - unfold look, slot_at, row_at. simpl.
    destruct (Z.leb_spec 0 q.1) as [Hq1|Hq1]; [|done].
    destruct (decide (Z.to_nat p.1 = Z.to_nat q.1)) as [He|He].
    + rewrite <- He, list_lookup_alter_eq, Hrow. simpl.
      destruct (Z.leb_spec 0 q.2) as [Hq2|Hq2]; [|done].
      rewrite list_lookup_insert_ne; [done|].
      intros He2. apply Hne. destruct p, q; simpl in *. f_equal; lia.
    + rewrite list_lookup_alter_ne by done.
      by destruct (_gameField m !! Z.to_nat q.1).
Qed.

Lemma shaped_store (m : Minesweeper) (p : position) (c : Cell.t) :
  shaped m -> inside (_fieldSize m) p -> Cell._position c = p -> shaped (store m p c).
Proof.
  intros Hs Hp Hc. pose proof Hs as (Hlen & Hrows & Hpos).
  assert (_fieldSize (store m p c) = _fieldSize m) as Hn
    by (unfold store; by destruct (_ && _)).
  split; [|split].
  - rewrite Hn. unfold store. destruct (_ && _); [|done]. simpl. by rewrite length_alter.
  - intros i row. rewrite Hn. unfold store. destruct (_ && _); [|apply Hrows]. simpl.
    destruct (decide (Z.to_nat p.1 = i)) as [<-|Hne].
    + rewrite list_lookup_alter_eq.
      destruct (_gameField m !! Z.to_nat p.1) as [row'|] eqn:Hrow; simpl; [|done].
      intros [= <-]. rewrite length_insert. eauto.
    + rewrite list_lookup_alter_ne by done. apply Hrows.
  - intros q c'. rewrite look_store by done. case_decide; [congruence|apply Hpos].
Qed.

Lemma shaped_field (m m' : Minesweeper) :
  _gameField m = _gameField m' -> _fieldSize m = _fieldSize m' -> shaped m -> shaped m'.
Proof.
  intros Hf Hn (Hlen & Hrows & Hpos). split; [congruence|]. split.
  - intros i row. rewrite <- Hf, <- Hn. apply Hrows.
  - intros p c. rewrite <- (look_field m m') by done. apply Hpos.
Qed.

Lemma wellFormed_field (m m' : Minesweeper) :
  _gameField m = _gameField m' -> _fieldSize m = _fieldSize m' ->
  wellFormed m -> wellFormed m'.
Proof.
  intros Hf Hn [Hs Hfull]. split; [by eapply shaped_field|].
  intros p. rewrite <- Hn, <- (look_field m m') by done. apply Hfull.
Qed.

Lemma wellFormed_store (m : Minesweeper) (p : position) (c : Cell.t) :
  wellFormed m -> inside (_fieldSize m) p -> Cell._position c = p ->
  wellFormed (store m p c).
Proof.
  intros [Hs Hfull] Hp Hc. split; [by apply shaped_store|].
  assert (_fieldSize (store m p c) = _fieldSize m) as ->
    by (unfold store; by destruct (_ && _)).
  intros q Hq. rewrite look_store by done. case_decide; [by eexists|by apply Hfull].
Qed.

Lemma store_fieldSize (m : Minesweeper) (p : position) (c : Cell.t) :
  _fieldSize (store m p c) = _fieldSize m.
Proof. unfold store. by destruct (_ && _). Qed.

Lemma store_bombNumber (m : Minesweeper) (p : position) (c : Cell.t) :
  _bombNumber (store m p c) = _bombNumber m.
Proof. unfold store. by destruct (_ && _). Qed.

Lemma store_state (m : Minesweeper) (p : position) (c : Cell.t) :
  _state (store m p c) = _state m.
Proof. unfold store. by destruct (_ && _). Qed.

Lemma store_notified (m : Minesweeper) (p : position) (c : Cell.t) :
  notified (store m p c) = notified m.
Proof. unfold store. by destruct (_ && _). Qed.

(** Writing back what a slot holds changes nothing. *)
Lemma store_same (m : Minesweeper) (p : position) (c : Cell.t) :
  look m p = Some c -> store m p c = m.
Proof.
  intros H. apply look_Some_rows in H as (H1 & H2 & row & Hrow & Hc).
  unfold store. destruct (Z.leb_spec 0 p.1); [|lia]. destruct (Z.leb_spec 0 p.2); [|lia].
  simpl. destruct m as [n b s f l]. unfold with_gameField. simpl in *. f_equal.
  apply list_eq. intros i. destruct (decide (Z.to_nat p.1 = i)) as [<-|Hne].
  - rewrite list_lookup_alter_eq, Hrow. simpl. f_equal. by apply list_insert_id.
  - by rewrite list_lookup_alter_ne.
Qed.

Lemma store_store (m : Minesweeper) (p : position) (c c' : Cell.t) :
  store (store m p c) p c' = store m p c'.
Proof.
  unfold store. destruct (_ && _); [|done].
  unfold with_gameField. simpl. f_equal.
  apply list_eq. intros i. destruct (decide (Z.to_nat p.1 = i)) as [<-|Hne].
  - rewrite !list_lookup_alter_eq. destruct (_gameField m !! Z.to_nat p.1); simpl; [|done].
    f_equal. apply list_insert_insert_eq.
  - by rewrite !list_lookup_alter_ne.
Qed.

(** ** Counting slots *)

Lemma count_cons (f : position -> bool) (p : position) (l : list position) :
  count f (p :: l) = ((if f p then 1 else 0) + count f l)%nat.
Proof. unfold count. simpl. by destruct (f p). Qed.

Lemma count_ext (f g : position -> bool) (l : list position) :
  (forall p, In p l -> f p = g p) -> count f l = count g l.
Proof.
  induction l as [|q l IH]; intros H; [done|]. rewrite !count_cons.
  rewrite (H q) by (by left). rewrite IH; [done|]. intros p Hp. apply H. by right.
Qed.

Lemma count_le (f g : position -> bool) (l : list position) :
  (forall p, In p l -> f p = true -> g p = true) -> (count f l <= count g l)%nat.
Proof.
  induction l as [|q l IH]; intros H; [done|]. rewrite !count_cons.
  assert (count f l <= count g l)%nat by (apply IH; intros p Hp; apply H; by right).
  specialize (H q (or_introl eq_refl)).
  destruct (f q), (g q); first [lia | by specialize (H eq_refl)].
Qed.

Lemma count_le_length (f : position -> bool) (l : list position) :
  (count f l <= length l)%nat.
Proof. induction l as [|q l IH]; [done|]. rewrite count_cons. simpl. destruct (f q); lia. Qed.

Lemma count_zero (f : position -> bool) (l : list position) :
  count f l = 0%nat <-> forall p, In p l -> f p = false.
Proof.
  induction l as [|q l IH]; [by split|]. rewrite count_cons. split.
  - intros H p [<-|Hp]; [destruct (f q); [lia|done]|].
    apply IH; [destruct (f q); lia|done].
  - intros H. rewrite (H q) by (by left). apply IH. intros p Hp. apply H. by right.
Qed.

(** One slot of a duplicate-free list passes from outside the count into it. *)
Lemma count_flip (f g : position -> bool) (l : list position) (p : position) :
  List.NoDup l -> In p l -> f p = false -> g p = true ->
  (forall q, q <> p -> f q = g q) ->
  count g l = S (count f l).
Proof.
  intros Hnd Hin Hf Hg Hother. induction Hnd as [|q l Hq Hnd IH]; [done|].
  rewrite !count_cons. destruct Hin as [->|Hin].
  - rewrite Hf, Hg. simpl. f_equal. apply count_ext.
    intros r Hr. symmetry. apply Hother. intros ->. done.
  - rewrite IH by done. rewrite (Hother q) by (intros ->; done). lia.
Qed.

(** ** The iteration *)

(** An invariant of the engine carried through an iteration that is never
    stopped: [P done acc] holds of the slots done so far. *)
Lemma forEach_ind {A : Type} (func : A -> position -> outcome (A * bool))
    (P : list position -> A -> Prop) (cells : list position) (acc : A) :
  P [] acc ->
  (forall done p rest a, cells = done ++ p :: rest -> P done a ->
     exists a', func a p = Ok (a', false) /\ P (done ++ [p]) a') ->
  exists acc', forEach func cells acc = Ok acc' /\ P cells acc'.
Proof.
  revert P acc. induction cells as [|p cells IH]; intros P acc H0 Hstep.
  - exists acc. by split.
  - destruct (Hstep [] p cells acc eq_refl H0) as (a' & Hf & Ha'). simpl in Ha'.
    destruct (IH (fun done a => P (p :: done) a) a' Ha') as (acc' & Hrun & Hacc').
    + intros done q rest a -> Ha. apply (Hstep (p :: done) q rest a); [done|exact Ha].
    + exists acc'. split; [|done]. simpl. rewrite Hf. simpl. exact Hrun.
Qed.

(** An iteration that looks for a slot passing [test] and stops there. *)
Lemma forEach_search (func : bool -> position -> outcome (bool * bool))
    (test : position -> bool) (cells : list position) (acc : bool) :
  (forall a p, In p cells ->
     func a p = Ok (if test p then (false, true) else (a, false))) ->
  forEach func cells acc = Ok (if existsb test cells then false else acc).
Proof.
  revert acc. induction cells as [|p cells IH]; intros acc H; [done|].
  simpl. rewrite H by (by left). destruct (test p); simpl; [done|].
  apply IH. intros a q Hq. apply H. by right.
Qed.

(** An iteration that counts the slots passing [test]. *)
Lemma forEach_count (func : nat -> position -> outcome (nat * bool))
    (test : position -> bool) (cells : list position) (acc : nat) :
  (forall a p, In p cells -> func a p = Ok (if test p then S a else a, false)) ->
  forEach func cells acc = Ok (acc + count test cells)%nat.
Proof.
  revert acc. induction cells as [|p cells IH]; intros acc H.
  - simpl. f_equal. unfold count. simpl. lia.
  - simpl. rewrite H by (by left). simpl. rewrite IH by (intros a q Hq; apply H; by right).
    f_equal. rewrite count_cons. destruct (test p); lia.
Qed.

(** ** The reading methods on a well-formed grid *)

Lemma wellFormed_look (m : Minesweeper) (p : position) :
  wellFormed m -> inside (_fieldSize m) p ->
  exists c, look m p = Some c /\ Cell._position c = p.
Proof.
  intros [(_ & _ & Hpos) Hfull] Hp. destruct (Hfull p Hp) as [c Hc]. eauto.
Qed.

Lemma forEachAdjacent_unfold {A : Type} (m : Minesweeper)
    (func : A -> position -> outcome (A * bool)) (p : position) (acc : A) :
  wellFormed m -> inside (_fieldSize m) p ->
  _forEachAdjacentCell m func p acc = forEach func (adjacentPositions (_fieldSize m) p) acc.
Proof.
  intros Hwf Hp. destruct (wellFormed_look m p Hwf Hp) as (c & Hc & Hpos).
  unfold _forEachAdjacentCell. rewrite (cell_at_look _ _ _ Hc). simpl. by rewrite Hpos.
Qed.

Lemma existsb_negb_forallb (f : position -> bool) (l : list position) :
  existsb (fun p => negb (f p)) l = negb (forallb f l).
Proof. induction l as [|q l IH]; [done|]. simpl. rewrite IH. by destruct (f q). Qed.

Lemma allAdjacentCellsAreBombs_spec (m : Minesweeper) (p : position) :
  wellFormed m -> inside (_fieldSize m) p ->
  _allAdjacentCellsAreBombs m p = Ok (surrounded m p).
Proof.
  intros Hwf Hp. unfold _allAdjacentCellsAreBombs, surrounded.
  rewrite forEachAdjacent_unfold by done.
  rewrite (forEach_search _ (fun q => negb (isBombAt m q))).
  - rewrite existsb_negb_forallb. by destruct (forallb _ _).
  - intros a q Hq. apply adjacent_inside in Hq.
    destruct (wellFormed_look m q Hwf Hq) as (c & Hc & _).
    unfold isBombAt. rewrite (cell_at_look _ _ _ Hc), Hc. simpl.
    by destruct (Cell._isBomb c).
Qed.

Lemma getNumberAdjacentBombs_spec (m : Minesweeper) (p : position) :
  wellFormed m -> inside (_fieldSize m) p ->
  _getNumberAdjacentBombs m p = Ok (bombsAround m p).
Proof.
  intros Hwf Hp. unfold _getNumberAdjacentBombs, bombsAround.
  rewrite forEachAdjacent_unfold by done.
  rewrite (forEach_count _ (isBombAt m)); [done|].
  intros a q Hq. apply adjacent_inside in Hq.
  destruct (wellFormed_look m q Hwf Hq) as (c & Hc & _).
  unfold isBombAt. rewrite (cell_at_look _ _ _ Hc), Hc. done.
Qed.

Lemma notifyCellStateChanged_spec (m : Minesweeper) (p : position) (c : Cell.t) :
  wellFormed m -> look m p = Some c ->
  _notifyCellStateChanged m p = Ok (fire m (cellNotification m p c)).
Proof.
  intros Hwf Hc. pose proof (look_inside m p c (proj1 Hwf) Hc) as Hp.
  destruct Hwf as [Hs Hfull]. pose proof Hs as (_ & _ & Hpos).
  unfold _notifyCellStateChanged, _getCellData, cellNotification.
  rewrite (cell_at_look _ _ _ Hc). simpl. rewrite (Hpos _ _ Hc).
  case_bool_decide; simpl; [|done].
  by rewrite getNumberAdjacentBombs_spec.
Qed.

(** ** Bomb placement *)

Lemma floorTimes_range (r : fraction) (n : nat) :
  (0 < n)%nat -> 0 <= floorTimes r n < Z.of_nat n.
Proof.
  intros Hn. unfold floorTimes. split; [lia|]. apply Nat2Z.inj_lt.
  apply Nat.Div0.div_lt_upper_bound. nia.
Qed.

Lemma notify_not_opened (m : Minesweeper) (p : position) (c : Cell.t) :
  shaped m -> look m p = Some c -> Cell._state c <> OPENED ->
  _notifyCellStateChanged m p = Ok (fire m (cellNotification m p c)).
Proof.
  intros (_ & _ & Hpos) Hc Hst.
  unfold _notifyCellStateChanged, _getCellData, cellNotification.
  rewrite (cell_at_look _ _ _ Hc). simpl. rewrite (Hpos _ _ Hc).
  by case_bool_decide.
Qed.

Lemma clear_fst (c : Cell.t) :
  Cell._isBomb (Cell.clear c).1 = false /\ Cell._state (Cell.clear c).1 = INITIAL /\
  Cell._position (Cell.clear c).1 = Cell._position c.
Proof.
  unfold Cell.clear. simpl. case_bool_decide as H; simpl; [by rewrite H|done].
Qed.

Lemma cleared_fire (m : Minesweeper) (done : list position) (a : Minesweeper)
    (e : Notification) :
  cleared m done a -> cleared m done (fire a e).
Proof.
  intros (Hs & Hn & Hb & Hst & Hdone & Hrest).
  split; [by apply (shaped_field a)|]. repeat split; try done.
  - intros q Hq. rewrite look_fire. by apply Hdone.
  - intros q Hq. rewrite look_fire. by apply Hrest.
Qed.

Lemma cleared_store (m : Minesweeper) (done : list position) (a : Minesweeper)
    (p : position) (c : Cell.t) :
  cleared m done a -> inside (_fieldSize m) p ->
  Cell._position c = p -> Cell._isBomb c = false -> Cell._state c = INITIAL ->
  cleared m (done ++ [p]) (store a p c).
Proof.
  intros (Hs & Hn & Hb & Hst & Hdone & Hrest) Hp Hpos Hbomb Hinit.
  rewrite <- Hn in Hp.
  split; [by apply shaped_store|].
  rewrite store_fieldSize, store_bombNumber, store_state. repeat split; try done.
  - intros q Hq. rewrite look_store by done. case_decide; [eauto|].
    apply in_app_or in Hq as [Hq|[Hq|[]]]; [by apply Hdone|done].
  - intros q Hq. rewrite look_store by done. case_decide as Hpq.
    + exfalso. apply Hq, in_or_app. right. by left.
    + apply Hrest. intros Hin. apply Hq, in_or_app. by left.
Qed.

Lemma clearing_spec (m : Minesweeper) :
  shaped m ->
  exists m1, _forEachCell m clearCell m = Ok m1 /\ cleared m (fieldPositions (_fieldSize m)) m1.
Proof.
  intros Hs. unfold _forEachCell. apply forEach_ind.
  - repeat split; try done. apply Hs. apply Hs. apply Hs.
  - intros done p rest a Hcells Ha.
    assert (inside (_fieldSize m) p) as Hp.
    { apply In_fieldPositions. rewrite Hcells. apply in_or_app. right. by left. }
    pose proof Ha as (Hsa & Hn & Hb & Hst & Hdone & Hrest).
    unfold clearCell. rewrite slot_at_shaped by (by rewrite ?Hn). simpl.
    destruct (look a p) as [c|] eqn:Hc.
    + destruct (clear_fst c) as (Hbomb & Hinit & Hpos).
      assert (Cell._position (Cell.clear c).1 = p) as Hpos'
        by (rewrite Hpos; by apply Hsa).
      pose proof (cleared_store m done a p _ Ha Hp Hpos' Hbomb Hinit) as Ha'.
      destruct (Cell.clear c).2.
      * erewrite notify_not_opened; [| apply Ha' | |].
        -- simpl. eexists. split; [done|]. by apply cleared_fire.
        -- rewrite look_store by (done || by rewrite Hn). by case_decide.
        -- by rewrite Hinit.
      * eexists. by split.
    + eexists. split; [done|]. apply cleared_store; try done. by destruct p.
Qed.

Lemma cleared_wellFormed (m m1 : Minesweeper) :
  cleared m (fieldPositions (_fieldSize m)) m1 ->
  wellFormed m1 /\ allInitial m1 /\ (forall p, isBombAt m1 p = false).
Proof.
  intros (Hs & Hn & Hb & Hst & Hdone & Hrest).
  assert (forall p c, look m1 p = Some c ->
            Cell._isBomb c = false /\ Cell._state c = INITIAL) as Hall.
  { intros p c Hc. pose proof (look_inside _ _ _ Hs Hc) as Hp. rewrite Hn in Hp.
    apply In_fieldPositions, Hdone in Hp as (c' & Hc' & ? & ?). by simplify_eq. }
  split; [|split].
  - split; [done|]. intros p Hp. rewrite Hn in Hp.
    apply In_fieldPositions, Hdone in Hp as (c & -> & _). by eexists.
  - intros p c Hc. by apply Hall in Hc as [_ ?].
  - intros p. unfold isBombAt. destruct (look m1 p) as [c|] eqn:Hc; [|done].
    by apply Hall in Hc as [? _].
Qed.

Lemma forallb_ext_In (f g : position -> bool) (l : list position) :
  (forall p, In p l -> f p = g p) -> forallb f l = forallb g l.
Proof.
  induction l as [|q l IH]; intros H; [done|]. simpl.
  rewrite (H q) by (by left). f_equal. apply IH. intros p Hp. apply H. by right.
Qed.

Lemma withBomb_look (m : Minesweeper) (p : position) (c : Cell.t) :
  look m p = Some c -> withBomb m p = store m p (Cell.set_isBomb c true).
Proof. unfold withBomb. by intros ->. Qed.

Lemma wellFormed_withBomb (m : Minesweeper) (p : position) :
  wellFormed m -> inside (_fieldSize m) p -> wellFormed (withBomb m p).
Proof.
  intros Hwf Hp. destruct (wellFormed_look m p Hwf Hp) as (c & Hc & Hpos).
  rewrite (withBomb_look _ _ _ Hc). by apply wellFormed_store.
Qed.

Lemma withBomb_fieldSize (m : Minesweeper) (p : position) :
  _fieldSize (withBomb m p) = _fieldSize m.
Proof. unfold withBomb. destruct (look m p); [apply store_fieldSize|done]. Qed.

Lemma isBombAt_withBomb (m : Minesweeper) (p q : position) :
  wellFormed m -> inside (_fieldSize m) p ->
  isBombAt (withBomb m p) q = if decide (p = q) then true else isBombAt m q.
Proof.
  intros Hwf Hp. destruct (wellFormed_look m p Hwf Hp) as (c & Hc & Hpos).
  rewrite (withBomb_look _ _ _ Hc). unfold isBombAt.
  rewrite look_store by (done || apply Hwf). by case_decide.
Qed.

Lemma surrounded_withBomb_far (m : Minesweeper) (p q : position) :
  wellFormed m -> inside (_fieldSize m) p ->
  ~ In p (adjacentPositions (_fieldSize m) q) ->
  surrounded (withBomb m p) q = surrounded m q.
Proof.
  intros Hwf Hp Hfar. unfold surrounded. rewrite withBomb_fieldSize.
  apply forallb_ext_In. intros r Hr. rewrite isBombAt_withBomb by done.
  case_decide; [by subst|done].
Qed.

Lemma bombCanBeSetHere_spec (m : Minesweeper) (p : position) :
  wellFormed m -> inside (_fieldSize m) p ->
  bombCanBeSetHere m p = Ok (m, canSetBomb m p).
Proof.
  intros Hwf Hp. destruct (wellFormed_look m p Hwf Hp) as (c & Hc & Hpos).
  unfold bombCanBeSetHere, canSetBomb.
  rewrite (cell_at_look _ _ _ Hc). simpl.
  unfold isBombAt at 1. rewrite Hc.
  destruct (Cell._isBomb c) eqn:Hb; [done|].
  rewrite allAdjacentCellsAreBombs_spec by done. simpl.
  destruct (surrounded m p); [done|]. simpl.
  rewrite <- (withBomb_look _ _ _ Hc).
  pose proof (wellFormed_withBomb m p Hwf Hp) as Hwf'.
  rewrite forEachAdjacent_unfold by (done || by rewrite withBomb_fieldSize).
  rewrite withBomb_fieldSize.
  rewrite (forEach_search _
    (fun q => isBombAt (withBomb m p) q && surrounded (withBomb m p) q)).
  - simpl. rewrite (withBomb_look _ _ _ Hc).
    rewrite (cell_at_look _ _ (Cell.set_isBomb c true)).
    + simpl. rewrite store_store.
      replace (Cell.set_isBomb (Cell.set_isBomb c true) false) with c
        by (destruct c; simpl in *; by subst).
      rewrite store_same by done. by destruct (existsb _ _).
    + rewrite look_store by (done || apply Hwf). by case_decide.
  - intros a q Hq. apply adjacent_inside in Hq.
    rewrite <- (withBomb_fieldSize m p) in Hq.
    destruct (wellFormed_look _ q Hwf' Hq) as (cq & Hcq & _).
    rewrite (cell_at_look _ _ _ Hcq). simpl. unfold isBombAt at 1. rewrite Hcq.
    destruct (Cell._isBomb cq); [|done].
    rewrite allAdjacentCellsAreBombs_spec by done. simpl.
    by destruct (surrounded _ _).
Qed.

Lemma canSetBomb_true (m : Minesweeper) (p : position) :
  canSetBomb m p = true ->
  isBombAt m p = false /\ surrounded m p = false /\
  forall q, In q (adjacentPositions (_fieldSize m) p) ->
    isBombAt (withBomb m p) q = true -> surrounded (withBomb m p) q = false.
Proof.
  unfold canSetBomb. intros H.
  apply andb_prop in H as [H H3]. apply andb_prop in H as [H1 H2].
  apply negb_true_iff in H1, H2, H3. split; [done|]. split; [done|].
  intros q Hq Hb.
  destruct (surrounded (withBomb m p) q) eqn:Hs; [|done].
  assert (existsb (fun q => isBombAt (withBomb m p) q && surrounded (withBomb m p) q)
            (adjacentPositions (_fieldSize m) p) = true) as Hex; [|congruence].
  apply existsb_exists. exists q. by rewrite Hb, Hs.
Qed.

Lemma noBombSurrounded_withBomb (m : Minesweeper) (p : position) :
  wellFormed m -> inside (_fieldSize m) p -> noBombSurrounded m ->
  canSetBomb m p = true -> noBombSurrounded (withBomb m p).
Proof.
  intros Hwf Hp Hinv Hcan. apply canSetBomb_true in Hcan as (Hnb & Hns & Hadj).
  intros q Hq Hb. rewrite withBomb_fieldSize in Hq.
  destruct (in_dec (fun a b : position => decide (a = b)) p
              (adjacentPositions (_fieldSize m) q))
    as [Hnear|Hfar].
  - apply Hadj; [|done]. by apply (adjacent_sym _ q p).
  - rewrite surrounded_withBomb_far by done.
    rewrite isBombAt_withBomb in Hb by done.
    destruct (decide (p = q)) as [<-|Hne]; [done|]. by apply Hinv.
Qed.

Lemma bombsOnField_withBomb (m : Minesweeper) (p : position) :
  wellFormed m -> inside (_fieldSize m) p -> isBombAt m p = false ->
  bombsOnField (withBomb m p) = S (bombsOnField m).
Proof.
  intros Hwf Hp Hb. unfold bombsOnField. rewrite withBomb_fieldSize.
  apply (count_flip _ _ _ p).
  - apply NoDup_fieldPositions.
  - by apply In_fieldPositions.
  - done.
  - rewrite isBombAt_withBomb by done. by case_decide.
  - intros q Hq. rewrite isBombAt_withBomb by done. by case_decide.
Qed.

Lemma allInitial_withBomb (m : Minesweeper) (p : position) :
  wellFormed m -> inside (_fieldSize m) p -> allInitial m -> allInitial (withBomb m p).
Proof.
  intros Hwf Hp Hall q c. destruct (wellFormed_look m p Hwf Hp) as (cp & Hcp & _).
  rewrite (withBomb_look _ _ _ Hcp), look_store by (done || apply Hwf).
  case_decide; [|apply Hall]. intros [= <-]. simpl. by apply (Hall p).
Qed.

(** One round of the loop: a bomb more, or an admissible failure less. *)
Lemma placing_round_spec (random : nat -> fraction) (base : Minesweeper) (s : Placing) :
  placingInvariant base s -> placing_goes_on s = true ->
  exists s', placing_round random s = Ok s' /\ placingInvariant base s' /\
    iterations s' = S (iterations s) /\
    ((numberSetBombs s' = S (numberSetBombs s) /\
      admissibleNumberFailedAttemptsToPutBomb s' = admissibleNumberFailedAttemptsToPutBomb s)
     \/
     (numberSetBombs s' = numberSetBombs s /\
      S (admissibleNumberFailedAttemptsToPutBomb s') = admissibleNumberFailedAttemptsToPutBomb s)).
Proof.
  intros (Hwf & Hn & Hb & Hst & Hnot & Hcount & Hnbs & Hinit & Hle & Hadm & Hit) Hgo.
  unfold placing_goes_on in Hgo. apply andb_prop in Hgo as [Hlt Hpos].
  apply Nat.ltb_lt in Hlt. apply negb_true_iff, Nat.eqb_neq in Hpos.
  rewrite Hb in Hlt.
  assert (0 < _fieldSize (engine s))%nat as Hsize by (rewrite Hn; nia).
  unfold placing_round.
  set (p := (floorTimes _ _, floorTimes _ _)).
  assert (inside (_fieldSize (engine s)) p) as Hp
    by (split; simpl; by apply floorTimes_range).
  rewrite bombCanBeSetHere_spec by done. simpl.
  destruct (canSetBomb (engine s) p) eqn:Hcan.
  - destruct (wellFormed_look _ p Hwf Hp) as (c & Hc & _).
    rewrite (cell_at_look _ _ _ Hc). simpl. rewrite <- (withBomb_look _ _ _ Hc).
    eexists. split; [done|]. simpl. split; [|split; [done|left; done]].
    pose proof (canSetBomb_true _ _ Hcan) as (Hnb & _).
    unfold placingInvariant. simpl. rewrite withBomb_fieldSize.
    rewrite (withBomb_look _ _ _ Hc) at 2 3 4.
    rewrite store_bombNumber, store_state, store_notified.
    split; [by apply wellFormed_withBomb|].
    split; [done|]. split; [done|]. split; [done|]. split; [done|].
    split; [rewrite bombsOnField_withBomb by done; by rewrite Hcount|].
    split; [by apply noBombSurrounded_withBomb|].
    split; [by apply allInitial_withBomb|].
    repeat split; lia.
  - eexists. split; [done|]. simpl. split; [|split; [done|right; lia]].
    unfold placingInvariant. simpl. do 8 (split; [done|]). repeat split; lia.
Qed.

Lemma placing_loop_spec (random : nat -> fraction) (base : Minesweeper)
    (fuel : nat) (s : Placing) :
  placingInvariant base s ->
  (_bombNumber base - numberSetBombs s + admissibleNumberFailedAttemptsToPutBomb s <= fuel)%nat ->
  exists s', placing_loop random fuel s = Ok s' /\ placingInvariant base s' /\
    placing_goes_on s' = false.
Proof.
  revert s. induction fuel as [|fuel IH]; intros s Hinv Hfuel.
  - assert (placing_goes_on s = false) as Hstop.
    { unfold placing_goes_on. destruct (Nat.ltb_spec (numberSetBombs s) (_bombNumber (engine s)))
        as [Hlt|Hge]; [|done].
      destruct Hinv as (_ & _ & Hb & _). rewrite Hb in Hlt.
      destruct (Nat.eqb_spec (admissibleNumberFailedAttemptsToPutBomb s) 0); [done|lia]. }
    exists s. simpl. by rewrite Hstop.
  - simpl. destruct (placing_goes_on s) eqn:Hgo; [|by exists s].
    destruct (placing_round_spec random base s Hinv Hgo)
      as (s1 & -> & Hinv1 & _ & Hstep). simpl.
    apply IH; [done|].
    unfold placing_goes_on in Hgo. apply andb_prop in Hgo as [Hlt Hpos].
    apply Nat.ltb_lt in Hlt. apply negb_true_iff, Nat.eqb_neq in Hpos.
    destruct Hinv as (_ & _ & Hb & _). rewrite Hb in Hlt. lia.
Qed.

Lemma startPlacing_invariant (m : Minesweeper) :
  wellFormed m -> allInitial m -> (forall p, isBombAt m p = false) ->
  placingInvariant m (startPlacing m).
Proof.
  intros Hwf Hinit Hnb. unfold placingInvariant, startPlacing. simpl.
  split; [done|]. repeat split; try done; try lia.
  - unfold bombsOnField. apply count_zero. intros p _. apply Hnb.
  - intros p _ Hb. by rewrite Hnb in Hb.
Qed.

Lemma placing_loop_more_fuel (random : nat -> fraction) (fuel fuel' : nat) (s s' : Placing) :
  placing_loop random fuel s = Ok s' -> (fuel <= fuel')%nat ->
  placing_loop random fuel' s = Ok s'.
Proof.
  revert fuel' s. induction fuel as [|fuel IH]; intros fuel' s Hrun Hle.
  - simpl in Hrun. destruct (placing_goes_on s) eqn:Hgo; [done|].
    destruct fuel'; simpl; by rewrite Hgo.
  - destruct fuel' as [|fuel']; [lia|]. simpl in *.
    destruct (placing_goes_on s); [|done].
    destruct (placing_round random s) as [s1| |]; simpl in *; try done.
    apply IH; [done|lia].
Qed.

(** The placement as a whole, from any grid of the right shape. *)
Lemma placeBombs_spec (random : nat -> fraction) (m : Minesweeper) :
  shaped m ->
  exists m1 s,
    _forEachCell m clearCell m = Ok m1 /\
    _fieldSize m1 = _fieldSize m /\ _bombNumber m1 = _bombNumber m /\
    _state m1 = _state m /\
    (forall fuel, (placingFuel m1 <= fuel)%nat ->
       placing_loop random fuel (startPlacing m1) = Ok s) /\
    placingInvariant m1 s /\ placing_goes_on s = false.
Proof.
  intros Hs. destruct (clearing_spec m Hs) as (m1 & Hclear & Hm1).
  pose proof (cleared_wellFormed m m1 Hm1) as (Hwf & Hinit & Hnb).
  pose proof (startPlacing_invariant m1 Hwf Hinit Hnb) as Hstart.
  destruct (placing_loop_spec random m1 (placingFuel m1) _ Hstart) as (s & Hs' & Hinv & Hstop).
  { unfold placingFuel, startPlacing. simpl. lia. }
  exists m1, s. destruct Hm1 as (_ & Hn & Hb & Hst & _).
  do 4 (split; [done|]). split; [|done].
  intros fuel Hfuel. by apply (placing_loop_more_fuel _ (placingFuel m1)).
Qed.

Lemma setBombsOnGameField_spec (random : nat -> fraction) (m : Minesweeper) :
  shaped m ->
  exists m1 s,
    placeBombs random m = Ok s /\
    _setBombsOnGameField random m = Ok (_setGameState (engine s) READY) /\
    _fieldSize m1 = _fieldSize m /\ _bombNumber m1 = _bombNumber m /\
    placingInvariant m1 s /\ placing_goes_on s = false.
Proof.
  intros Hs.
  destruct (placeBombs_spec random m Hs) as (m1 & s & Hclear & Hn & Hb & _ & Hloop & Hinv & Hstop).
  exists m1, s.
  assert (placeBombs random m = Ok s) as Hplace.
  { unfold placeBombs. rewrite Hclear. simpl. by apply Hloop. }
  split; [done|]. split; [|done].
  unfold _setBombsOnGameField. by rewrite Hplace.
Qed.

(** ** Loss and win resolution *)

Lemma NoDup_app_middle (done rest : list position) (p : position) :
  List.NoDup (done ++ p :: rest) -> ~ In p done.
Proof.
  intros H Hin. apply NoDup_remove_2 in H. apply H, in_or_app. by left.
Qed.

Lemma openOrDoOther_position (s : CellState) (c : Cell.t) :
  Cell._position (Cell._openOrDoOtherIfBomb s c).1 = Cell._position c /\
  Cell._isBomb (Cell._openOrDoOtherIfBomb s c).1 = Cell._isBomb c.
Proof. unfold Cell._openOrDoOtherIfBomb. by destruct (_ || _). Qed.

Lemma resolve_loop_spec (resolve : Cell.t -> Cell.t * bool) (m : Minesweeper) :
  (forall c, Cell._position (resolve c).1 = Cell._position c) ->
  wellFormed m ->
  exists m', _forEachCell m (resolveCell resolve) m = Ok m' /\ resolved resolve m m'.
Proof.
  intros Hres Hwf.
  destruct (forEach_ind (resolveCell resolve) (resolving resolve m)
              (fieldPositions (_fieldSize m)) m) as (m' & Hrun & Hm').
  - split; [done|]. by repeat split.
  - intros done p rest a Hcells (Hwfa & Hn & Hb & Hst & Hdone & Hrest).
    assert (inside (_fieldSize m) p) as Hp.
    { apply In_fieldPositions. rewrite Hcells. apply in_or_app. right. by left. }
    assert (~ In p done) as Hfresh.
    { apply (NoDup_app_middle done rest). rewrite <- Hcells. apply NoDup_fieldPositions. }
    destruct (wellFormed_look m p Hwf Hp) as (c & Hc & Hpos).
    assert (look a p = Some c) as Hca by (by rewrite Hrest).
    assert (inside (_fieldSize a) p) as Hpa by (by rewrite Hn).
    assert (wellFormed (store a p (resolve c).1)) as Hwf1
      by (apply wellFormed_store; [done|done|by rewrite Hres]).
    assert (resolving resolve m (done ++ [p]) (store a p (resolve c).1)) as Hnext.
    { split; [done|]. rewrite store_fieldSize, store_bombNumber, store_state.
      do 3 (split; [done|]). split.
      - intros q cq Hq Hcq. rewrite look_store by (done || apply Hwfa).
        case_decide; [by simplify_eq|].
        apply in_app_or in Hq as [Hq|[Hq|[]]]; [by apply Hdone|done].
      - intros q Hq. rewrite look_store by (done || apply Hwfa). case_decide.
        + exfalso. apply Hq, in_or_app. right. by left.
        + apply Hrest. intros Hin. apply Hq, in_or_app. by left. }
    unfold resolveCell. rewrite (cell_at_look _ _ _ Hca). simpl.
    destruct (resolve c).2.
    + rewrite (notifyCellStateChanged_spec _ p (resolve c).1);
        [|done|rewrite look_store by (done || apply Hwfa); by case_decide].
      simpl. eexists. split; [done|].
      destruct Hnext as (? & ? & ? & ? & Hd & Hr).
      split; [by apply (wellFormed_field (store a p (resolve c).1))|]. do 3 (split; [done|]).
      split; intros; rewrite look_fire; eauto.
    + eexists. by split.
  - exists m'. split; [done|].
    destruct Hm' as (Hwf' & Hn & Hb & Hst & Hdone & _).
    split; [done|]. do 3 (split; [done|]).
    intros p c Hc. apply Hdone; [|done].
    apply In_fieldPositions. by eapply look_inside; [apply Hwf|].
Qed.

Lemma wellFormed_setGameState (m : Minesweeper) (s : GameState) :
  wellFormed m -> wellFormed (_setGameState m s).
Proof. by apply wellFormed_field. Qed.

Lemma setLoss_spec (m : Minesweeper) :
  wellFormed m ->
  exists m1, resolved Cell.openOrDetonate m m1 /\ _setLoss m = Ok (_setGameState m1 LOSS).
Proof.
  intros Hwf.
  destruct (resolve_loop_spec Cell.openOrDetonate m) as (m1 & Hrun & Hres); [|done|].
  - intros c. apply openOrDoOther_position.
  - exists m1. split; [done|]. unfold _setLoss. by rewrite Hrun.
Qed.

Lemma winning_scan (m : Minesweeper) :
  wellFormed m ->
  _forEachCell m
    (fun win cell =>
       c <- cell_at m cell ;;
       if bool_decide (Cell._state c = INITIAL)
          || (bool_decide (Cell._state c = MARKED_AS_BOMB) && negb (Cell._isBomb c))
       then Ok (false, true)
       else Ok (win, false))
    true = Ok (winning m).
Proof.
  intros Hwf. unfold _forEachCell, winning.
  rewrite (forEach_search _ (blocksWin m)); [by destruct (existsb _ _)|].
  intros a p Hp. apply In_fieldPositions in Hp.
  destruct (wellFormed_look m p Hwf Hp) as (c & Hc & _).
  unfold blocksWin. rewrite (cell_at_look _ _ _ Hc), Hc. simpl. by destruct (_ || _).
Qed.

Lemma setWinIfNeeded_spec (m : Minesweeper) :
  wellFormed m ->
  (_state m = RUNNING /\ winning m = true /\
   exists m1, resolved Cell.openOrDefuse m m1 /\
     _setWinIfNeeded m = Ok (_setGameState m1 WIN))
  \/ ((_state m <> RUNNING \/ winning m = false) /\ _setWinIfNeeded m = Ok m).
Proof.
  intros Hwf. unfold _setWinIfNeeded.
  case_bool_decide as Hst; simpl; [|right; by split; [left|]].
  rewrite winning_scan by done. simpl.
  destruct (winning m) eqn:Hwin; [|right; by split; [right|]].
  left. split; [done|]. split; [done|].
  destruct (resolve_loop_spec Cell.openOrDefuse m) as (m1 & Hrun & Hres); [|done|].
  - intros c. apply openOrDoOther_position.
  - exists m1. split; [done|]. by rewrite Hrun.
Qed.

(** ** Opening without detonation *)

Lemma opens_refl (m : Minesweeper) : wellFormed m -> opens m m.
Proof. intros Hwf. do 5 (split; [done|]). intros p c Hc. by left. Qed.

Lemma opens_trans (m1 m2 m3 : Minesweeper) : opens m1 m2 -> opens m2 m3 -> opens m1 m3.
Proof.
  intros (Hw1 & Hw2 & Hn & Hb & Hst & H12) (_ & Hw3 & Hn' & Hb' & Hst' & H23).
  do 2 (split; [done|]). do 3 (split; [congruence|]).
  intros p c Hc. destruct (H12 p c Hc) as [H|(Hp & Hnb & H)].
  - by apply H23.
  - right. do 2 (split; [done|]).
    destruct (H23 _ _ H) as [H'|(Hp' & _)]; [done|]. done.
Qed.

Lemma opens_fire (m m' : Minesweeper) (e : Notification) :
  opens m m' -> opens m (fire m' e).
Proof.
  intros (Hw1 & Hw2 & Hn & Hb & Hst & H). split; [done|].
  split; [by apply (wellFormed_field m')|]. do 3 (split; [done|]).
  intros p c Hc. rewrite look_fire. by apply H.
Qed.

Lemma opens_look_None (m m' : Minesweeper) (p : position) :
  opens m m' -> look m p = None -> look m' p = None.
Proof.
  intros (Hw1 & Hw2 & Hn & _) Hnone.
  destruct (look m' p) as [c|] eqn:Hc; [|done].
  apply look_inside in Hc; [|apply Hw2]. rewrite Hn in Hc.
  destruct (wellFormed_look m p Hw1 Hc) as (c' & Hc' & _). congruence.
Qed.

Lemma opens_isBombAt (m m' : Minesweeper) (p : position) :
  opens m m' -> isBombAt m' p = isBombAt m p.
Proof.
  intros H. unfold isBombAt. destruct (look m p) as [c|] eqn:Hc.
  - destruct H as (_ & _ & _ & _ & _ & H).
    by destruct (H p c Hc) as [->|(_ & _ & ->)].
  - by rewrite (opens_look_None m m').
Qed.

Lemma opens_bombsAround (m m' : Minesweeper) (p : position) :
  opens m m' -> bombsAround m' p = bombsAround m p.
Proof.
  intros H. unfold bombsAround.
  replace (_fieldSize m') with (_fieldSize m) by (symmetry; apply H).
  apply count_ext. intros q _. by apply opens_isBombAt.
Qed.

Lemma opens_pendingAt (m m' : Minesweeper) (p : position) :
  opens m m' -> pendingAt m' p = true -> pendingAt m p = true.
Proof.
  intros H. unfold pendingAt. destruct (look m p) as [c|] eqn:Hc.
  - destruct H as (_ & _ & _ & _ & _ & H).
    by destruct (H p c Hc) as [->|(? & _ & ->)].
  - by rewrite (opens_look_None m m').
Qed.

Lemma opens_not_pending (m m' : Minesweeper) (p : position) :
  opens m m' -> pendingAt m p = false -> pendingAt m' p = false.
Proof.
  intros H Hp. destruct (pendingAt m' p) eqn:Hp'; [|done].
  apply (opens_pendingAt m m') in Hp'; [congruence|done].
Qed.

Lemma opens_pendingOnField (m m' : Minesweeper) :
  opens m m' -> (pendingOnField m' <= pendingOnField m)%nat.
Proof.
  intros H. unfold pendingOnField.
  replace (_fieldSize m') with (_fieldSize m) by (symmetry; apply H).
  apply count_le. intros p _. by apply opens_pendingAt.
Qed.

Lemma opens_stateAt (m m' : Minesweeper) (p : position) :
  opens m m' ->
  stateAt m' p = stateAt m p \/ (pendingAt m p = true /\ stateAt m' p = Some OPENED).
Proof.
  intros H. unfold stateAt, pendingAt. destruct (look m p) as [c|] eqn:Hc.
  - destruct H as (_ & _ & _ & _ & _ & H).
    destruct (H p c Hc) as [->|(? & _ & ->)]; [by left|by right].
  - rewrite (opens_look_None m m') by done. by left.
Qed.

(** A cell opened across two steps was opened by one of them. *)
Lemma openedBy_split (m a a' : Minesweeper) (q : position) :
  opens m a -> opens a a' -> openedBy m a' q -> openedBy m a q \/ openedBy a a' q.
Proof.
  intros H1 H2 [Hp Ho]. destruct (pendingAt a q) eqn:Hpa; [right; by split|].
  left. split; [done|].
  destruct (opens_stateAt m a q H1) as [He|[_ He]]; [|done].
  exfalso. unfold stateAt, pendingAt in *.
  destruct (look m q), (look a q); simplify_eq; congruence.
Qed.

Lemma flood_ext (m m' : Minesweeper) (p q : position) :
  _fieldSize m' = _fieldSize m -> (forall a, bombsAround m' a = bombsAround m a) ->
  flood m' p q -> flood m p q.
Proof.
  intros Hn Hb. induction 1 as [|a b _ IH Hz Hadj]; [constructor|].
  apply (flood_step _ _ a); [done|by rewrite <- Hb|by rewrite <- Hn].
Qed.

Lemma flood_prepend (m : Minesweeper) (p r q : position) :
  bombsAround m p = 0%nat -> In r (adjacentPositions (_fieldSize m) p) ->
  flood m r q -> flood m p q.
Proof.
  intros Hz Hadj. induction 1 as [|a b _ IH Hza Hab].
  - apply (flood_step _ _ p); [constructor|done|done].
  - by apply (flood_step _ _ a).
Qed.

Lemma pending_openOrDetonate (c : Cell.t) :
  pending (Cell._state c) = true ->
  Cell.openOrDetonate c =
    (Cell.set_state c (if Cell._isBomb c then DETONATED else OPENED), true).
Proof.
  unfold Cell.openOrDetonate, Cell._openOrDoOtherIfBomb, pending. by intros ->.
Qed.

Lemma not_pending_openOrDoOther (s : CellState) (c : Cell.t) :
  pending (Cell._state c) = false -> Cell._openOrDoOtherIfBomb s c = (c, false).
Proof. unfold Cell._openOrDoOtherIfBomb, pending. by intros ->. Qed.

(** The first step of [_openCell] on a pending bomb-free cell. *)
Lemma opens_store (m : Minesweeper) (p : position) (c : Cell.t) :
  wellFormed m -> look m p = Some c ->
  pending (Cell._state c) = true -> Cell._isBomb c = false ->
  opens m (store m p (Cell.set_state c OPENED)) /\
  pendingOnField m = S (pendingOnField (store m p (Cell.set_state c OPENED))).
Proof.
  intros Hwf Hc Hpend Hnb.
  pose proof (look_inside m p c (proj1 Hwf) Hc) as Hp.
  assert (Cell._position c = p) as Hpos by (by apply Hwf).
  split.
  - split; [done|]. split; [by apply wellFormed_store|].
    rewrite store_fieldSize, store_bombNumber, store_state. do 3 (split; [done|]).
    intros q cq Hq. rewrite look_store by (done || apply Hwf).
    case_decide; [|by left]. simplify_eq. by right.
  - unfold pendingOnField. rewrite store_fieldSize.
    apply (count_flip _ _ _ p).
    + apply NoDup_fieldPositions.
    + by apply In_fieldPositions.
    + unfold pendingAt. rewrite look_store by (done || apply Hwf). by case_decide.
    + unfold pendingAt. by rewrite Hc.
    + intros q Hq. unfold pendingAt. rewrite look_store by (done || apply Hwf).
      by case_decide.
Qed.

Lemma openedBy_same (m : Minesweeper) (q : position) : ~ openedBy m m q.
Proof.
  intros [Hp Ho]. unfold pendingAt, stateAt in *.
  destruct (look m q) as [c|]; [|done]. injection Ho as Ho. by rewrite Ho in Hp.
Qed.

(** The loop of [_openCell] over the cells around an opened cell, given
    what the recursive calls do. *)
Lemma flood_neighbours (fuel : nat) (cells : list position) :
  (forall m p, wellFormed m -> inside (_fieldSize m) p -> isBombAt m p = false ->
     (pendingOnField m < fuel)%nat ->
     exists m', _openCell fuel m p = Ok m' /\ floods m p m') ->
  forall m0, wellFormed m0 ->
    (forall r, In r cells -> inside (_fieldSize m0) r /\ isBombAt m0 r = false) ->
    (pendingOnField m0 < fuel)%nat ->
    exists m',
      forEach (fun this3 adjacentCell =>
                 this4 <- _openCell fuel this3 adjacentCell ;; Ok (this4, false))
              cells m0 = Ok m' /\
      opens m0 m' /\
      (forall r, In r cells -> pendingAt m' r = false) /\
      (forall q, openedBy m0 m' q -> exists r, In r cells /\ flood m0 r q) /\
      (forall q, openedBy m0 m' q -> bombsAround m0 q = 0%nat ->
         forall r, In r (adjacentPositions (_fieldSize m0) q) -> pendingAt m' r = false).
Proof.
  intros Hrec. induction cells as [|r cells IH]; intros m0 Hwf Hcells Hfuel.
  - exists m0. split; [done|]. split; [by apply opens_refl|].
    split; [done|]. split; intros q Hq; by apply openedBy_same in Hq.
  - destruct (Hcells r (or_introl eq_refl)) as [Hr Hnb].
    destruct (Hrec m0 r Hwf Hr Hnb Hfuel) as (a & Hrun & Hopens & Hpr & Hflood & Hclosed).
    pose proof (opens_pendingOnField _ _ Hopens) as Hcount.
    pose proof Hopens as (_ & Hwfa & Hn & _).
    destruct (IH a Hwfa) as (m' & Hrest & Hopens' & Hprest & Hflood' & Hclosed').
    { intros r' Hr'. destruct (Hcells r' (or_intror Hr')) as [? ?].
      rewrite Hn, (opens_isBombAt m0 a) by done. done. }
    { lia. }
    exists m'. split; [simpl; rewrite Hrun; simpl; exact Hrest|].
    split; [by apply (opens_trans _ a)|]. split; [|split].
    + intros r' [<-|Hr']; [by apply (opens_not_pending a m')|by apply Hprest].
    + intros q Hq. apply (openedBy_split m0 a m') in Hq as [Hq|Hq]; [| |done|done].
      * exists r. split; [by left|by apply Hflood].
      * destruct (Hflood' q Hq) as (r' & Hr' & Hfl). exists r'. split; [by right|].
        apply (flood_ext m0 a); [done| |done].
        intros b. by apply opens_bombsAround.
    + intros q Hq Hz r' Hr'.
      apply (openedBy_split m0 a m') in Hq as [Hq|Hq]; [| |done|done].
      * apply (opens_not_pending a m'); [done|]. by apply (Hclosed q).
      * apply (Hclosed' q); [done|by rewrite (opens_bombsAround m0 a)|by rewrite Hn].
Qed.

Lemma count_zero_In (f : position -> bool) (l : list position) (p : position) :
  count f l = 0%nat -> In p l -> f p = false.
Proof. intros H. by apply count_zero. Qed.

(** [_openCell] on a bomb-free cell, given fuel for the pending cells. *)
Lemma openCell_floods (fuel : nat) (m : Minesweeper) (p : position) :
  wellFormed m -> inside (_fieldSize m) p -> isBombAt m p = false ->
  (pendingOnField m < fuel)%nat ->
  exists m', _openCell fuel m p = Ok m' /\ floods m p m'.
Proof.
  revert m p. induction fuel as [|fuel IH]; intros m p Hwf Hp Hnb Hfuel; [lia|].
  destruct (wellFormed_look m p Hwf Hp) as (c & Hc & Hpos).
  assert (Cell._isBomb c = false) as Hcb by (unfold isBombAt in Hnb; by rewrite Hc in Hnb).
  simpl. rewrite (cell_at_look _ _ _ Hc). simpl.
  destruct (pending (Cell._state c)) eqn:Hpend.
  - rewrite (pending_openOrDetonate c Hpend), Hcb. simpl.
    destruct (opens_store m p c Hwf Hc Hpend Hcb) as [Hopens Hcount].
    set (this1 := store m p (Cell.set_state c OPENED)) in *.
    pose proof Hopens as (_ & Hwf1 & Hn1 & _).
    assert (look this1 p = Some (Cell.set_state c OPENED)) as Hc1.
    { unfold this1. rewrite look_store by (done || apply Hwf). by case_decide. }
    rewrite (notifyCellStateChanged_spec this1 p _ Hwf1 Hc1). simpl.
    set (this2 := fire this1 _).
    assert (opens m this2) as Hopens2 by (by apply opens_fire).
    pose proof Hopens2 as (_ & Hwf2 & Hn2 & _).
    assert (look this2 p = Some (Cell.set_state c OPENED)) as Hc2
      by (unfold this2; by rewrite look_fire).
    rewrite (cell_at_look _ _ _ Hc2). simpl.
    rewrite getNumberAdjacentBombs_spec by (done || by rewrite Hn2).
    simpl. rewrite (opens_bombsAround m this2) by done.
    assert (forall q, openedBy m this2 q -> q = p) as Honly.
    { intros q [Hq Ho]. destruct (decide (p = q)) as [|Hne]; [done|]. exfalso.
      apply (openedBy_same m q). split; [done|].
      unfold stateAt in *. unfold this2, this1 in Ho.
      rewrite look_fire, look_store in Ho by (done || apply Hwf). by case_decide. }
    assert (pendingAt this2 p = false) as Hp2 by (unfold pendingAt; by rewrite Hc2).
    case_bool_decide as Hz; simpl.
    + rewrite forEachAdjacent_unfold by (done || by rewrite Hn2).
      destruct (flood_neighbours fuel (adjacentPositions (_fieldSize this2) p) IH this2 Hwf2)
        as (m' & Hrun & Hopens' & Hprest & Hflood & Hclosed).
      { intros r Hr. split; [by apply adjacent_inside in Hr|].
        rewrite (opens_isBombAt m this2) by done.
        apply (count_zero_In _ _ _ Hz). by rewrite <- Hn2. }
      { pose proof (opens_pendingOnField _ _ (opens_fire _ _ (cellNotification this1 p
          (Cell.set_state c OPENED)) (opens_refl this1 Hwf1))). fold this2 in H. lia. }
      exists m'. split; [done|].
      split; [by apply (opens_trans _ this2)|].
      split; [by apply (opens_not_pending this2 m')|]. split.
      * intros q Hq. apply (openedBy_split m this2 m') in Hq as [Hq|Hq]; [| |done|done].
        -- apply Honly in Hq as ->. constructor.
        -- destruct (Hflood q Hq) as (r & Hr & Hfl). rewrite Hn2 in Hr.
           apply (flood_prepend m p r); [done|done|].
           apply (flood_ext m this2); [done| |done].
           intros b. by apply opens_bombsAround.
      * intros q Hq Hzq r Hr.
        apply (openedBy_split m this2 m') in Hq as [Hq|Hq]; [| |done|done].
        -- apply Honly in Hq as ->. apply Hprest. by rewrite Hn2.
        -- apply (Hclosed q); [done|by rewrite (opens_bombsAround m this2)|by rewrite Hn2].
    + exists this2. split; [done|]. split; [done|]. split; [done|]. split.
      * intros q Hq. apply Honly in Hq as ->. constructor.
      * intros q Hq Hzq. apply Honly in Hq as ->. done.
  - unfold Cell.openOrDetonate.
    rewrite (not_pending_openOrDoOther DETONATED c Hpend). simpl.
    rewrite store_same by done. exists m. split; [done|].
    split; [by apply opens_refl|]. split; [unfold pendingAt; by rewrite Hc|].
    split; intros q Hq; by apply openedBy_same in Hq.
Qed.

(** ** Opening a cell that holds a bomb *)

Lemma openCell_bomb_resolved (fuel : nat) (m : Minesweeper) (p : position) (c : Cell.t) :
  wellFormed m -> look m p = Some c -> Cell._isBomb c = true ->
  pending (Cell._state c) = false -> _openCell (S fuel) m p = Ok m.
Proof.
  intros Hwf Hc Hb Hpend. simpl. rewrite (cell_at_look _ _ _ Hc). simpl.
  unfold Cell.openOrDetonate. rewrite (not_pending_openOrDoOther DETONATED c Hpend).
  simpl. by rewrite store_same.
Qed.

Lemma openCell_bomb_detonates (fuel : nat) (m : Minesweeper) (p : position) (c : Cell.t) :
  wellFormed m -> look m p = Some c -> Cell._isBomb c = true ->
  pending (Cell._state c) = true ->
  exists m2, resolved Cell.openOrDetonate m m2 /\
    _openCell (S fuel) m p = Ok (_setGameState m2 LOSS).
Proof.
  intros Hwf Hc Hb Hpend.
  pose proof (look_inside m p c (proj1 Hwf) Hc) as Hp.
  assert (Cell._position c = p) as Hpos by (by apply Hwf).
  simpl. rewrite (cell_at_look _ _ _ Hc). simpl.
  rewrite (pending_openOrDetonate c Hpend), Hb. simpl.
  set (this1 := store m p (Cell.set_state c DETONATED)).
  assert (wellFormed this1) as Hwf1 by (by apply wellFormed_store).
  assert (look this1 p = Some (Cell.set_state c DETONATED)) as Hc1.
  { unfold this1. rewrite look_store by (done || apply Hwf). by case_decide. }
  rewrite (notifyCellStateChanged_spec this1 p _ Hwf1 Hc1). simpl.
  set (this2 := fire this1 _).
  assert (wellFormed this2) as Hwf2 by (by apply (wellFormed_field this1)).
  assert (look this2 p = Some (Cell.set_state c DETONATED)) as Hc2
    by (unfold this2; by rewrite look_fire).
  rewrite (cell_at_look _ _ _ Hc2). simpl.
  destruct (setLoss_spec this2 Hwf2) as (m2 & (Hwf' & Hn & Hbn & Hst & Hres) & Hrun).
  exists m2. split; [|done].
  split; [done|]. unfold this2, this1 in Hn, Hbn, Hst. simpl in Hn, Hbn, Hst.
  rewrite store_fieldSize in Hn. rewrite store_bombNumber in Hbn. rewrite store_state in Hst.
  do 3 (split; [done|]).
  intros q cq Hq. destruct (decide (p = q)) as [<-|Hne].
  - assert (cq = c) as -> by congruence. rewrite (Hres p _ Hc2).
    by rewrite (pending_openOrDetonate c Hpend), Hb.
  - apply Hres. unfold this2, this1.
    rewrite look_fire, look_store by (done || apply Hwf). by case_decide.
Qed.

Lemma pendingOnField_openFuel (m : Minesweeper) : (pendingOnField m < openFuel m)%nat.
Proof. unfold pendingOnField, openFuel. pose proof (count_le_length (pendingAt m)
  (fieldPositions (_fieldSize m))). lia. Qed.

(** ** The public methods, state by state *)

Lemma openCell_gated (x y : Z) (m : Minesweeper) :
  _state m = INITIATED \/ _state m = WIN \/ _state m = LOSS -> openCell x y m = Ok m.
Proof.
  intros H. unfold openCell, _startGameIfNeeded.
  destruct H as [H|[H|H]]; rewrite H; simpl; by rewrite H.
Qed.

Lemma toggleCellBombMark_gated (x y : Z) (m : Minesweeper) :
  _state m = INITIATED \/ _state m = WIN \/ _state m = LOSS ->
  toggleCellBombMark x y m = Ok m.
Proof.
  intros H. unfold toggleCellBombMark, _startGameIfNeeded.
  destruct H as [H|[H|H]]; rewrite H; simpl; by rewrite H.
Qed.

Lemma openCell_READY (x y : Z) (m : Minesweeper) :
  _state m = READY -> openCell x y m = openCell x y (_setGameState m RUNNING).
Proof. intros H. unfold openCell, _startGameIfNeeded. by rewrite H. Qed.

Lemma toggleCellBombMark_READY (x y : Z) (m : Minesweeper) :
  _state m = READY ->
  toggleCellBombMark x y m = toggleCellBombMark x y (_setGameState m RUNNING).
Proof. intros H. unfold toggleCellBombMark, _startGameIfNeeded. by rewrite H. Qed.

Lemma openCell_RUNNING (x y : Z) (m : Minesweeper) :
  _state m = RUNNING ->
  openCell x y m = (this1 <- _openCell (openFuel m) m (x, y) ;; _setWinIfNeeded this1).
Proof. intros H. unfold openCell, _startGameIfNeeded. rewrite H. simpl. by rewrite H. Qed.

Lemma outside_look (m : Minesweeper) (p : position) :
  wellFormed m -> ~ inside (_fieldSize m) p -> look m p = None.
Proof.
  intros Hwf Hout. destruct (look m p) as [c|] eqn:Hc; [|done].
  exfalso. apply Hout. by eapply look_inside; [apply Hwf|].
Qed.

Lemma openCell_outside (x y : Z) (m : Minesweeper) :
  wellFormed m -> _state m = RUNNING -> ~ inside (_fieldSize m) (x, y) ->
  openCell x y m = TypeError m.
Proof.
  intros Hwf Hst Hout. rewrite openCell_RUNNING by done.
  unfold openFuel. simpl. by rewrite cell_at_None by (by apply outside_look).
Qed.

Lemma toggleCellBombMark_outside (x y : Z) (m : Minesweeper) :
  wellFormed m -> _state m = RUNNING -> ~ inside (_fieldSize m) (x, y) ->
  toggleCellBombMark x y m = TypeError m.
Proof.
  intros Hwf Hst Hout. unfold toggleCellBombMark, _startGameIfNeeded. rewrite Hst. simpl.
  rewrite Hst. simpl.
  by rewrite cell_at_None by (by apply outside_look).
Qed.

(** What the recursive open of [openCell] does in a running game. *)
Lemma openCell_recursive_open (m : Minesweeper) (p : position) :
  wellFormed m -> inside (_fieldSize m) p ->
  exists m1, _openCell (openFuel m) m p = Ok m1 /\ wellFormed m1 /\
    ((isBombAt m p = false /\ floods m p m1)
     \/ (isBombAt m p = true /\ pendingAt m p = false /\ m1 = m)
     \/ (isBombAt m p = true /\ pendingAt m p = true /\
         exists m2, resolved Cell.openOrDetonate m m2 /\ m1 = _setGameState m2 LOSS)).
Proof.
  intros Hwf Hp. destruct (isBombAt m p) eqn:Hb.
  - destruct (wellFormed_look m p Hwf Hp) as (c & Hc & _).
    unfold isBombAt in Hb. rewrite Hc in Hb. unfold pendingAt. rewrite Hc.
    destruct (pending (Cell._state c)) eqn:Hpend.
    + destruct (openCell_bomb_detonates (length (fieldPositions (_fieldSize m))) m p c)
        as (m2 & Hres & Hrun); try done.
      exists (_setGameState m2 LOSS). split; [done|].
      split; [apply wellFormed_setGameState, Hres|]. right. right. eauto.
    + exists m. split; [by apply openCell_bomb_resolved with c|]. split; [done|].
      right. by left.
  - destruct (openCell_floods (openFuel m) m p Hwf Hp Hb (pendingOnField_openFuel m))
      as (m1 & Hrun & Hfl).
    exists m1. split; [done|]. split; [apply Hfl|]. by left.
Qed.

(** ** What holds of every reachable engine *)

Lemma stateAt_field (m m' : Minesweeper) (p : position) :
  _gameField m = _gameField m' -> stateAt m p = stateAt m' p.
Proof. intros H. unfold stateAt. by rewrite (look_field m m'). Qed.

Lemma pendingAt_field (m m' : Minesweeper) (p : position) :
  _gameField m = _gameField m' -> pendingAt m p = pendingAt m' p.
Proof. intros H. unfold pendingAt. by rewrite (look_field m m'). Qed.

Lemma isBombAt_field (m m' : Minesweeper) (p : position) :
  _gameField m = _gameField m' -> isBombAt m p = isBombAt m' p.
Proof. intros H. unfold isBombAt. by rewrite (look_field m m'). Qed.

Lemma bombsAround_field (m m' : Minesweeper) (p : position) :
  _gameField m = _gameField m' -> _fieldSize m = _fieldSize m' ->
  bombsAround m p = bombsAround m' p.
Proof.
  intros H Hn. unfold bombsAround. rewrite Hn. apply count_ext.
  intros q _. by apply isBombAt_field.
Qed.

Lemma consistent_field (m m' : Minesweeper) :
  _gameField m = _gameField m' -> _fieldSize m = _fieldSize m' ->
  consistent m -> consistent m'.
Proof.
  intros Hf Hn (Hwf & Hj & Hcl). split; [by apply (wellFormed_field m)|]. split.
  - intros p c. rewrite <- (look_field m m') by done. apply Hj.
  - intros p. rewrite <- (stateAt_field m m'), <- (bombsAround_field m m'), <- Hn by done.
    intros Ho Hz r Hr. rewrite <- (pendingAt_field m m') by done. by apply (Hcl p).
Qed.

Lemma consistent_allInitial (m : Minesweeper) :
  wellFormed m -> allInitial m -> consistent m.
Proof.
  intros Hwf Hinit. split; [done|]. split.
  - intros p c Hc _. by rewrite (Hinit p c Hc).
  - intros p Ho. unfold stateAt in Ho. destruct (look m p) as [c|] eqn:Hc; [|done].
    rewrite (Hinit p c Hc) in Ho. done.
Qed.

Lemma consistent_floods (m m' : Minesweeper) (p : position) :
  consistent m -> floods m p m' -> consistent m'.
Proof.
  intros (Hwf & Hj & Hcl) (Hopens & _ & _ & Hclosed).
  pose proof Hopens as (_ & Hwf' & Hn & _ & _ & Hcells).
  split; [done|]. split.
  - intros q c' Hc' Hnb.
    assert (inside (_fieldSize m) q) as Hq
      by (rewrite <- Hn; by eapply look_inside; [apply Hwf'|]).
    destruct (wellFormed_look m q Hwf Hq) as (c & Hc & _).
    destruct (Hcells q c Hc) as [H|(_ & _ & H)]; rewrite H in Hc'; simplify_eq.
    + by apply (Hj q).
    + done.
  - intros q Ho Hz r Hr. rewrite Hn in Hr. rewrite (opens_bombsAround m m') in Hz by done.
    destruct (opens_stateAt m m' q Hopens) as [He|[Hpq _]].
    + apply (opens_not_pending m m'); [done|]. apply (Hcl q); [by rewrite <- He|done|done].
    + by apply (Hclosed q).
Qed.

Lemma pending_resolved (s : CellState) (c : Cell.t) :
  pending s = false -> pending (Cell._state (Cell._openOrDoOtherIfBomb s c).1) = false.
Proof.
  intros Hs. unfold Cell._openOrDoOtherIfBomb.
  destruct (pending (Cell._state c)) eqn:Hp; unfold pending in Hp; rewrite Hp; simpl;
    [by destruct (Cell._isBomb c)|done].
Qed.

Lemma consistent_resolved (s : CellState) (m m' : Minesweeper) :
  s = DEFUSED \/ s = DETONATED ->
  wellFormed m -> onlyBombsResolved m ->
  resolved (Cell._openOrDoOtherIfBomb s) m m' -> consistent m'.
Proof.
  intros Hs Hwf Hj (Hwf' & Hn & _ & _ & Hres).
  assert (forall q c', look m' q = Some c' ->
            exists c, look m q = Some c /\ c' = (Cell._openOrDoOtherIfBomb s c).1) as Hback.
  { intros q c' Hc'.
    assert (inside (_fieldSize m) q) as Hq
      by (rewrite <- Hn; by eapply look_inside; [apply Hwf'|]).
    destruct (wellFormed_look m q Hwf Hq) as (c & Hc & _).
    exists c. split; [done|]. rewrite (Hres q c Hc) in Hc'. congruence. }
  split; [done|]. split.
  - intros q c' Hc' Hnb. destruct (Hback q c' Hc') as (c & Hc & ->).
    unfold Cell._openOrDoOtherIfBomb in *. destruct (_ || _) eqn:Hp; simpl in *.
    + by rewrite Hnb.
    + by apply (Hj q).
  - intros q _ _ r _. unfold pendingAt.
    destruct (look m' r) as [c'|] eqn:Hc'; [|done].
    destruct (Hback r c' Hc') as (c & Hc & ->). apply pending_resolved.
    by destruct Hs as [-> | ->].
Qed.

Lemma consistent_setWinIfNeeded (m m' : Minesweeper) :
  consistent m -> _setWinIfNeeded m = Ok m' -> consistent m'.
Proof.
  intros Hc Hrun. destruct (setWinIfNeeded_spec m (proj1 Hc))
    as [(_ & _ & m1 & Hres & Hrun')|[_ Hrun']]; rewrite Hrun' in Hrun; simplify_eq; [|done].
  apply (consistent_field m1); [done|done|].
  apply (consistent_resolved DEFUSED m); [by left|apply Hc|apply Hc|done].
Qed.

Lemma inside_dec (n : nat) (p : position) : {inside n p} + {~ inside n p}.
Proof.
  unfold inside.
  destruct (Z_le_dec 0 p.1), (Z_lt_dec p.1 (Z.of_nat n)), (Z_le_dec 0 p.2),
    (Z_lt_dec p.2 (Z.of_nat n)); first [left; lia | right; lia].
Qed.

Lemma openCell_RUNNING_inside (x y : Z) (m : Minesweeper) :
  wellFormed m -> _state m = RUNNING -> inside (_fieldSize m) (x, y) ->
  exists m1 m', openCell x y m = Ok m' /\ _setWinIfNeeded m1 = Ok m' /\ wellFormed m1 /\
    ((isBombAt m (x, y) = false /\ floods m (x, y) m1)
     \/ (isBombAt m (x, y) = true /\ pendingAt m (x, y) = false /\ m1 = m)
     \/ (isBombAt m (x, y) = true /\ pendingAt m (x, y) = true /\
         exists m2, resolved Cell.openOrDetonate m m2 /\ m1 = _setGameState m2 LOSS)).
Proof.
  intros Hwf Hst Hp.
  destruct (openCell_recursive_open m (x, y) Hwf Hp) as (m1 & Hrun & Hwf1 & Hcases).
  assert (exists m', _setWinIfNeeded m1 = Ok m') as [m' Hwin].
  { destruct (setWinIfNeeded_spec m1 Hwf1) as [(_ & _ & m2 & _ & ->)|[_ ->]]; eauto. }
  exists m1, m'. split; [|done].
  rewrite openCell_RUNNING by done. rewrite Hrun. done.
Qed.

Lemma consistent_recursive_open (m m1 : Minesweeper) (p : position) :
  consistent m ->
  ((isBombAt m p = false /\ floods m p m1)
   \/ (isBombAt m p = true /\ pendingAt m p = false /\ m1 = m)
   \/ (isBombAt m p = true /\ pendingAt m p = true /\
       exists m2, resolved Cell.openOrDetonate m m2 /\ m1 = _setGameState m2 LOSS)) ->
  consistent m1.
Proof.
  intros Hc [[_ Hfl]|[(_ & _ & ->)|(_ & _ & m2 & Hres & ->)]]; [|done|].
  - by apply (consistent_floods m m1 p).
  - apply (consistent_field m2); [done|done|].
    apply (consistent_resolved DETONATED m); [by right|apply Hc|apply Hc|done].
Qed.

Lemma consistent_setGameState (m : Minesweeper) (s : GameState) :
  consistent m -> consistent (_setGameState m s).
Proof. by apply consistent_field. Qed.

Lemma consistent_openCell_RUNNING (x y : Z) (m : Minesweeper) :
  consistent m -> _state m = RUNNING ->
  (forall m', openCell x y m = Ok m' -> consistent m') /\
  (forall m', openCell x y m = TypeError m' -> consistent m').
Proof.
  intros Hc Hst. destruct (inside_dec (_fieldSize m) (x, y)) as [Hp|Hout].
  - destruct (openCell_RUNNING_inside x y m (proj1 Hc) Hst Hp)
      as (m1 & m' & -> & Hwin & _ & Hcases).
    split; intros ? [= <-].
    apply (consistent_setWinIfNeeded m1); [|done].
    by apply (consistent_recursive_open m m1 (x, y)).
  - rewrite openCell_outside by (done || apply Hc). split; intros ? [= <-]. done.
Qed.

Lemma state_cases (m : Minesweeper) :
  (_state m = INITIATED \/ _state m = WIN \/ _state m = LOSS)
  \/ _state m = READY \/ _state m = RUNNING.
Proof. destruct (_state m); auto. Qed.

Lemma consistent_openCell (x y : Z) (m : Minesweeper) :
  consistent m ->
  (forall m', openCell x y m = Ok m' -> consistent m') /\
  (forall m', openCell x y m = TypeError m' -> consistent m').
Proof.
  intros Hc. destruct (state_cases m) as [Hg|[Hr|Hr]].
  - rewrite openCell_gated by done. split; intros ? [= <-]. done.
  - rewrite openCell_READY by done.
    apply consistent_openCell_RUNNING; [by apply consistent_setGameState|done].
  - by apply consistent_openCell_RUNNING.
Qed.

(** ** Marking *)

Lemma toggleBombMark_pending (c : Cell.t) :
  pending (Cell._state c) = true ->
  Cell.toggleBombMark c =
    (Cell.set_state c (if bool_decide (Cell._state c = INITIAL)
                       then MARKED_AS_BOMB else INITIAL), true).
Proof. unfold Cell.toggleBombMark. by destruct (Cell._state c). Qed.

Lemma toggleBombMark_not_pending (c : Cell.t) :
  pending (Cell._state c) = false -> Cell.toggleBombMark c = (c, false).
Proof. destruct c as [b s p]. by destruct s. Qed.

Lemma toggleCellBombMark_RUNNING (x y : Z) (m : Minesweeper) (c : Cell.t) :
  wellFormed m -> _state m = RUNNING -> look m (x, y) = Some c ->
  (pending (Cell._state c) = false /\ toggleCellBombMark x y m = Ok m)
  \/ (pending (Cell._state c) = true /\
      let c' := Cell.set_state c (if bool_decide (Cell._state c = INITIAL)
                                  then MARKED_AS_BOMB else INITIAL) in
      let m1 := store m (x, y) c' in
      toggleCellBombMark x y m
      = _setWinIfNeeded (fire m1 (cellNotification m1 (x, y) c'))).
Proof.
  intros Hwf Hst Hc.
  pose proof (look_inside m _ c (proj1 Hwf) Hc) as Hp.
  assert (Cell._position c = (x, y)) as Hpos by (by apply Hwf).
  assert (toggleCellBombMark x y m =
            if (Cell.toggleBombMark c).2
            then this2 <- _notifyCellStateChanged
                            (store m (x, y) (Cell.toggleBombMark c).1) (x, y) ;;
                 _setWinIfNeeded this2
            else Ok (store m (x, y) (Cell.toggleBombMark c).1)) as ->.
  { unfold toggleCellBombMark, _startGameIfNeeded. rewrite Hst. simpl. rewrite Hst. simpl.
    by rewrite (cell_at_look _ _ _ Hc). }
  destruct (pending (Cell._state c)) eqn:Hpend.
  - right. split; [done|]. rewrite (toggleBombMark_pending c Hpend). simpl.
    rewrite (notifyCellStateChanged_spec _ (x, y)
      (Cell.set_state c (if bool_decide (Cell._state c = INITIAL)
                         then MARKED_AS_BOMB else INITIAL))); [done| |].
    + by apply wellFormed_store.
    + rewrite look_store by (done || apply Hwf). by case_decide.
  - left. split; [done|]. rewrite (toggleBombMark_not_pending c Hpend). simpl.
    by rewrite store_same.
Qed.

Lemma consistent_marked (m : Minesweeper) (p : position) (c : Cell.t) (s : CellState) :
  consistent m -> look m p = Some c ->
  pending (Cell._state c) = true -> pending s = true ->
  consistent (store m p (Cell.set_state c s)).
Proof.
  intros (Hwf & Hj & Hcl) Hc Hpend Hs.
  pose proof (look_inside m _ c (proj1 Hwf) Hc) as Hp.
  assert (Cell._position c = p) as Hpos by (by apply Hwf).
  assert (forall q, isBombAt (store m p (Cell.set_state c s)) q = isBombAt m q) as Hbombs.
  { intros q. unfold isBombAt. rewrite look_store by (done || apply Hwf).
    case_decide; [|done]. subst. by rewrite Hc. }
  split; [by apply wellFormed_store|]. split.
  - intros q cq. rewrite look_store by (done || apply Hwf). case_decide; [|apply Hj].
    intros [= <-] _. simpl. by destruct s.
  - intros a. unfold stateAt, bombsAround, pendingAt. rewrite store_fieldSize.
    rewrite look_store by (done || apply Hwf). case_decide as Hpa.
    { simpl. intros [= ->]. done. }
    intros Ho Hz r Hr.
    rewrite look_store by (done || apply Hwf). case_decide as Hpr.
    + subst r. exfalso.
      assert (pendingAt m p = false) as Hnp.
      { apply (Hcl a); [done| |done]. unfold bombsAround. rewrite <- Hz.
        apply count_ext. intros q _. by rewrite Hbombs. }
      unfold pendingAt in Hnp. rewrite Hc in Hnp. congruence.
    + apply (Hcl a); [done| |done]. unfold bombsAround. rewrite <- Hz.
      apply count_ext. intros q _. by rewrite Hbombs.
Qed.

Lemma consistent_toggle_RUNNING (x y : Z) (m : Minesweeper) :
  consistent m -> _state m = RUNNING ->
  (forall m', toggleCellBombMark x y m = Ok m' -> consistent m') /\
  (forall m', toggleCellBombMark x y m = TypeError m' -> consistent m').
Proof.
  intros Hc Hst. destruct (inside_dec (_fieldSize m) (x, y)) as [Hp|Hout].
  - destruct (wellFormed_look m _ (proj1 Hc) Hp) as (c & Hcell & _).
    destruct (toggleCellBombMark_RUNNING x y m c (proj1 Hc) Hst Hcell)
      as [[_ ->]|[Hpend ->]]; [split; intros ? [= <-]; done|].
    set (m2 := fire _ _).
    assert (consistent m2) as Hc2.
    { apply (consistent_field (store m (x, y) (Cell.set_state c
        (if bool_decide (Cell._state c = INITIAL) then MARKED_AS_BOMB else INITIAL))));
        [done|done|].
      apply consistent_marked; try done. by case_bool_decide. }
    split; intros m' Hrun; [by apply (consistent_setWinIfNeeded m2)|].
    destruct (setWinIfNeeded_spec m2 (proj1 Hc2)) as [(_ & _ & ? & _ & H)|[_ H]];
      rewrite H in Hrun; done.
  - rewrite toggleCellBombMark_outside by (done || apply Hc).
    split; intros ? [= <-]. done.
Qed.

Lemma consistent_toggleCellBombMark (x y : Z) (m : Minesweeper) :
  consistent m ->
  (forall m', toggleCellBombMark x y m = Ok m' -> consistent m') /\
  (forall m', toggleCellBombMark x y m = TypeError m' -> consistent m').
Proof.
  intros Hc. destruct (state_cases m) as [Hg|[Hr|Hr]].
  - rewrite toggleCellBombMark_gated by done. split; intros ? [= <-]. done.
  - rewrite toggleCellBombMark_READY by done.
    apply consistent_toggle_RUNNING; [by apply consistent_setGameState|done].
  - by apply consistent_toggle_RUNNING.
Qed.

(** ** The constructor and the restart *)

Lemma blank_shaped (fieldSize bombNumber : nat) (s : GameState) (l : list Notification) :
  shaped {| _fieldSize := fieldSize; _bombNumber := bombNumber; _state := s;
            _gameField := replicate fieldSize (replicate fieldSize None);
            notified := l |}.
Proof.
  split; [|split]; simpl.
  - apply length_replicate.
  - intros i row Hrow. apply lookup_replicate in Hrow as [-> _]. apply length_replicate.
  - intros p c Hc. apply look_Some_rows in Hc as (_ & _ & row & Hrow & Hc). simpl in Hrow.
    apply lookup_replicate in Hrow as [-> _]. apply lookup_replicate in Hc as [? _]. done.
Qed.

Lemma setBombsOnGameField_Ok (random : nat -> fraction) (m : Minesweeper) :
  shaped m ->
  exists m', _setBombsOnGameField random m = Ok m' /\
    wellFormed m' /\ allInitial m' /\ noBombSurrounded m' /\ _state m' = READY /\
    _fieldSize m' = _fieldSize m /\ _bombNumber m' = _bombNumber m.
Proof.
  intros Hs. destruct (setBombsOnGameField_spec random m Hs)
    as (m1 & s & _ & Hrun & Hn & Hb & Hinv & _).
  destruct Hinv as (Hwf & Hn' & Hb' & _ & _ & _ & Hnbs & Hinit & _).
  exists (_setGameState (engine s) READY). split; [done|].
  split; [by apply wellFormed_setGameState|].
  split; [intros p c; rewrite look_setGameState; apply Hinit|].
  split; [|split; [done|split; simpl; congruence]].
  intros p Hp. unfold surrounded. simpl.
  rewrite (isBombAt_field _ (engine s)) by done. intros Hbomb.
  rewrite <- (Hnbs p Hp Hbomb). apply forallb_ext_In. intros q _.
  by apply isBombAt_field.
Qed.

Lemma consistent_setBombsOnGameField (random : nat -> fraction) (m : Minesweeper) :
  shaped m ->
  (forall m', _setBombsOnGameField random m = Ok m' -> consistent m') /\
  (forall m', _setBombsOnGameField random m = TypeError m' -> consistent m').
Proof.
  intros Hs. destruct (setBombsOnGameField_Ok random m Hs) as (m1 & -> & Hwf & Hinit & _).
  split; intros ? [= <-]. by apply consistent_allInitial.
Qed.

Theorem reachable_consistent (m : Minesweeper) : reachable m -> consistent m.
Proof.
  induction 1 as [n b random m Hnew|x y m m' _ IH Hrun|x y m m' _ IH Hrun
                 |x y m m' _ IH Hrun|x y m m' _ IH Hrun
                 |random m m' _ IH Hrun|random m m' _ IH Hrun].
  - exact (proj1 (consistent_setBombsOnGameField random _ (blank_shaped n b INITIATED []))
             m Hnew).
  - exact (proj1 (consistent_openCell x y m IH) m' Hrun).
  - exact (proj2 (consistent_openCell x y m IH) m' Hrun).
  - exact (proj1 (consistent_toggleCellBombMark x y m IH) m' Hrun).
  - exact (proj2 (consistent_toggleCellBombMark x y m IH) m' Hrun).
  - exact (proj1 (consistent_setBombsOnGameField random m (proj1 (proj1 IH))) m' Hrun).
  - exact (proj2 (consistent_setBombsOnGameField random m (proj1 (proj1 IH))) m' Hrun).
Qed.

(* ================================================================== *)
(** * The properties of the specification *)

(** ** Sample engines *)

Lemma corner2_reachable : reachable corner2.
Proof. apply (reachable_new 2 1 (always zero)). vm_compute. reflexivity. Defined.

Lemma corner2_started_reachable : reachable corner2_started.
Proof.
  apply (reachable_openCell 0 1 corner2); [apply corner2_reachable|].
  vm_compute. reflexivity.
Defined.

Lemma corner2_opened_reachable : reachable corner2_opened.
Proof.
  apply (reachable_openCell 1 1 (the (openCell 1 0 corner2_started))).
  - apply (reachable_openCell 1 0 corner2_started); [apply corner2_started_reachable|].
    vm_compute. reflexivity.
  - vm_compute. reflexivity.
Defined.

Lemma corner2_lost_reachable : reachable corner2_lost.
Proof.
  apply (reachable_openCell 0 0 corner2); [apply corner2_reachable|].
  vm_compute. reflexivity.
Defined.

Lemma corner3_marked_reachable : reachable corner3_marked.
Proof.
  apply (reachable_toggleCellBombMark 2 2 corner3).
  - apply (reachable_new 3 1 (always twoThirds)). vm_compute. reflexivity.
  - vm_compute. reflexivity.
Defined.

(** ** The terminal states of a cell *)

(** C7.  On a cell that is OPENED, DEFUSED or DETONATED, [openOrDetonate],
    [openOrDefuse] and [toggleBombMark] return false and leave the cell, its
    state and its bomb flag as they are.  No operation of a cell throws:
    from any state each of the four returns a cell and a flag, and the flag
    tells whether the state has changed. *)
Theorem cell_terminal_states (c : Cell.t) :
  (terminal (Cell._state c) ->
   Cell.openOrDetonate c = (c, false) /\
   Cell.openOrDefuse c = (c, false) /\
   Cell.toggleBombMark c = (c, false))
  /\
  (forall operation,
     In operation [Cell.openOrDetonate; Cell.openOrDefuse; Cell.toggleBombMark; Cell.clear] ->
     (operation c).2 = negb (bool_decide (Cell._state (operation c).1 = Cell._state c))).
Proof.
  destruct c as [b s p]. split.
  - intros [H|[H|H]]; simpl in H; subst s; done.
  - intros operation [<-|[<-|[<-|[<-|[]]]]]; destruct s, b; done.
Qed.

Lemma cell_terminal_states_witness :
  terminal (Cell._state defusedCell) /\
  Cell.openOrDetonate defusedCell = (defusedCell, false) /\
  Cell.openOrDefuse defusedCell = (defusedCell, false) /\
  Cell.toggleBombMark defusedCell = (defusedCell, false).
Proof.
  assert (terminal (Cell._state defusedCell)) as H by (right; left; reflexivity).
  split; [exact H|]. exact (proj1 (cell_terminal_states defusedCell) H).
Defined.

(** ** The gate on the state of the game *)

(** C10.  [openCell] and [toggleCellBombMark] look at the state of the game
    before they index the grid.  In INITIATED, WIN and LOSS they return
    the engine as it is, whatever the coordinates, and do not throw.  In
    READY and RUNNING coordinates outside the grid reach the unguarded
    indexing, which throws, the game having been started.  A throw occurs
    in READY and RUNNING only. *)
Theorem gate_before_indexing (x y : Z) (m : Minesweeper) :
  (_state m = INITIATED \/ _state m = WIN \/ _state m = LOSS ->
   openCell x y m = Ok m /\ toggleCellBombMark x y m = Ok m)
  /\
  (wellFormed m -> _state m = READY \/ _state m = RUNNING ->
   ~ inside (_fieldSize m) (x, y) ->
   openCell x y m = TypeError (_startGameIfNeeded m).1 /\
   toggleCellBombMark x y m = TypeError (_startGameIfNeeded m).1 /\
   _state (_startGameIfNeeded m).1 = RUNNING)
  /\
  (forall m', openCell x y m = TypeError m' \/ toggleCellBombMark x y m = TypeError m' ->
     _state m = READY \/ _state m = RUNNING).
Proof.
  split; [|split].
  - intros Hg. split; [by apply openCell_gated|by apply toggleCellBombMark_gated].
  - intros Hwf [Hr|Hr] Hout.
    + rewrite openCell_READY, toggleCellBombMark_READY by done.
      unfold _startGameIfNeeded. rewrite Hr. simpl.
      rewrite openCell_outside, toggleCellBombMark_outside;
        try done; by apply wellFormed_setGameState.
    + unfold _startGameIfNeeded. rewrite Hr. simpl.
      by rewrite openCell_outside, toggleCellBombMark_outside.
  - intros m' Hthrow. destruct (state_cases m) as [Hg|Hr]; [|done].
    rewrite openCell_gated, toggleCellBombMark_gated in Hthrow by done.
    by destruct Hthrow.
Qed.

Lemma gate_before_indexing_witness :
  wellFormed corner2 /\ ~ inside (_fieldSize corner2) (5, -1) /\
  openCell 5 (-1) corner2 = TypeError (_startGameIfNeeded corner2).1 /\
  toggleCellBombMark 5 (-1) corner2 = TypeError (_startGameIfNeeded corner2).1 /\
  openCell 5 (-1) corner2_lost = Ok corner2_lost.
Proof.
  assert (wellFormed corner2) as Hwf by apply (reachable_consistent _ corner2_reachable).
  assert (~ inside (_fieldSize corner2) (5, -1)) as Hout by (unfold inside; simpl; lia).
  split; [exact Hwf|]. split; [exact Hout|].
  destruct (gate_before_indexing 5 (-1) corner2) as (_ & Hthrow & _).
  destruct (Hthrow Hwf (or_introl eq_refl) Hout) as (H1 & H2 & _).
  split; [exact H1|]. split; [exact H2|].
  destruct (gate_before_indexing 5 (-1) corner2_lost) as (Hgate & _).
  exact (proj1 (Hgate (or_intror (or_intror eq_refl)))).
Defined.

(** C6, as the code has it.  In INITIATED, WIN and LOSS, [openCell] and
    [toggleCellBombMark] return the engine as it is, whatever their
    arguments: nothing is notified, and the state of the game, the state of
    every cell and every bomb flag are as before.  ([restartGame] is not
    gated.) *)
Theorem gated_commands_do_nothing (x y : Z) (m : Minesweeper) :
  _state m = INITIATED \/ _state m = WIN \/ _state m = LOSS ->
  openCell x y m = Ok m /\ toggleCellBombMark x y m = Ok m.
Proof.
  intros Hg. split; [by apply openCell_gated|by apply toggleCellBombMark_gated].
Qed.

Lemma gated_commands_do_nothing_witness :
  (_state corner2_lost = INITIATED \/ _state corner2_lost = WIN \/ _state corner2_lost = LOSS)
  /\ openCell 1 1 corner2_lost = Ok corner2_lost
  /\ toggleCellBombMark 1 1 corner2_lost = Ok corner2_lost.
Proof.
  assert (_state corner2_lost = INITIATED \/ _state corner2_lost = WIN
          \/ _state corner2_lost = LOSS) as Hg by (right; right; reflexivity).
  split; [exact Hg|]. exact (gated_commands_do_nothing 1 1 corner2_lost Hg).
Defined.

(** C6 fails for [restartGame]: on a lost game it notifies (the four cells
    cleared and the new state), sets the state to READY and clears the
    cells. *)
Lemma restartGame_not_gated :
  reachable corner2_lost /\ _state corner2_lost = LOSS /\
  exists m', restartGame (always zero) corner2_lost = Ok m' /\
    _state m' = READY /\
    length (notified m') = (length (notified corner2_lost) + 5)%nat /\
    stateAt corner2_lost (0, 0) = Some DETONATED /\ stateAt m' (0, 0) = Some INITIAL.
Proof.
  split; [apply corner2_lost_reachable|]. split; [reflexivity|].
  exists (the (restartGame (always zero) corner2_lost)).
  split; [vm_compute; reflexivity|]. split; [vm_compute; reflexivity|].
  split; [vm_compute; reflexivity|]. split; vm_compute; reflexivity.
Qed.

(** ** Marking twice *)

Lemma store_fire (m : Minesweeper) (e : Notification) (p : position) (c : Cell.t) :
  store (fire m e) p c = fire (store m p c) e.
Proof. unfold store. by destruct (_ && _). Qed.

Lemma not_winning (m : Minesweeper) (q : position) :
  wellFormed m -> blocksWin m q = true -> winning m = false.
Proof.
  intros Hwf Hq. unfold winning. apply negb_false_iff, existsb_exists.
  exists q. split; [|done]. apply In_fieldPositions.
  unfold blocksWin in Hq. destruct (look m q) as [c|] eqn:Hc; [|done].
  by eapply look_inside; [apply Hwf|].
Qed.

Lemma setWinIfNeeded_blocked (m : Minesweeper) (q : position) :
  wellFormed m -> blocksWin m q = true -> _setWinIfNeeded m = Ok m.
Proof.
  intros Hwf Hq. pose proof (not_winning m q Hwf Hq) as Hnw.
  destruct (setWinIfNeeded_spec m Hwf) as [(_ & Hw & _)|[_ H]]; [congruence|done].
Qed.

(** Marking twice, when the first mark does not win: the engine is as it
    was but for the two notifications. *)
Lemma toggle_twice_engine (x y : Z) (m : Minesweeper) :
  wellFormed m -> _state m = RUNNING -> stateAt m (x, y) = Some INITIAL ->
  (isBombAt m (x, y) = false \/ exists q, q <> (x, y) /\ blocksWin m q = true) ->
  exists m1,
    toggleCellBombMark x y m = Ok m1 /\
    stateAt m1 (x, y) = Some MARKED_AS_BOMB /\
    toggleCellBombMark x y m1
    = Ok (fire (fire m (onCellStateChanged x y
                          {| state := MARKED_AS_BOMB; numberBombs := None |}))
               (onCellStateChanged x y {| state := INITIAL; numberBombs := None |})).
Proof.
  intros Hwf Hst Hinit Hnowin. unfold stateAt in Hinit.
  destruct (look m (x, y)) as [c|] eqn:Hc; [|done]. injection Hinit as Hinit.
  pose proof (look_inside m _ c (proj1 Hwf) Hc) as Hp.
  assert (Cell._position c = (x, y)) as Hpos by (by apply Hwf).
  assert (pending (Cell._state c) = true) as Hpend by (by rewrite Hinit).
  destruct (toggleCellBombMark_RUNNING x y m c Hwf Hst Hc) as [[? _]|[_ Hrun]];
    [congruence|].
  rewrite Hinit in Hrun. simpl in Hrun.
  set (c1 := Cell.set_state c MARKED_AS_BOMB) in *.
  set (m1 := store m (x, y) c1) in *.
  assert (cellNotification m1 (x, y) c1
          = onCellStateChanged x y {| state := MARKED_AS_BOMB; numberBombs := None |})
    as He1 by done.
  rewrite He1 in Hrun. set (e1 := onCellStateChanged x y _) in *.
  assert (wellFormed m1) as Hwf1 by (by apply wellFormed_store).
  assert (wellFormed (fire m1 e1)) as Hwf2 by (by apply (wellFormed_field m1)).
  assert (forall q, look (fire m1 e1) q = if decide ((x, y) = q) then Some c1 else look m q)
    as Hlook.
  { intros q. unfold m1. rewrite look_fire. apply look_store; [apply Hwf|done]. }
  assert (exists q, blocksWin (fire m1 e1) q = true) as [q Hq].
  { destruct Hnowin as [Hnb|(q & Hne & Hq)].
    - exists (x, y). unfold blocksWin. rewrite Hlook. case_decide; [|done]. simpl.
      unfold isBombAt in Hnb. rewrite Hc in Hnb. by rewrite Hnb.
    - exists q. unfold blocksWin in *. rewrite Hlook. case_decide; [congruence|done]. }
  rewrite (setWinIfNeeded_blocked _ q Hwf2 Hq) in Hrun.
  exists (fire m1 e1). split; [done|]. split.
  { unfold stateAt. rewrite Hlook. by case_decide. }
  assert (look (fire m1 e1) (x, y) = Some c1) as Hc1 by (rewrite Hlook; by case_decide).
  assert (_state (fire m1 e1) = RUNNING) as Hst1
    by (unfold m1; simpl; by rewrite store_state).
  destruct (toggleCellBombMark_RUNNING x y (fire m1 e1) c1 Hwf2 Hst1 Hc1)
    as [[? _]|[_ Hrun2]]; [done|].
  simpl in Hrun2. rewrite Hrun2.
  assert (Cell.set_state c1 INITIAL = c) as Hback
    by (destruct c; simpl in *; by subst).
  rewrite Hback.
  assert (store (fire m1 e1) (x, y) c = fire m e1) as Hstore.
  { rewrite store_fire. unfold m1. rewrite store_store. by rewrite store_same. }
  rewrite Hstore.
  assert (cellNotification (fire m e1) (x, y) c
          = onCellStateChanged x y {| state := INITIAL; numberBombs := None |}) as ->.
  { unfold cellNotification. simpl. by rewrite Hinit. }
  apply (setWinIfNeeded_blocked _ (x, y)).
  - by apply (wellFormed_field m).
  - unfold blocksWin. rewrite !look_fire, Hc. by rewrite Hinit.
Qed.

(** C9, as the code has it.  In a running game, on a cell of the grid that
    is INITIAL, when the first mark does not win the game (the cell holds
    no bomb, or some other cell is INITIAL or marked without holding a
    bomb), [toggleCellBombMark] twice brings the cell back to INITIAL,
    notifies exactly twice, for this cell, MARKED_AS_BOMB then INITIAL, and
    changes nothing else. *)
Theorem toggle_twice (x y : Z) (m : Minesweeper) :
  wellFormed m -> _state m = RUNNING -> stateAt m (x, y) = Some INITIAL ->
  (isBombAt m (x, y) = false \/ exists q, q <> (x, y) /\ blocksWin m q = true) ->
  exists m1 m2,
    toggleCellBombMark x y m = Ok m1 /\
    stateAt m1 (x, y) = Some MARKED_AS_BOMB /\
    toggleCellBombMark x y m1 = Ok m2 /\
    stateAt m2 (x, y) = Some INITIAL /\
    _gameField m2 = _gameField m /\
    _state m2 = _state m /\
    notified m2 =
      notified m ++
      [onCellStateChanged x y {| state := MARKED_AS_BOMB; numberBombs := None |};
       onCellStateChanged x y {| state := INITIAL; numberBombs := None |}].
Proof.
  intros Hwf Hst Hinit Hnowin.
  destruct (toggle_twice_engine x y m Hwf Hst Hinit Hnowin) as (m1 & H1 & Hmarked & H2).
  eexists m1, _. split; [done|]. split; [done|]. split; [exact H2|].
  split; [unfold stateAt; by rewrite !look_fire|]. split; [done|]. split; [done|].
  simpl. by rewrite <- app_assoc.
Qed.

Lemma toggle_twice_witness :
  wellFormed corner2_started /\ _state corner2_started = RUNNING /\
  stateAt corner2_started (1, 1) = Some INITIAL /\
  isBombAt corner2_started (1, 1) = false /\
  exists m1 m2,
    toggleCellBombMark 1 1 corner2_started = Ok m1 /\
    toggleCellBombMark 1 1 m1 = Ok m2 /\
    stateAt m2 (1, 1) = Some INITIAL /\
    _gameField m2 = _gameField corner2_started.
Proof.
  assert (wellFormed corner2_started) as Hwf
    by apply (reachable_consistent _ corner2_started_reachable).
  assert (_state corner2_started = RUNNING) as Hst by reflexivity.
  assert (stateAt corner2_started (1, 1) = Some INITIAL) as Hinit by reflexivity.
  assert (isBombAt corner2_started (1, 1) = false) as Hnb by reflexivity.
  split; [exact Hwf|]. split; [exact Hst|]. split; [exact Hinit|]. split; [exact Hnb|].
  destruct (toggle_twice 1 1 corner2_started Hwf Hst Hinit (or_introl Hnb))
    as (m1 & m2 & H1 & _ & H2 & H3 & H4 & _).
  exists m1, m2. split; [exact H1|]. split; [exact H2|]. split; [exact H3|exact H4].
Defined.

(** C9 fails when the first mark wins the game: with the three other cells
    opened, marking the bomb wins, the cell is DEFUSED, and the second
    call is gated. *)
Lemma toggle_twice_wins :
  reachable corner2_opened /\ _state corner2_opened = RUNNING /\
  inside (_fieldSize corner2_opened) (0, 0) /\
  stateAt corner2_opened (0, 0) = Some INITIAL /\
  exists m1 m2,
    toggleCellBombMark 0 0 corner2_opened = Ok m1 /\
    toggleCellBombMark 0 0 m1 = Ok m2 /\
    stateAt m2 (0, 0) = Some DEFUSED /\ _state m2 = WIN.
Proof.
  split; [apply corner2_opened_reachable|]. split; [reflexivity|].
  split; [unfold inside; simpl; lia|]. split; [reflexivity|].
  exists (the (toggleCellBombMark 0 0 corner2_opened)).
  exists (the (toggleCellBombMark 0 0 (the (toggleCellBombMark 0 0 corner2_opened)))).
  split; [vm_compute; reflexivity|]. split; [vm_compute; reflexivity|].
  split; vm_compute; reflexivity.
Qed.

(** ** Termination, count and solvability of the placement *)

Lemma allocated_shaped (fieldSize bombNumber : nat) : shaped (allocated fieldSize bombNumber).
Proof. apply blank_shaped. Qed.



Lemma bombsOnField_setGameState (m : Minesweeper) (s : GameState) :
  bombsOnField (_setGameState m s) = bombsOnField m.
Proof.
  unfold bombsOnField. simpl. apply count_ext. intros p _. by apply isBombAt_field.
Qed.



(** C1, as the code has it.  After a placement, and so after every
    placement that sets all its bombs, no cell that holds a bomb has a bomb
    in every cell around it.  (A cell without a bomb can have one in every
    cell around it.) *)
Theorem no_bomb_surrounded (random : nat -> fraction) (m : Minesweeper) :
  shaped m ->
  exists s m',
    placeBombs random m = Ok s /\
    _setBombsOnGameField random m = Ok m' /\
    forall p, inside (_fieldSize m') p -> isBombAt m' p = true -> surrounded m' p = false.
Proof.
  intros Hs.
  destruct (setBombsOnGameField_spec random m Hs) as (m1 & s & Hplace & Hrun & _).
  destruct (setBombsOnGameField_Ok random m Hs) as (m' & Hrun' & _ & _ & Hnbs & _).
  exists s, m'. by do 2 (split; [done|]).
Qed.

Lemma no_bomb_surrounded_witness :
  shaped (allocated 2 3) /\
  exists s m',
    placeBombs threeDraws (allocated 2 3) = Ok s /\
    _setBombsOnGameField threeDraws (allocated 2 3) = Ok m' /\
    forall p, inside (_fieldSize m') p -> isBombAt m' p = true -> surrounded m' p = false.
Proof.
  split; [apply allocated_shaped|].
  exact (no_bomb_surrounded threeDraws (allocated 2 3) (allocated_shaped 2 3)).
Defined.

(** C1 fails for a cell without a bomb: three bombs set on a 2x2 field, all
    of them and with every admissible failure left, are the three cells
    around (1, 1). *)
Lemma cell_without_bomb_surrounded :
  exists s m',
    placeBombs threeDraws (allocated 2 3) = Ok s /\
    numberSetBombs s = _bombNumber (allocated 2 3) /\
    admissibleNumberFailedAttemptsToPutBomb s = 4%nat /\
    new_Minesweeper 2 3 threeDraws = Ok m' /\
    inside (_fieldSize m') (1, 1) /\
    isBombAt m' (1, 1) = false /\
    adjacentPositions (_fieldSize m') (1, 1) = [(0, 0); (0, 1); (1, 0)] /\
    surrounded m' (1, 1) = true.
Proof.
  exists threeBombs_placing, threeBombs.
  split; [vm_compute; reflexivity|]. split; [reflexivity|]. split; [reflexivity|].
  split; [vm_compute; reflexivity|]. split; [unfold inside; simpl; lia|].
  split; [reflexivity|]. split; [reflexivity|]. vm_compute. reflexivity.
Qed.

(** ** Detonation *)

(** What [_setWinIfNeeded] returns: the engine as it is, or the game won
    and every cell resolved by [openOrDefuse]. *)
Lemma setWinIfNeeded_cases (m m' : Minesweeper) :
  wellFormed m -> _setWinIfNeeded m = Ok m' ->
  m' = m \/
  (_state m = RUNNING /\ winning m = true /\ _state m' = WIN /\ wellFormed m' /\
   _fieldSize m' = _fieldSize m /\
   forall q c, look m q = Some c -> look m' q = Some (Cell.openOrDefuse c).1).
Proof.
  intros Hwf Hrun.
  destruct (setWinIfNeeded_spec m Hwf) as [(Hst & Hw & m1 & Hres & Hrun')|[_ Hrun']];
    rewrite Hrun' in Hrun; injection Hrun as <-; [right|by left].
  destruct Hres as (Hwf1 & Hn & _ & _ & Hcells).
  do 3 (split; [done|]). split; [by apply wellFormed_setGameState|]. split; [done|].
  intros q c Hc. rewrite look_setGameState. by apply Hcells.
Qed.

Lemma setWinIfNeeded_look_None (m m' : Minesweeper) (q : position) :
  wellFormed m -> _setWinIfNeeded m = Ok m' -> look m q = None -> look m' q = None.
Proof.
  intros Hwf Hrun Hnone.
  destruct (setWinIfNeeded_cases m m' Hwf Hrun) as [->|(_ & _ & _ & Hwf' & Hn & _)]; [done|].
  destruct (look m' q) as [c|] eqn:Hc; [|done].
  apply look_inside in Hc; [|apply Hwf']. rewrite Hn in Hc.
  destruct (wellFormed_look m q Hwf Hc) as (c' & Hc' & _). congruence.
Qed.

(** The win does not detonate. *)
Lemma setWinIfNeeded_DETONATED (m m' : Minesweeper) (q : position) :
  wellFormed m -> _setWinIfNeeded m = Ok m' ->
  stateAt m' q = Some DETONATED -> stateAt m q = Some DETONATED.
Proof.
  intros Hwf Hrun Hd.
  destruct (setWinIfNeeded_cases m m' Hwf Hrun) as [->|(_ & _ & _ & _ & _ & Hcells)]; [done|].
  unfold stateAt in *. destruct (look m q) as [c|] eqn:Hc.
  - rewrite (Hcells q c Hc) in Hd. f_equal. injection Hd as Hd.
    unfold Cell.openOrDefuse, Cell._openOrDoOtherIfBomb in Hd.
    destruct (_ || _); simpl in Hd; [by destruct (Cell._isBomb c)|done].
  - by rewrite (setWinIfNeeded_look_None m m' q) in Hd.
Qed.

Lemma openOrDetonate_terminal (c : Cell.t) : terminal (Cell._state (Cell.openOrDetonate c).1).
Proof.
  unfold Cell.openOrDetonate, Cell._openOrDoOtherIfBomb, terminal.
  destruct c as [b s p]. destruct s, b; simpl; auto.
Qed.

(** C4.  In a reachable running game, when an [openCell] that returns has
    detonated a cell (a cell is DETONATED that was not), the game is LOSS
    and every cell of the grid is OPENED, DEFUSED or DETONATED.  An
    [openCell] on a cell of the grid that is pending and holds a bomb
    returns and has detonated it. *)
Theorem detonation_loses (x y : Z) (m : Minesweeper) :
  reachable m -> _state m = RUNNING ->
  (forall m', openCell x y m = Ok m' ->
     (exists q, stateAt m' q = Some DETONATED /\ stateAt m q <> Some DETONATED) ->
     _state m' = LOSS /\
     forall q c, look m' q = Some c -> terminal (Cell._state c))
  /\
  (inside (_fieldSize m) (x, y) -> isBombAt m (x, y) = true -> pendingAt m (x, y) = true ->
   exists m', openCell x y m = Ok m' /\
     stateAt m' (x, y) = Some DETONATED /\ stateAt m (x, y) <> Some DETONATED).
Proof.
  intros Hreach Hst. pose proof (proj1 (reachable_consistent m Hreach)) as Hwf.
  destruct (inside_dec (_fieldSize m) (x, y)) as [Hp|Hout].
  - destruct (openCell_RUNNING_inside x y m Hwf Hst Hp)
      as (m1 & m' & Hrun & Hwin & Hwf1 & Hcases).
    assert (forall m2, resolved Cell.openOrDetonate m m2 -> m1 = _setGameState m2 LOSS ->
              m' = m1 /\ _state m' = LOSS /\
              (forall q c, look m' q = Some c -> terminal (Cell._state c)) /\
              (forall q c, look m q = Some c ->
                 look m' q = Some (Cell.openOrDetonate c).1)) as Hloss.
    { intros m2 (Hwf2 & Hn & _ & _ & Hcells) ->.
      assert (m' = _setGameState m2 LOSS) as -> by (unfold _setWinIfNeeded in Hwin;
        simpl in Hwin; congruence).
      do 2 (split; [done|]). split.
      - intros q c. rewrite look_setGameState. intros Hc.
        assert (inside (_fieldSize m) q) as Hq
          by (rewrite <- Hn; by eapply look_inside; [apply Hwf2|]).
        destruct (wellFormed_look m q Hwf Hq) as (c0 & Hc0 & _).
        rewrite (Hcells q c0 Hc0) in Hc. injection Hc as <-.
        apply openOrDetonate_terminal.
      - intros q c Hc. rewrite look_setGameState. by apply Hcells. }
    split.
    + intros m0 Hrun0 (q & Hd & Hnd). rewrite Hrun in Hrun0. injection Hrun0 as <-.
      destruct Hcases as [[_ Hfl]|[(_ & _ & ->)|(_ & _ & m2 & Hres & Hm1)]].
      * exfalso. apply Hnd.
        apply setWinIfNeeded_DETONATED with (m := m1) in Hd; [|done|done].
        destruct (opens_stateAt m m1 q (proj1 Hfl)) as [<-|[_ Ho]]; [done|congruence].
      * exfalso. apply Hnd. by apply (setWinIfNeeded_DETONATED m m').
      * destruct (Hloss m2 Hres Hm1) as (_ & Hl & Hterm & _). by split.
    + intros _ Hb Hpend.
      destruct Hcases as [[? _]|[(_ & ? & _)|(_ & _ & m2 & Hres & Hm1)]]; [congruence..|].
      destruct (Hloss m2 Hres Hm1) as (_ & _ & _ & Hcells).
      exists m'. split; [done|].
      unfold stateAt, isBombAt, pendingAt in *.
      destruct (look m (x, y)) as [c|] eqn:Hc; [|done].
      rewrite (Hcells _ c Hc), (pending_openOrDetonate c Hpend), Hb. simpl.
      split; [done|]. intros [= Hd]. by rewrite Hd in Hpend.
  - split; [|done]. intros m' Hrun. by rewrite openCell_outside in Hrun.
Qed.

Lemma detonation_loses_witness :
  reachable corner2_started /\ _state corner2_started = RUNNING /\
  inside (_fieldSize corner2_started) (0, 0) /\
  isBombAt corner2_started (0, 0) = true /\ pendingAt corner2_started (0, 0) = true /\
  exists m', openCell 0 0 corner2_started = Ok m' /\
    stateAt m' (0, 0) = Some DETONATED /\
    _state m' = LOSS /\
    forall q c, look m' q = Some c -> terminal (Cell._state c).
Proof.
  assert (_state corner2_started = RUNNING) as Hst by reflexivity.
  assert (inside (_fieldSize corner2_started) (0, 0)) as Hp by (unfold inside; simpl; lia).
  assert (isBombAt corner2_started (0, 0) = true) as Hb by reflexivity.
  assert (pendingAt corner2_started (0, 0) = true) as Hpend by reflexivity.
  split; [apply corner2_started_reachable|]. split; [exact Hst|]. split; [exact Hp|].
  split; [exact Hb|]. split; [exact Hpend|].
  destruct (detonation_loses 0 0 corner2_started corner2_started_reachable Hst)
    as [Hloss Hdet].
  destruct (Hdet Hp Hb Hpend) as (m' & Hrun & Hd & Hnd).
  exists m'. split; [exact Hrun|]. split; [exact Hd|].
  apply (Hloss m' Hrun). exists (0, 0). split; [exact Hd|exact Hnd].
Defined.

(** ** The flood *)

Lemma region_zero (m : Minesweeper) (p q : position) :
  region m p q -> bombsAround m q = 0%nat.
Proof. by destruct 1. Qed.

(** The slots the recursion can come to are the region and its border. *)
Lemma flood_revealed (m : Minesweeper) (p q : position) :
  bombsAround m p = 0%nat -> flood m p q -> revealed m p q.
Proof.
  intros Hz. induction 1 as [|a b _ IH Hza Hab].
  - left. by constructor.
  - right. exists a. split; [|done].
    destruct IH as [Hr|(a0 & Hr & Ha)]; [done|]. by apply (region_grow m p a0).
Qed.

Lemma revealed_flood (m : Minesweeper) (p q : position) :
  revealed m p q -> flood m p q.
Proof.
  assert (forall a, region m p a -> flood m p a) as Hreg.
  { induction 1 as [|a b Hr IH Hab Hzb]; [constructor|].
    apply (flood_step m p a); [done|by apply (region_zero m p)|done]. }
  intros [Hr|(a & Hr & Ha)]; [by apply Hreg|].
  apply (flood_step m p a); [by apply Hreg|by apply (region_zero m p)|done].
Qed.

Lemma revealed_not_bomb (m : Minesweeper) (p q : position) :
  isBombAt m p = false -> revealed m p q -> isBombAt m q = false.
Proof.
  intros Hnb Hq. apply revealed_flood in Hq.
  induction Hq as [|a b _ _ Hza Hab]; [done|]. by apply (count_zero_In _ _ _ Hza).
Qed.

Lemma not_pending_opened (m : Minesweeper) (q : position) :
  consistent m -> inside (_fieldSize m) q ->
  isBombAt m q = false -> pendingAt m q = false -> stateAt m q = Some OPENED.
Proof.
  intros (Hwf & Hj & _) Hq Hnb Hnp.
  destruct (wellFormed_look m q Hwf Hq) as (c & Hc & _).
  unfold isBombAt, pendingAt, stateAt in *. rewrite Hc in *.
  destruct (Hj q c Hc Hnb) as [H1 H2]. f_equal.
  destruct (Cell._state c); done.
Qed.

(** In a consistent engine, around an OPENED cell of the region the cells
    are OPENED, so the region and its border are. *)
Lemma revealed_opened (m m1 : Minesweeper) (p q : position) :
  consistent m1 -> _fieldSize m1 = _fieldSize m ->
  (forall a, bombsAround m1 a = bombsAround m a) ->
  (forall a, isBombAt m1 a = isBombAt m a) ->
  stateAt m1 p = Some OPENED -> revealed m p q -> stateAt m1 q = Some OPENED.
Proof.
  intros Hc Hn Hba Hb Hp Hq. apply revealed_flood in Hq.
  induction Hq as [|a b _ IH Hza Hab]; [done|].
  apply not_pending_opened; [done|rewrite Hn; by apply adjacent_inside in Hab| |].
  - rewrite Hb. by apply (count_zero_In _ _ _ Hza).
  - destruct Hc as (_ & _ & Hcl). apply (Hcl a); [done|by rewrite Hba|by rewrite Hn].
Qed.

Lemma winning_blocksWin (m : Minesweeper) (q : position) :
  wellFormed m -> winning m = true -> blocksWin m q = false.
Proof.
  intros Hwf Hw. destruct (blocksWin m q) eqn:Hq; [|done].
  by rewrite (not_winning m q Hwf Hq) in Hw.
Qed.

(** What the win does to a cell: nothing, or it defuses a marked bomb. *)
Lemma setWinIfNeeded_stateAt (m m' : Minesweeper) (q : position) :
  wellFormed m -> _setWinIfNeeded m = Ok m' ->
  isBombAt m' q = isBombAt m q /\
  (stateAt m' q = stateAt m q \/
   (_state m' = WIN /\ isBombAt m q = true /\
    stateAt m q = Some MARKED_AS_BOMB /\ stateAt m' q = Some DEFUSED)).
Proof.
  intros Hwf Hrun.
  destruct (setWinIfNeeded_cases m m' Hwf Hrun)
    as [->|(_ & Hw & Hst & _ & _ & Hcells)]; [by split; [|left]|].
  pose proof (winning_blocksWin m q Hwf Hw) as Hq.
  unfold isBombAt, stateAt, blocksWin in *. destruct (look m q) as [c|] eqn:Hc.
  - rewrite (Hcells q c Hc). unfold Cell.openOrDefuse, Cell._openOrDoOtherIfBomb.
    destruct c as [b s p]. simpl in *.
    destruct s, b; simpl in *; try done; (split; [done|]); try (by left). by right.
  - rewrite (setWinIfNeeded_look_None m m' q) by done. by split; [|left].
Qed.

(** C5, as the code has it.  In a reachable running game, [openCell] on a
    cell of the grid that holds no bomb and has no bomb around it returns,
    and then: every cell of the connected region of cells with no bomb
    around them that contains it, and every cell bordering that region, is
    OPENED; the cells that have become OPENED were pending cells of that
    set; and outside that set a cell is as it was, unless the call has won
    the game, which turns the marked bombs to DEFUSED.  No bomb flag
    changes. *)
Theorem flood_fill (x y : Z) (m : Minesweeper) :
  reachable m -> _state m = RUNNING -> inside (_fieldSize m) (x, y) ->
  bombsAround m (x, y) = 0%nat -> isBombAt m (x, y) = false ->
  exists m', openCell x y m = Ok m' /\
    (forall q, revealed m (x, y) q -> stateAt m' q = Some OPENED) /\
    (forall q, stateAt m' q = Some OPENED ->
       stateAt m q = Some OPENED \/ (pendingAt m q = true /\ revealed m (x, y) q)) /\
    (forall q, ~ revealed m (x, y) q ->
       stateAt m' q = stateAt m q \/
       (_state m' = WIN /\ isBombAt m q = true /\
        stateAt m q = Some MARKED_AS_BOMB /\ stateAt m' q = Some DEFUSED)) /\
    (forall q, isBombAt m' q = isBombAt m q).
Proof.
  intros Hreach Hst Hp Hz Hnb. pose proof (reachable_consistent m Hreach) as Hc.
  destruct (openCell_RUNNING_inside x y m (proj1 Hc) Hst Hp)
    as (m1 & m' & Hrun & Hwin & Hwf1 & Hcases).
  destruct Hcases as [[_ Hfl]|[(? & _)|(? & _)]]; [|congruence..].
  pose proof (consistent_floods m m1 _ Hc Hfl) as Hc1.
  destruct Hfl as (Hopens & Hnp & Hsound & _).
  pose proof Hopens as (_ & _ & Hn & _).
  assert (stateAt m1 (x, y) = Some OPENED) as Hopened.
  { apply not_pending_opened; [done|by rewrite Hn| |done].
    by rewrite (opens_isBombAt m m1). }
  assert (forall q, stateAt m1 q = stateAt m q \/
                    (pendingAt m q = true /\ revealed m (x, y) q /\
                     stateAt m1 q = Some OPENED)) as Hstep.
  { intros q. destruct (opens_stateAt m m1 q Hopens) as [H|[Hpq Ho]]; [by left|].
    right. split; [done|]. split; [|done]. apply flood_revealed; [done|].
    by apply Hsound. }
  exists m'. split; [done|]. split; [|split; [|split]].
  - intros q Hq.
    assert (stateAt m1 q = Some OPENED) as Ho.
    { apply (revealed_opened m m1 (x, y)); try done.
      - intros a. by apply opens_bombsAround.
      - intros a. by apply opens_isBombAt. }
    destruct (setWinIfNeeded_stateAt m1 m' q Hwf1 Hwin) as [_ [->|(_ & _ & H & _)]];
      [done|congruence].
  - intros q Ho.
    assert (stateAt m1 q = Some OPENED) as Ho1.
    { destruct (setWinIfNeeded_stateAt m1 m' q Hwf1 Hwin) as [_ [<-|(_ & _ & _ & H)]];
        [done|congruence]. }
    destruct (Hstep q) as [<-|(Hpq & Hq & _)]; [by left|by right].
  - intros q Hq.
    assert (stateAt m1 q = stateAt m q) as He
      by (destruct (Hstep q) as [H|(_ & H & _)]; done).
    destruct (setWinIfNeeded_stateAt m1 m' q Hwf1 Hwin) as [_ [H|(Hw & Hb & Hm & Hd)]].
    + left. congruence.
    + right. rewrite (opens_isBombAt m m1) in Hb by done. rewrite He in Hm. done.
  - intros q. destruct (setWinIfNeeded_stateAt m1 m' q Hwf1 Hwin) as [-> _].
    by apply opens_isBombAt.
Qed.

Lemma flood_fill_witness :
  reachable corner3_marked /\ _state corner3_marked = RUNNING /\
  inside (_fieldSize corner3_marked) (0, 0) /\
  bombsAround corner3_marked (0, 0) = 0%nat /\ isBombAt corner3_marked (0, 0) = false /\
  exists m', openCell 0 0 corner3_marked = Ok m' /\
    (forall q, revealed corner3_marked (0, 0) q -> stateAt m' q = Some OPENED).
Proof.
  assert (_state corner3_marked = RUNNING) as Hst by reflexivity.
  assert (inside (_fieldSize corner3_marked) (0, 0)) as Hp by (unfold inside; simpl; lia).
  assert (bombsAround corner3_marked (0, 0) = 0%nat) as Hz by reflexivity.
  assert (isBombAt corner3_marked (0, 0) = false) as Hnb by reflexivity.
  split; [apply corner3_marked_reachable|]. split; [exact Hst|]. split; [exact Hp|].
  split; [exact Hz|]. split; [exact Hnb|].
  destruct (flood_fill 0 0 corner3_marked corner3_marked_reachable Hst Hp Hz Hnb)
    as (m' & Hrun & Hall & _).
  exists m'. split; [exact Hrun|exact Hall].
Defined.

(** C5 fails when the open wins the game: on a 3x3 field whose bomb, in the
    corner (2, 2), is marked, opening (0, 0) opens the eight other cells,
    none of which holds a bomb, and the win then turns the cell (2, 2),
    which is outside the region and its border, to DEFUSED. *)
Lemma flood_fill_defuses_outside :
  reachable corner3_marked /\ _state corner3_marked = RUNNING /\
  inside (_fieldSize corner3_marked) (0, 0) /\
  bombsAround corner3_marked (0, 0) = 0%nat /\
  (forall q, revealed corner3_marked (0, 0) q -> isBombAt corner3_marked q = false) /\
  ~ revealed corner3_marked (0, 0) (2, 2) /\
  stateAt corner3_marked (2, 2) = Some MARKED_AS_BOMB /\
  exists m', openCell 0 0 corner3_marked = Ok m' /\ stateAt m' (2, 2) = Some DEFUSED.
Proof.
  assert (forall q, revealed corner3_marked (0, 0) q -> isBombAt corner3_marked q = false)
    as Hfree by (intros q; by apply revealed_not_bomb).
  split; [apply corner3_marked_reachable|]. split; [reflexivity|].
  split; [unfold inside; simpl; lia|]. split; [reflexivity|]. split; [exact Hfree|].
  split; [intros Hq; by apply Hfree in Hq|]. split; [reflexivity|].
  exists (the (openCell 0 0 corner3_marked)). split; vm_compute; reflexivity.
Qed.

(** ** Winning on a 2x2 field with one bomb *)

Lemma two_by_two (m : Minesweeper) :
  wellFormed m -> allInitial m -> _fieldSize m = 2%nat -> bombsOnField m = 1%nat ->
  exists b00 b01 b10 b11,
    _gameField m =
      [[Some (Cell.mk b00 INITIAL (0, 0)); Some (Cell.mk b01 INITIAL (0, 1))];
       [Some (Cell.mk b10 INITIAL (1, 0)); Some (Cell.mk b11 INITIAL (1, 1))]] /\
    ((if b00 then 1 else 0) + (if b01 then 1 else 0)
     + (if b10 then 1 else 0) + (if b11 then 1 else 0) = 1)%nat.
Proof.
  intros Hwf Hinit Hn Hone.
  assert (forall p, inside 2 p ->
            exists b, look m p = Some (Cell.mk b INITIAL p)) as Hcell.
  { intros p Hp. rewrite <- Hn in Hp.
    destruct (wellFormed_look m p Hwf Hp) as (c & Hc & Hpos).
    pose proof (Hinit p c Hc) as Hst. exists (Cell._isBomb c).
    rewrite Hc. destruct c. simpl in *. by subst. }
  destruct Hwf as ((Hlen & Hrows & _) & _). rewrite Hn in *.
  unfold bombsOnField, isBombAt in Hone. rewrite Hn in Hone.
  destruct m as [n b st f l]. simpl in *.
  destruct f as [|r0 [|r1 [|? ?]]]; try discriminate.
  pose proof (Hrows 0%nat r0 eq_refl) as H0. pose proof (Hrows 1%nat r1 eq_refl) as H1.
  destruct r0 as [|s00 [|s01 [|? ?]]]; try discriminate.
  destruct r1 as [|s10 [|s11 [|? ?]]]; try discriminate.
  destruct (Hcell (0, 0)) as [b00 E00]; [unfold inside; simpl; lia|].
  destruct (Hcell (0, 1)) as [b01 E01]; [unfold inside; simpl; lia|].
  destruct (Hcell (1, 0)) as [b10 E10]; [unfold inside; simpl; lia|].
  destruct (Hcell (1, 1)) as [b11 E11]; [unfold inside; simpl; lia|].
  unfold look, slot_at, row_at in *. simpl in *.
  destruct s00 as [c00|], s01 as [c01|], s10 as [c10|], s11 as [c11|]; try discriminate.
  injection E00 as ->. injection E01 as ->. injection E10 as ->. injection E11 as ->.
  exists b00, b01, b10, b11. split; [done|].
  unfold count in Hone. simpl in Hone. destruct b00, b01, b10, b11; simpl in *; lia.
Qed.

(** A sequence of commands that is a permutation of a given one: each of
    the sequences is played out. *)
Ltac play_each_order H :=
  symmetry in H; apply permutations_Permutation in H;
  match type of H with
  | _ ∈ ?P => let P' := eval vm_compute in P in change P with P' in H
  end;
  rewrite ?elem_of_cons, elem_of_nil in H;
  repeat (destruct H as [-> | H]); try done;
  (eexists; split; [vm_compute; reflexivity|]; split; vm_compute; reflexivity).

(** C2, as the code has it.  On a fresh 2x2 field with one bomb, once the
    bomb cell has been marked and [openCell] has been called on each of the
    three other cells, in any order and with the mark at any point, the
    game is WIN and the bomb cell is DEFUSED.  With the bomb cell left
    untouched, once [openCell] has been called on each of the three other
    cells the game is RUNNING, not WIN, and the bomb cell is INITIAL. *)
Theorem win_two_by_two (m : Minesweeper) (bomb : position) :
  wellFormed m -> allInitial m -> _state m = READY ->
  _fieldSize m = 2%nat -> bombsOnField m = 1%nat -> isBombAt m bomb = true ->
  (forall commands,
     Permutation commands (Mark bomb :: map Open (otherCells 2 bomb)) ->
     exists m', play commands m = Ok m' /\
       _state m' = WIN /\ stateAt m' bomb = Some DEFUSED)
  /\
  (forall commands,
     Permutation commands (map Open (otherCells 2 bomb)) ->
     exists m', play commands m = Ok m' /\
       _state m' = RUNNING /\ stateAt m' bomb = Some INITIAL).
Proof.
  intros Hwf Hinit Hst Hn Hone Hbomb.
  assert (inside 2 bomb) as Hin.
  { rewrite <- Hn. unfold isBombAt in Hbomb.
    destruct (look m bomb) as [c|] eqn:Hc; [|done]. by eapply look_inside; [apply Hwf|]. }
  destruct (two_by_two m Hwf Hinit Hn Hone) as (b00 & b01 & b10 & b11 & Hf & Hsum).
  destruct m as [n b st f l]. simpl in *. subst n st f.
  destruct bomb as [bx by_]. unfold inside in Hin. simpl in Hin.
  assert (bx = 0 \/ bx = 1) as [-> | ->] by lia;
  assert (by_ = 0 \/ by_ = 1) as [-> | ->] by lia;
  destruct b00, b01, b10, b11; vm_compute in Hsum, Hbomb; try discriminate;
  (split; intros commands Hperm; play_each_order Hperm).
Qed.

Lemma corner2_fresh : wellFormed corner2 /\ allInitial corner2.
Proof.
  destruct (setBombsOnGameField_Ok (always zero) (allocated 2 1) (allocated_shaped 2 1))
    as (m' & Hrun & Hwf & Hinit & _).
  assert (_setBombsOnGameField (always zero) (allocated 2 1) = Ok corner2) as Heq
    by (vm_compute; reflexivity).
  assert (m' = corner2) as <- by congruence. by split.
Qed.

Lemma win_two_by_two_witness :
  wellFormed corner2 /\ allInitial corner2 /\ _state corner2 = READY /\
  _fieldSize corner2 = 2%nat /\ bombsOnField corner2 = 1%nat /\
  isBombAt corner2 (0, 0) = true /\
  exists m', play [Mark (0, 0); Open (0, 1); Open (1, 0); Open (1, 1)] corner2 = Ok m' /\
    _state m' = WIN /\ stateAt m' (0, 0) = Some DEFUSED.
Proof.
  destruct corner2_fresh as [Hwf Hinit].
  assert (_state corner2 = READY) as Hst by reflexivity.
  assert (_fieldSize corner2 = 2%nat) as Hn by reflexivity.
  assert (bombsOnField corner2 = 1%nat) as Hone by reflexivity.
  assert (isBombAt corner2 (0, 0) = true) as Hbomb by reflexivity.
  split; [exact Hwf|]. split; [exact Hinit|]. split; [exact Hst|]. split; [exact Hn|].
  split; [exact Hone|]. split; [exact Hbomb|].
  apply (proj1 (win_two_by_two corner2 (0, 0) Hwf Hinit Hst Hn Hone Hbomb)).
  apply Permutation_refl.
Defined.

(** C2 fails for a bomb cell left untouched: with the three other cells of
    the 2x2 field opened and the bomb cell INITIAL, the game is RUNNING, not
    WIN, and the bomb cell is INITIAL, not DEFUSED. *)
Lemma untouched_bomb_does_not_win :
  wellFormed corner2 /\ _state corner2 = READY /\
  _fieldSize corner2 = 2%nat /\ bombsOnField corner2 = 1%nat /\
  isBombAt corner2 (0, 0) = true /\
  otherCells 2 (0, 0) = [(0, 1); (1, 0); (1, 1)] /\
  play (map Open (otherCells 2 (0, 0))) corner2 = Ok corner2_opened /\
  _state corner2_opened = RUNNING /\ stateAt corner2_opened (0, 0) = Some INITIAL.
Proof.
  split; [apply corner2_fresh|]. do 5 (split; [reflexivity|]).
  split; [vm_compute; reflexivity|]. split; reflexivity.
Qed.

(* ================================================================== *)
(** * Further properties of the code *)

(** ** The cell *)

(** X1.  Marking twice gives the cell back; the first call answers whether
    the cell was pending, and neither touches the bomb flag or the position. *)
Theorem toggleBombMark_twice (c : Cell.t) :
  (Cell.toggleBombMark (Cell.toggleBombMark c).1).1 = c /\
  (Cell.toggleBombMark c).2 = pending (Cell._state c) /\
  (Cell.toggleBombMark (Cell.toggleBombMark c).1).2 = pending (Cell._state c) /\
  Cell._isBomb (Cell.toggleBombMark c).1 = Cell._isBomb c /\
  Cell._position (Cell.toggleBombMark c).1 = Cell._position c.
Proof. destruct c as [b s p]. by destruct s. Qed.

(** X2.  Once a cell has been opened, by [openOrDetonate] or by
    [openOrDefuse], it is OPENED, DEFUSED or DETONATED, a mark having given
    no protection, and opening or marking it again does nothing; the bomb
    flag and the position are kept. *)
Theorem open_once (c : Cell.t) (resolve again : Cell.t -> Cell.t * bool) :
  In resolve [Cell.openOrDetonate; Cell.openOrDefuse] ->
  In again [Cell.openOrDetonate; Cell.openOrDefuse; Cell.toggleBombMark] ->
  terminal (Cell._state (resolve c).1) /\
  again (resolve c).1 = ((resolve c).1, false) /\
  (resolve c).2 = pending (Cell._state c) /\
  Cell._isBomb (resolve c).1 = Cell._isBomb c /\
  Cell._position (resolve c).1 = Cell._position c.
Proof.
  intros [<-|[<-|[]]] [<-|[<-|[<-|[]]]]; destruct c as [b s p]; destruct s, b;
    (split; [unfold terminal; simpl; auto|done]).
Qed.

Lemma open_once_witness :
  In Cell.openOrDefuse [Cell.openOrDetonate; Cell.openOrDefuse] /\
  In Cell.toggleBombMark [Cell.openOrDetonate; Cell.openOrDefuse; Cell.toggleBombMark] /\
  terminal (Cell._state (Cell.openOrDefuse (Cell.new 0 1)).1) /\
  Cell.toggleBombMark (Cell.openOrDefuse (Cell.new 0 1)).1
  = ((Cell.openOrDefuse (Cell.new 0 1)).1, false).
Proof.
  assert (In Cell.openOrDefuse [Cell.openOrDetonate; Cell.openOrDefuse]) as H1
    by (right; left; reflexivity).
  assert (In Cell.toggleBombMark
            [Cell.openOrDetonate; Cell.openOrDefuse; Cell.toggleBombMark]) as H2
    by (right; right; left; reflexivity).
  split; [exact H1|]. split; [exact H2|].
  destruct (open_once (Cell.new 0 1) Cell.openOrDefuse Cell.toggleBombMark H1 H2)
    as (Ht & Hagain & _).
  split; [exact Ht|exact Hagain].
Defined.

(** X3.  [clear] turns any cell into the cell the constructor makes for its
    position, whatever has been done to it; it answers whether the state was
    other than INITIAL, and a second [clear] answers false. *)
Theorem clear_makes_new (c : Cell.t) :
  (Cell.clear c).1 = Cell.new (Cell._position c).1 (Cell._position c).2 /\
  (Cell.clear c).2 = negb (bool_decide (Cell._state c = INITIAL)) /\
  Cell.clear (Cell.clear c).1 = ((Cell.clear c).1, false).
Proof. destruct c as [b s [x y]]. by destruct s. Qed.

(** ** The two iterations *)

Lemma length_upto (lo hi : Z) : length (upto lo hi) = Z.to_nat (hi + 1 - lo).
Proof. unfold upto. by rewrite length_map, length_seq. Qed.

Lemma length_flat_map_const {A B : Type} (f : A -> list B) (l : list A) (k : nat) :
  (forall a, In a l -> length (f a) = k) -> length (flat_map f l) = (length l * k)%nat.
Proof.
  induction l as [|a l IH]; intros H; [done|]. simpl.
  rewrite length_app, (H a) by (by left). rewrite IH; [lia|]. intros b Hb. apply H. by right.
Qed.

Lemma upto_seq (n : nat) : upto 0 (Z.of_nat n - 1) = map Z.of_nat (seq 0 n).
Proof.
  unfold upto. replace (Z.to_nat (Z.of_nat n - 1 + 1 - 0)) with n by lia.
  apply map_ext. intros k. lia.
Qed.

Lemma flat_map_map {A B C : Type} (g : A -> B) (f : B -> list C) (l : list A) :
  flat_map f (map g l) = flat_map (fun a => f (g a)) l.
Proof. induction l as [|a l IH]; [done|]. simpl. by rewrite IH. Qed.

Lemma map_seq_from {A : Type} (f : nat -> A) (start len : nat) :
  map f (seq start len) = map (fun j => f (start + j)%nat) (seq 0 len).
Proof.
  revert f start. induction len as [|len IH]; intros f start; [done|]. simpl.
  rewrite Nat.add_0_r. f_equal. rewrite (IH f (S start)), (IH _ 1%nat).
  apply map_ext. intros j. f_equal. lia.
Qed.

Lemma rows_in_order (n rows : nat) :
  flat_map (fun i => map (fun j => (Z.of_nat i, Z.of_nat j)) (seq 0 n)) (seq 0 rows)
  = map (fun k => (Z.of_nat (k / n), Z.of_nat (k mod n))) (seq 0 (rows * n)).
Proof.
  induction rows as [|rows IH]; [done|].
  rewrite seq_S, flat_map_app, IH. simpl. rewrite app_nil_r.
  replace (n + rows * n)%nat with (rows * n + n)%nat by lia.
  rewrite seq_app, map_app. f_equal. simpl. rewrite (map_seq_from _ (rows * n)).
  apply map_ext_in. intros j Hj. apply in_seq in Hj.
  assert (n <> 0%nat) as Hn by lia.
  rewrite Nat.add_comm, Nat.div_add, Nat.Div0.mod_add by done.
  rewrite Nat.div_small, Nat.mod_small by lia. done.
Qed.

(** X4.  [_forEachCell] comes to every slot of the grid, once each, row by
    row: the slot it comes to at step [k] is [(k / fieldSize, k mod
    fieldSize)], for [k] from 0 to [fieldSize * fieldSize - 1]. *)
Theorem forEachCell_visits (fieldSize : nat) :
  fieldPositions fieldSize
  = map (fun k => (Z.of_nat (k / fieldSize), Z.of_nat (k mod fieldSize)))
        (seq 0 (fieldSize * fieldSize)) /\
  List.NoDup (fieldPositions fieldSize) /\
  length (fieldPositions fieldSize) = (fieldSize * fieldSize)%nat /\
  (forall p, In p (fieldPositions fieldSize) <-> inside fieldSize p).
Proof.
  assert (fieldPositions fieldSize
          = map (fun k => (Z.of_nat (k / fieldSize), Z.of_nat (k mod fieldSize)))
                (seq 0 (fieldSize * fieldSize))) as Heq.
  { unfold fieldPositions. rewrite upto_seq, flat_map_map, <- rows_in_order.
    apply flat_map_ext. intros i. by rewrite map_map. }
  split; [done|]. split; [apply NoDup_fieldPositions|]. split; [|apply In_fieldPositions].
  by rewrite Heq, length_map, length_seq.
Qed.

Lemma upto_cons (lo hi : Z) : lo <= hi -> upto lo hi = lo :: upto (lo + 1) hi.
Proof.
  intros H. unfold upto.
  replace (Z.to_nat (hi + 1 - lo)) with (S (Z.to_nat (hi + 1 - (lo + 1)))) by lia.
  simpl. f_equal; [lia|]. rewrite <- seq_shift, map_map. apply map_ext. intros k. lia.
Qed.

Lemma upto_nil (lo hi : Z) : hi < lo -> upto lo hi = [].
Proof. intros H. unfold upto. by replace (Z.to_nat (hi + 1 - lo)) with 0%nat by lia. Qed.

Lemma insideb_inside (n : nat) (p : position) : insideb n p = true <-> inside n p.
Proof. unfold insideb, inside. rewrite !andb_true_iff. lia. Qed.

Ltac decide_tests :=
  repeat match goal with
    | |- context [Z.eqb ?a ?b] => destruct (Z.eqb_spec a b); try lia
    | |- context [Z.leb ?a ?b] => destruct (Z.leb_spec a b); try lia
    | |- context [Z.ltb ?a ?b] => destruct (Z.ltb_spec a b); try lia
    end.

Lemma upto_clipped (n : nat) (x : Z) :
  0 <= x < Z.of_nat n ->
  upto (Z.max (x - 1) 0) (Z.min (x + 1) (Z.of_nat n - 1))
  = List.filter (fun i => (0 <=? i) && (i <? Z.of_nat n)) [x - 1; x; x + 1].
Proof.
  intros Hx.
  assert (x = 0 \/ 0 < x) as [Hx0|Hx0] by lia;
  assert (x = Z.of_nat n - 1 \/ x < Z.of_nat n - 1) as [Hx1|Hx1] by lia;
  rewrite ?Z.max_l, ?Z.max_r, ?Z.min_l, ?Z.min_r by lia;
  repeat (rewrite upto_cons by lia); rewrite ?upto_nil by lia; simpl;
  decide_tests; simpl; repeat f_equal; lia.
Qed.

(** Around a cell of the grid, [_forEachAdjacentCell] comes to the eight
    offsets, row by row, leaving out those that fall outside the grid. *)
Lemma adjacentPositions_clipped (n : nat) (p : position) :
  inside n p -> adjacentPositions n p = List.filter (insideb n) (eightAround p).
Proof.
  destruct p as [x y]. intros [Hx Hy]. simpl in Hx, Hy.
  set (ok := fun i => (0 <=? i) && (i <? Z.of_nat n)).
  rewrite (filter_ext (insideb n) (fun q => ok q.1 && ok q.2))
    by (intros q; unfold insideb, ok; by rewrite andb_assoc).
  unfold adjacentPositions. cbn [fst snd]. rewrite !upto_clipped by done.
  fold ok. unfold eightAround. simpl.
  assert ((x =? x - 1) = false) as Ex1 by (apply Z.eqb_neq; lia).
  assert ((x =? x + 1) = false) as Ex2 by (apply Z.eqb_neq; lia).
  assert ((y =? y - 1) = false) as Ey1 by (apply Z.eqb_neq; lia).
  assert ((y =? y + 1) = false) as Ey2 by (apply Z.eqb_neq; lia).
  destruct (ok (x - 1)), (ok x), (ok (x + 1)), (ok (y - 1)), (ok y), (ok (y + 1)); simpl;
    rewrite ?Ex1, ?Ex2, ?Ey1, ?Ey2, ?Z.eqb_refl; reflexivity.
Qed.

Lemma NoDup_eightAround (p : position) : List.NoDup (eightAround p).
Proof.
  destruct p as [x y]. unfold eightAround. simpl.
  repeat (constructor;
    [simpl; intros H;
     repeat (destruct H as [H|H]; [congruence + (injection H; lia)|]); done|]).
  constructor.
Qed.

(** X5.  Around a cell of the grid, [_forEachAdjacentCell] comes to the
    eight offsets in rows, those outside the grid left out: to every other
    cell of the grid at most one row and one column away, once each, never
    to the cell itself, so to eight cells at most; the cells it comes to
    from [p] are those from which it comes to [p].  So no count of bombs
    around a cell is above eight. *)
Theorem forEachAdjacentCell_visits (this : Minesweeper) (p : position) :
  inside (_fieldSize this) p ->
  adjacentPositions (_fieldSize this) p
  = List.filter (insideb (_fieldSize this)) (eightAround p) /\
  List.NoDup (adjacentPositions (_fieldSize this) p) /\
  (length (adjacentPositions (_fieldSize this) p) <= 8)%nat /\
  (forall q, In q (adjacentPositions (_fieldSize this) p)
             <-> inside (_fieldSize this) q /\ near p q) /\
  (forall q, In q (adjacentPositions (_fieldSize this) p)
             -> In p (adjacentPositions (_fieldSize this) q)) /\
  (bombsAround this p <= 8)%nat.
Proof.
  intros Hp. pose proof (adjacentPositions_clipped _ p Hp) as Heq.
  assert (length (adjacentPositions (_fieldSize this) p) <= 8)%nat as Hlen.
  { rewrite Heq. etransitivity; [apply List.filter_length_le|]. done. }
  split; [done|]. split; [|split; [done|split; [|split]]].
  - rewrite Heq. apply List.NoDup_filter, NoDup_eightAround.
  - intros q. apply In_adjacentPositions.
  - intros q. by apply adjacent_sym.
  - unfold bombsAround. etransitivity; [apply count_le_length|done].
Qed.

Lemma forEachAdjacentCell_visits_witness :
  inside (_fieldSize corner3) (0, 1) /\
  adjacentPositions (_fieldSize corner3) (0, 1) = [(0, 0); (0, 2); (1, 0); (1, 1); (1, 2)] /\
  (bombsAround corner3 (0%Z, 1%Z) <= 8)%nat.
Proof.
  assert (inside (_fieldSize corner3) (0, 1)) as Hp by (unfold inside; simpl; lia).
  split; [exact Hp|].
  destruct (forEachAdjacentCell_visits corner3 (0, 1) Hp) as (Heq & _ & _ & _ & _ & Hb).
  split; [rewrite Heq; reflexivity|exact Hb].
Defined.

(** ** The placement *)

Lemma count_lt_length (f : position -> bool) (l : list position) (p : position) :
  In p l -> f p = false -> (count f l < length l)%nat.
Proof.
  induction l as [|q l IH]; [done|]. intros [->|Hp] Hf; rewrite count_cons; simpl.
  - rewrite Hf. pose proof (count_le_length f l). lia.
  - specialize (IH Hp Hf). destruct (f q); lia.
Qed.

Lemma length_fieldPositions (n : nat) : length (fieldPositions n) = (n * n)%nat.
Proof.
  unfold fieldPositions. rewrite (length_flat_map_const _ _ n).
  - rewrite length_upto. lia.
  - intros i. rewrite length_map, length_upto. lia.
Qed.

(** A grid on which no bomb is surrounded holds a cell without a bomb. *)
Lemma noBombSurrounded_room (m : Minesweeper) :
  (0 < _fieldSize m)%nat -> noBombSurrounded m ->
  exists p, inside (_fieldSize m) p /\ isBombAt m p = false.
Proof.
  intros Hn Hnbs.
  assert (inside (_fieldSize m) (0, 0)) as H0 by (unfold inside; simpl; lia).
  destruct (isBombAt m (0, 0)) eqn:Hb; [|by exists (0, 0)].
  specialize (Hnbs _ H0 Hb). unfold surrounded in Hnbs.
  apply (f_equal negb) in Hnbs. rewrite <- existsb_negb_forallb in Hnbs. simpl in Hnbs.
  apply existsb_exists in Hnbs as (q & Hq & Hqb). apply negb_true_iff in Hqb.
  exists q. split; [by apply adjacent_inside in Hq|done].
Qed.

(** X6.  The placement never fills the grid: on a field of one cell or more
    it leaves a cell without a bomb, and a field of one cell gets no bomb at
    all.  So when as many bombs are asked for as there are cells, or more,
    the loop ends by its admissible failures, all [fieldSize * fieldSize] of
    them used, and with fewer bombs set than asked for. *)
Theorem placement_leaves_room (random : nat -> fraction) (m : Minesweeper) :
  shaped m -> (0 < _fieldSize m)%nat ->
  exists s m',
    placeBombs random m = Ok s /\
    _setBombsOnGameField random m = Ok m' /\
    (exists p, inside (_fieldSize m') p /\ isBombAt m' p = false) /\
    (bombsOnField m' < _fieldSize m * _fieldSize m)%nat /\
    (_fieldSize m = 1%nat -> bombsOnField m' = 0%nat) /\
    ((_fieldSize m * _fieldSize m <= _bombNumber m)%nat ->
     admissibleNumberFailedAttemptsToPutBomb s = 0%nat /\
     (bombsOnField m' < _bombNumber m)%nat /\
     iterations s = (bombsOnField m' + _fieldSize m * _fieldSize m)%nat).
Proof.
  intros Hs Hn.
  destruct (setBombsOnGameField_spec random m Hs)
    as (m1 & s & Hplace & Hrun & Hn1 & Hb1 & Hinv & Hstop).
  exists s, (_setGameState (engine s) READY). do 2 (split; [done|]).
  destruct Hinv as (Hwf & Hn' & Hb' & _ & _ & Hcount & Hnbs & _ & Hle & Hadm & Hit).
  destruct (noBombSurrounded_room (engine s)) as (p & Hp & Hpb); [lia|done|].
  assert (bombsOnField (engine s) < _fieldSize m * _fieldSize m)%nat as Hlt.
  { unfold bombsOnField. rewrite <- Hn1, <- Hn', <- length_fieldPositions.
    apply (count_lt_length _ _ p); [by apply In_fieldPositions|done]. }
  rewrite bombsOnField_setGameState.
  split; [exists p; split; [done|by rewrite (isBombAt_field _ (engine s))]|].
  split; [done|]. split; [intros H1; rewrite H1 in Hlt; lia|].
  intros Hmany.
  unfold placing_goes_on in Hstop. apply andb_false_iff in Hstop as [Hstop|Hstop].
  - apply Nat.ltb_ge in Hstop. rewrite Hb', Hb1 in Hstop. lia.
  - apply negb_false_iff, Nat.eqb_eq in Hstop. rewrite Hstop in Hit.
    rewrite Hn1 in Hit. split; [done|]. split; lia.
Qed.

Lemma placement_leaves_room_witness :
  shaped (allocated 1 1) /\ (0 < _fieldSize (allocated 1 1))%nat /\
  exists s m',
    placeBombs (always zero) (allocated 1 1) = Ok s /\
    _setBombsOnGameField (always zero) (allocated 1 1) = Ok m' /\
    bombsOnField m' = 0%nat /\
    admissibleNumberFailedAttemptsToPutBomb s = 0%nat /\
    iterations s = 1%nat.
Proof.
  assert (0 < _fieldSize (allocated 1 1))%nat as Hn by (simpl; lia).
  split; [apply allocated_shaped|]. split; [exact Hn|].
  destruct (placement_leaves_room (always zero) (allocated 1 1) (allocated_shaped 1 1) Hn)
    as (s & m' & Hplace & Hrun & _ & _ & Hone & Hmany).
  exists s, m'. split; [exact Hplace|]. split; [exact Hrun|].
  assert (_fieldSize (allocated 1 1) * _fieldSize (allocated 1 1)
          <= _bombNumber (allocated 1 1))%nat as Hask by (simpl; lia).
  destruct (Hmany Hask) as (Hleft & _ & Hit).
  split; [exact (Hone eq_refl)|]. split; [exact Hleft|].
  rewrite Hit, (Hone eq_refl). reflexivity.
Defined.

(** The clearing loop of [_setBombsOnGameField] notifies the cells it finds
    in a state other than INITIAL, in the order of [_forEachCell]. *)
Lemma clearing_trace (m : Minesweeper) :
  shaped m ->
  exists m1, _forEachCell m clearCell m = Ok m1 /\
    cleared m (fieldPositions (_fieldSize m)) m1 /\
    notified m1 = notified m ++ clearingNotifications m.
Proof.
  intros Hs. unfold _forEachCell, clearingNotifications.
  destruct (forEach_ind clearCell
              (fun done a => cleared m done a /\
                 notified a = notified m ++ map clearedNotification (List.filter (dirtyAt m) done))
              (fieldPositions (_fieldSize m)) m) as (m1 & Hrun & Hm1 & Htrace).
  - split; [|simpl; by rewrite app_nil_r]. repeat split; try done; apply Hs.
  - intros done p rest a Hcells [Ha Htr].
    assert (inside (_fieldSize m) p) as Hp.
    { apply In_fieldPositions. rewrite Hcells. apply in_or_app. right. by left. }
    assert (~ In p done) as Hfresh.
    { apply (NoDup_app_middle done rest). rewrite <- Hcells. apply NoDup_fieldPositions. }
    pose proof Ha as (Hsa & Hn & Hb & Hst & Hdone & Hrest).
    rewrite List.filter_app, map_app, app_assoc, <- Htr. simpl.
    unfold dirtyAt. rewrite <- (Hrest p Hfresh).
    unfold clearCell. rewrite slot_at_shaped by (by rewrite ?Hn). simpl.
    destruct (look a p) as [c|] eqn:Hc.
    + destruct (clear_fst c) as (Hbomb & Hinit & Hpos).
      assert (Cell._position (Cell.clear c).1 = p) as Hpos'
        by (rewrite Hpos; by apply Hsa).
      pose proof (cleared_store m done a p _ Ha Hp Hpos' Hbomb Hinit) as Ha'.
      assert ((Cell.clear c).2 = negb (bool_decide (Cell._state c = INITIAL))) as ->
        by (unfold Cell.clear; simpl; by destruct (bool_decide _)).
      destruct (negb _).
      * erewrite notify_not_opened; [| apply Ha' | |].
        -- simpl. eexists. split; [done|]. split; [by apply cleared_fire|].
           simpl. rewrite store_notified. unfold cellNotification, clearedNotification.
           rewrite Hinit. by case_bool_decide.
        -- rewrite look_store by (done || by rewrite Hn). by case_decide.
        -- by rewrite Hinit.
      * eexists. split; [done|]. split; [done|]. simpl.
        by rewrite store_notified, app_nil_r.
    + eexists. split; [done|]. split; [apply cleared_store; try done; by destruct p|].
      simpl. by rewrite store_notified, app_nil_r.
  - by exists m1.
Qed.

(** [_setBombsOnGameField] from any grid of the right shape. *)
Lemma setBombsOnGameField_fresh (random : nat -> fraction) (m : Minesweeper) :
  shaped m ->
  exists m', _setBombsOnGameField random m = Ok m' /\
    _state m' = READY /\ _fieldSize m' = _fieldSize m /\ _bombNumber m' = _bombNumber m /\
    wellFormed m' /\ allInitial m' /\ (bombsOnField m' <= _bombNumber m)%nat /\
    notified m' = notified m ++ clearingNotifications m ++ [onGameStateChanged READY].
Proof.
  intros Hs.
  destruct (clearing_trace m Hs) as (m0 & Hclear0 & _ & Htrace).
  destruct (placeBombs_spec random m Hs)
    as (m1 & s & Hclear & Hn & Hb & _ & Hloop & Hinv & _).
  assert (m0 = m1) as -> by congruence.
  assert (_setBombsOnGameField random m = Ok (_setGameState (engine s) READY)) as Hrun.
  { unfold _setBombsOnGameField, placeBombs. rewrite Hclear. simpl.
    by rewrite (Hloop _ (Nat.le_refl _)). }
  destruct Hinv as (Hwf & Hn' & Hb' & _ & Hnot & Hcount & _ & Hinit & Hle & _).
  exists (_setGameState (engine s) READY). split; [done|]. split; [done|].
  split; [simpl; congruence|]. split; [simpl; congruence|].
  split; [by apply wellFormed_setGameState|].
  split; [intros p c; rewrite look_setGameState; apply Hinit|].
  split; [rewrite bombsOnField_setGameState; lia|].
  simpl. by rewrite Hnot, Htrace, app_assoc.
Qed.


(** X8.  [restartGame] returns on every engine a caller can hold, whatever
    the state of the game: the game is READY again, every cell INITIAL, with
    [bombNumber] bombs at most placed anew; it notifies the cells that were
    not INITIAL, each once and in the order of [_forEachCell], as INITIAL,
    then the state READY. *)
Theorem restartGame_fresh (random : nat -> fraction) (m : Minesweeper) :
  reachable m ->
  exists m', restartGame random m = Ok m' /\
    _state m' = READY /\ _fieldSize m' = _fieldSize m /\ _bombNumber m' = _bombNumber m /\
    wellFormed m' /\ allInitial m' /\ (bombsOnField m' <= _bombNumber m)%nat /\
    notified m' = notified m ++ clearingNotifications m ++ [onGameStateChanged READY].
Proof.
  intros Hm. apply setBombsOnGameField_fresh. by apply reachable_consistent in Hm as [[? _] _].
Qed.

Lemma restartGame_fresh_witness :
  reachable corner2_lost /\
  exists m', restartGame (always half) corner2_lost = Ok m' /\
    _state m' = READY /\
    notified m' = notified corner2_lost
      ++ [clearedNotification (0, 0); clearedNotification (0, 1);
          clearedNotification (1, 0); clearedNotification (1, 1)]
      ++ [onGameStateChanged READY].
Proof.
  split; [exact corner2_lost_reachable|].
  destruct (restartGame_fresh (always half) corner2_lost corner2_lost_reachable)
    as (m' & Hrun & Hst & _ & _ & _ & _ & _ & Htrace).
  exists m'. split; [exact Hrun|]. split; [exact Hst|]. exact Htrace.
Defined.

(** ** The state of the game and the cells *)

Lemma settled_READY (m : Minesweeper) : _state m = READY -> allInitial m -> settled m.
Proof.
  intros Hst Hinit. unfold settled. rewrite Hst.
  split; [done|]. split; [done|]. by repeat split.
Qed.

Lemma settled_ended (m : Minesweeper) (s : GameState) (bombState : CellState) :
  (s = WIN /\ bombState = DEFUSED) \/ (s = LOSS /\ bombState = DETONATED) ->
  endedCells bombState m -> settled (_setGameState m s).
Proof.
  intros Hs Hcells.
  assert (endedCells bombState (_setGameState m s)) as Hcells'
    by (intros p c; rewrite look_setGameState; apply Hcells).
  unfold settled. simpl. destruct Hs as [[-> ->]|[-> ->]]; by repeat split.
Qed.

(** Resolving the cells of a running game ends it for the cells. *)
Lemma runningCells_resolved (bombState : CellState) (m m' : Minesweeper) :
  wellFormed m -> runningCells m ->
  resolved (Cell._openOrDoOtherIfBomb bombState) m m' ->
  endedCells bombState m'.
Proof.
  intros Hwf Hcells (Hwf' & Hn & _ & _ & Hres) p c' Hc'.
  pose proof (look_inside _ _ _ (proj1 Hwf') Hc') as Hp. rewrite Hn in Hp.
  destruct (wellFormed_look m p Hwf Hp) as (c & Hc & _).
  rewrite (Hres p c Hc) in Hc'. injection Hc' as <-.
  destruct (Hcells p c Hc) as [Hpend|[Ho Hb]].
  - unfold Cell._openOrDoOtherIfBomb. fold (pending (Cell._state c)). rewrite Hpend.
    simpl. by destruct (Cell._isBomb c).
  - rewrite not_pending_openOrDoOther by (by rewrite Ho). simpl. by rewrite Hb.
Qed.

(** The win check at the end of a command of a running game. *)
Lemma settled_setWinIfNeeded (m m' : Minesweeper) :
  wellFormed m -> _state m = RUNNING -> runningCells m ->
  _setWinIfNeeded m = Ok m' -> settled m'.
Proof.
  intros Hwf Hst Hcells Hrun.
  destruct (setWinIfNeeded_spec m Hwf) as [(_ & _ & m1 & Hres & Hrun')|[Hno Hrun']];
    rewrite Hrun' in Hrun; injection Hrun as <-.
  - apply (settled_ended _ _ DEFUSED); [by left|].
    by apply (runningCells_resolved DEFUSED m).
  - unfold settled. rewrite Hst. split; [done|]. split; [done|]. split; [|done].
    intros _. split; [done|]. intros _. by destruct Hno.
Qed.

Lemma runningCells_field (m m' : Minesweeper) :
  _gameField m = _gameField m' -> runningCells m -> runningCells m'.
Proof. intros H Hcells p c. rewrite <- (look_field m m') by done. apply Hcells. Qed.

Lemma runningCells_opens (m m' : Minesweeper) :
  opens m m' -> runningCells m -> runningCells m'.
Proof.
  intros (Hwf & Hwf' & Hn & _ & _ & Hcells) Hrun p c' Hc'.
  pose proof (look_inside _ _ _ (proj1 Hwf') Hc') as Hp. rewrite Hn in Hp.
  destruct (wellFormed_look m p Hwf Hp) as (c & Hc & _).
  destruct (Hcells p c Hc) as [Hsame|(_ & Hb & Hopened)].
  - assert (c' = c) as -> by congruence. by apply (Hrun p).
  - assert (c' = Cell.set_state c OPENED) as -> by congruence. by right.
Qed.

(** A game that starts is a running game, not won on a field that has cells. *)
Lemma settled_started (m : Minesweeper) :
  wellFormed m -> allInitial m ->
  runningCells (_setGameState m RUNNING) /\
  ((0 < _fieldSize m)%nat -> winning (_setGameState m RUNNING) = false).
Proof.
  intros Hwf Hinit. split.
  - intros p c. rewrite look_setGameState. intros Hc. left. by rewrite (Hinit p c Hc).
  - intros Hn. apply (not_winning _ (0, 0)); [by apply wellFormed_setGameState|].
    unfold blocksWin. rewrite look_setGameState.
    destruct (wellFormed_look m (0, 0) Hwf) as (c & Hc & _); [unfold inside; simpl; lia|].
    rewrite Hc, (Hinit _ c Hc). done.
Qed.

(** [openCell] in a running game. *)
Lemma settled_openCell_RUNNING (x y : Z) (m : Minesweeper) :
  wellFormed m -> _state m = RUNNING -> runningCells m ->
  ((0 < _fieldSize m)%nat -> winning m = false) ->
  (forall m', openCell x y m = Ok m' -> settled m') /\
  (forall m', openCell x y m = TypeError m' -> settled m').
Proof.
  intros Hwf Hst Hcells Hnw.
  assert (settled m) as Hm.
  { unfold settled. rewrite Hst. split; [done|]. split; [done|]. by split. }
  destruct (inside_dec (_fieldSize m) (x, y)) as [Hp|Hp].
  - destruct (openCell_RUNNING_inside x y m Hwf Hst Hp)
      as (m1 & m' & -> & Hwin & Hwf1 & Hcases).
    split; [|done]. intros ? [= <-].
    destruct Hcases as [[_ Hfl]|[(_ & _ & ->)|(_ & _ & m2 & Hres & ->)]].
    + pose proof Hfl as (Hopens & _). pose proof Hopens as (_ & _ & _ & _ & Hst1 & _).
      apply (settled_setWinIfNeeded m1); [done|congruence|by apply (runningCells_opens m)|done].
    + by apply (settled_setWinIfNeeded m).
    + assert (_setWinIfNeeded (_setGameState m2 LOSS) = Ok (_setGameState m2 LOSS)) as Hgo
        by done.
      rewrite Hgo in Hwin. injection Hwin as <-.
      apply (settled_ended _ _ DETONATED); [by right|].
      by apply (runningCells_resolved DETONATED m).
  - rewrite openCell_outside by done. split; [done|]. by intros ? [= <-].
Qed.

Lemma settled_openCell (x y : Z) (m : Minesweeper) :
  wellFormed m -> settled m ->
  (forall m', openCell x y m = Ok m' -> settled m') /\
  (forall m', openCell x y m = TypeError m' -> settled m').
Proof.
  intros Hwf Hm. pose proof Hm as (Hni & Hready & Hrunning & _).
  destruct (state_cases m) as [Hgate|[Hst|Hst]].
  - rewrite openCell_gated by done. split; [|done]. by intros ? [= <-].
  - rewrite openCell_READY by done.
    destruct (settled_started m Hwf (Hready Hst)) as [Hcells Hnw].
    apply settled_openCell_RUNNING; try done. by apply wellFormed_setGameState.
  - destruct (Hrunning Hst) as [Hcells Hnw]. by apply settled_openCell_RUNNING.
Qed.

(** [toggleCellBombMark] in a running game. *)
Lemma settled_toggle_RUNNING (x y : Z) (m : Minesweeper) :
  wellFormed m -> _state m = RUNNING -> runningCells m ->
  ((0 < _fieldSize m)%nat -> winning m = false) ->
  (forall m', toggleCellBombMark x y m = Ok m' -> settled m') /\
  (forall m', toggleCellBombMark x y m = TypeError m' -> settled m').
Proof.
  intros Hwf Hst Hcells Hnw.
  assert (settled m) as Hm.
  { unfold settled. rewrite Hst. split; [done|]. split; [done|]. by split. }
  destruct (inside_dec (_fieldSize m) (x, y)) as [Hp|Hp].
  - destruct (wellFormed_look m _ Hwf Hp) as (c & Hc & Hpos).
    destruct (toggleCellBombMark_RUNNING x y m c Hwf Hst Hc)
      as [[_ ->]|[Hpend ->]]; [split; intros ? [= <-]; done|].
    set (c' := Cell.set_state c _). set (m2 := fire _ _).
    assert (wellFormed m2) as Hwf2.
    { apply (wellFormed_field (store m (x, y) c')); [done|done|].
      by apply wellFormed_store. }
    assert (runningCells m2) as Hcells2.
    { intros q cq. unfold m2. rewrite look_fire, look_store by (done || apply Hwf).
      case_decide; [|apply Hcells]. intros [= <-]. left. unfold c'. simpl.
      by case_bool_decide. }
    assert (_state m2 = RUNNING) as Hst2
      by (unfold m2; simpl; by rewrite store_state).
    split; intros m' Hrun; [by apply (settled_setWinIfNeeded m2)|].
    destruct (setWinIfNeeded_spec m2 Hwf2) as [(_ & _ & ? & _ & H)|[_ H]];
      rewrite H in Hrun; done.
  - rewrite toggleCellBombMark_outside by done. split; [done|]. by intros ? [= <-].
Qed.

Lemma settled_toggleCellBombMark (x y : Z) (m : Minesweeper) :
  wellFormed m -> settled m ->
  (forall m', toggleCellBombMark x y m = Ok m' -> settled m') /\
  (forall m', toggleCellBombMark x y m = TypeError m' -> settled m').
Proof.
  intros Hwf Hm. pose proof Hm as (Hni & Hready & Hrunning & _).
  destruct (state_cases m) as [Hgate|[Hst|Hst]].
  - rewrite toggleCellBombMark_gated by done. split; [|done]. by intros ? [= <-].
  - rewrite toggleCellBombMark_READY by done.
    destruct (settled_started m Hwf (Hready Hst)) as [Hcells Hnw].
    apply settled_toggle_RUNNING; try done. by apply wellFormed_setGameState.
  - destruct (Hrunning Hst) as [Hcells Hnw]. by apply settled_toggle_RUNNING.
Qed.

Lemma settled_setBombsOnGameField (random : nat -> fraction) (m : Minesweeper) :
  shaped m ->
  (forall m', _setBombsOnGameField random m = Ok m' -> settled m') /\
  (forall m', _setBombsOnGameField random m = TypeError m' -> settled m').
Proof.
  intros Hs. destruct (setBombsOnGameField_fresh random m Hs)
    as (m1 & -> & Hst & _ & _ & _ & Hinit & _).
  split; [|done]. intros ? [= <-]. by apply settled_READY.
Qed.

Lemma reachable_is_settled (m : Minesweeper) : reachable m -> settled m.
Proof.
  induction 1 as [n b random m Hnew|x y m m' Hm IH Hrun|x y m m' Hm IH Hrun
                 |x y m m' Hm IH Hrun|x y m m' Hm IH Hrun
                 |random m m' Hm IH Hrun|random m m' Hm IH Hrun];
    try (pose proof (proj1 (reachable_consistent m Hm)) as Hwf).
  - exact (proj1 (settled_setBombsOnGameField random _ (allocated_shaped n b)) m Hnew).
  - exact (proj1 (settled_openCell x y m Hwf IH) m' Hrun).
  - exact (proj2 (settled_openCell x y m Hwf IH) m' Hrun).
  - exact (proj1 (settled_toggleCellBombMark x y m Hwf IH) m' Hrun).
  - exact (proj2 (settled_toggleCellBombMark x y m Hwf IH) m' Hrun).
  - exact (proj1 (settled_setBombsOnGameField random m (proj1 Hwf)) m' Hrun).
  - exact (proj2 (settled_setBombsOnGameField random m (proj1 Hwf)) m' Hrun).
Qed.

(** X9.  The state of the game tells the state of the cells, in every
    engine a caller can hold.  The game is never INITIATED.  READY: every
    cell is INITIAL.  RUNNING: every cell is INITIAL, MARKED_AS_BOMB or
    OPENED, no bomb is OPENED, and (on a field that has cells) the game is
    not yet won: some cell is INITIAL or marked without holding a bomb.
    WIN: every bomb is DEFUSED and every other cell OPENED.  LOSS: every
    bomb is DETONATED and every other cell OPENED. *)
Theorem game_state_meaning (m : Minesweeper) :
  reachable m ->
  _state m <> INITIATED /\
  (_state m = READY ->
     forall p, inside (_fieldSize m) p -> stateAt m p = Some INITIAL) /\
  (_state m = RUNNING ->
     (forall p, inside (_fieldSize m) p ->
        stateAt m p = Some INITIAL \/ stateAt m p = Some MARKED_AS_BOMB \/
        (stateAt m p = Some OPENED /\ isBombAt m p = false)) /\
     ((0 < _fieldSize m)%nat ->
        exists p, inside (_fieldSize m) p /\ blocksWin m p = true)) /\
  (_state m = WIN ->
     forall p, inside (_fieldSize m) p ->
       stateAt m p = Some (if isBombAt m p then DEFUSED else OPENED)) /\
  (_state m = LOSS ->
     forall p, inside (_fieldSize m) p ->
       stateAt m p = Some (if isBombAt m p then DETONATED else OPENED)).
Proof.
  intros Hm. pose proof (proj1 (reachable_consistent m Hm)) as Hwf.
  destruct (reachable_is_settled m Hm) as (Hni & Hready & Hrunning & Hwin & Hloss).
  split; [done|].
  assert (forall p, inside (_fieldSize m) p ->
            exists c, look m p = Some c /\ stateAt m p = Some (Cell._state c) /\
                      isBombAt m p = Cell._isBomb c) as Hcell.
  { intros p Hp. destruct (wellFormed_look m p Hwf Hp) as (c & Hc & _).
    exists c. unfold stateAt, isBombAt. by rewrite Hc. }
  split; [|split; [|split]].
  - intros Hst p Hp. destruct (Hcell p Hp) as (c & Hc & -> & _).
    by rewrite (Hready Hst p c Hc).
  - intros Hst. destruct (Hrunning Hst) as [Hcells Hnw]. split.
    + intros p Hp. destruct (Hcell p Hp) as (c & Hc & -> & ->).
      destruct (Hcells p c Hc) as [Hpend|[-> ->]]; [|by right; right].
      unfold pending in Hpend. apply orb_prop in Hpend as [H|H];
        apply bool_decide_eq_true in H; rewrite H; auto.
    + intros Hn. specialize (Hnw Hn). unfold winning in Hnw.
      apply negb_false_iff, existsb_exists in Hnw as (p & Hp & Hb).
      exists p. split; [by apply In_fieldPositions|done].
  - intros Hst p Hp. destruct (Hcell p Hp) as (c & Hc & -> & ->).
    by rewrite (Hwin Hst p c Hc).
  - intros Hst p Hp. destruct (Hcell p Hp) as (c & Hc & -> & ->).
    by rewrite (Hloss Hst p c Hc).
Qed.

Lemma game_state_meaning_witness :
  reachable corner2_lost /\
  _state corner2_lost = LOSS /\
  stateAt corner2_lost (0, 0) = Some DETONATED /\
  stateAt corner2_lost (1, 1) = Some OPENED.
Proof.
  split; [exact corner2_lost_reachable|].
  destruct (game_state_meaning corner2_lost corner2_lost_reachable)
    as (_ & _ & _ & _ & Hloss).
  split; [reflexivity|].
  assert (inside (_fieldSize corner2_lost) (0, 0)) as H00 by (unfold inside; simpl; lia).
  assert (inside (_fieldSize corner2_lost) (1, 1)) as H11 by (unfold inside; simpl; lia).
  split; [exact (Hloss eq_refl (0, 0) H00)|exact (Hloss eq_refl (1, 1) H11)].
Defined.

(** ** Opening again *)

Lemma openCell_not_pending (x y : Z) (m : Minesweeper) (c : Cell.t) :
  wellFormed m -> _state m = RUNNING -> winning m = false ->
  look m (x, y) = Some c -> pending (Cell._state c) = false ->
  openCell x y m = Ok m.
Proof.
  intros Hwf Hst Hnw Hc Hpend. rewrite openCell_RUNNING by done.
  unfold openFuel. simpl. rewrite (cell_at_look _ _ _ Hc). simpl.
  unfold Cell.openOrDetonate. rewrite (not_pending_openOrDoOther DETONATED c Hpend).
  simpl. rewrite store_same by done. simpl.
  destruct (setWinIfNeeded_spec m Hwf) as [(_ & Hw & _)|[_ H]]; [congruence|done].
Qed.

(** X10.  Opening or marking a cell that is OPENED, DEFUSED or DETONATED
    does nothing at all, in every engine a caller can hold: no state
    changes, nothing is notified. *)
Theorem resolved_cell_ignores (x y : Z) (m : Minesweeper) :
  reachable m ->
  (exists s, stateAt m (x, y) = Some s /\ terminal s) ->
  openCell x y m = Ok m /\ toggleCellBombMark x y m = Ok m.
Proof.
  intros Hm (s & Hs & Hterm).
  pose proof (proj1 (reachable_consistent m Hm)) as Hwf.
  destruct (reachable_is_settled m Hm) as (_ & Hready & Hrunning & _).
  unfold stateAt in Hs. destruct (look m (x, y)) as [c|] eqn:Hc; [|done].
  injection Hs as <-.
  assert (pending (Cell._state c) = false) as Hpend
    by (destruct Hterm as [-> | [-> | ->]]; done).
  destruct (state_cases m) as [Hgate|[Hst|Hst]].
  - by rewrite openCell_gated, toggleCellBombMark_gated.
  - rewrite (Hready Hst _ c Hc) in Hpend. done.
  - destruct (Hrunning Hst) as [_ Hnw]. split.
    + apply (openCell_not_pending x y m c); try done. apply Hnw.
      apply (look_inside _ _ _ (proj1 Hwf)) in Hc. unfold inside in Hc. simpl in Hc. lia.
    + destruct (toggleCellBombMark_RUNNING x y m c Hwf Hst Hc) as [[_ H]|[H _]];
        [done|congruence].
Qed.

Lemma resolved_cell_ignores_witness :
  reachable corner2_opened /\
  (exists s, stateAt corner2_opened (0, 1) = Some s /\ terminal s) /\
  openCell 0 1 corner2_opened = Ok corner2_opened /\
  toggleCellBombMark 0 1 corner2_opened = Ok corner2_opened.
Proof.
  assert (exists s, stateAt corner2_opened (0, 1) = Some s /\ terminal s) as H
    by (exists OPENED; split; [reflexivity|left; reflexivity]).
  split; [exact corner2_opened_reachable|]. split; [exact H|].
  exact (resolved_cell_ignores 0 1 corner2_opened corner2_opened_reachable H).
Defined.

(** After [openCell] on a running game that is still running, the cell is
    no longer pending. *)
Lemma openCell_RUNNING_after (x y : Z) (m m' : Minesweeper) :
  wellFormed m -> _state m = RUNNING -> openCell x y m = Ok m' -> _state m' = RUNNING ->
  pendingAt m' (x, y) = false.
Proof.
  intros Hwf Hst Hrun Hst'.
  destruct (inside_dec (_fieldSize m) (x, y)) as [Hp|Hp];
    [|by rewrite openCell_outside in Hrun].
  destruct (openCell_RUNNING_inside x y m Hwf Hst Hp)
    as (m1 & m2 & Hrun2 & Hwin & Hwf1 & Hcases).
  assert (m2 = m') as -> by congruence.
  destruct (setWinIfNeeded_cases m1 m' Hwf1 Hwin) as [->|(_ & _ & Hw & _)]; [|congruence].
  destruct Hcases as [[_ (_ & H & _)]|[(_ & H & ->)|(_ & _ & m2 & _ & ->)]]; done.
Qed.

(** X11.  [openCell] twice at the same place is [openCell] once: the second
    call changes nothing and notifies nothing; and a call that has thrown
    throws again, the engine staying as the first throw left it. *)
Theorem openCell_twice (x y : Z) (m m' : Minesweeper) :
  reachable m ->
  (openCell x y m = Ok m' -> openCell x y m' = Ok m') /\
  (openCell x y m = TypeError m' -> openCell x y m' = TypeError m').
Proof.
  intros Hm. pose proof (proj1 (reachable_consistent m Hm)) as Hwf.
  assert (forall m0, wellFormed m0 -> _state m0 = RUNNING ->
            (openCell x y m0 = Ok m' -> reachable m' -> openCell x y m' = Ok m') /\
            (openCell x y m0 = TypeError m' -> openCell x y m' = TypeError m')) as Hrunning.
  { intros m0 Hwf0 Hst0. split.
    - intros Hrun Hm'. pose proof (proj1 (reachable_consistent m' Hm')) as Hwf'.
      destruct (reachable_is_settled m' Hm') as (_ & Hready' & Hrunning' & _).
      assert (inside (_fieldSize m0) (x, y)) as Hp.
      { destruct (inside_dec (_fieldSize m0) (x, y)) as [Hp|Hp]; [done|].
        by rewrite openCell_outside in Hrun. }
      destruct (openCell_RUNNING_inside x y m0 Hwf0 Hst0 Hp)
        as (m1 & m2 & Hrun2 & Hwin & Hwf1 & Hcases).
      assert (m2 = m') as -> by congruence.
      assert (_fieldSize m' = _fieldSize m0 /\ _state m' <> READY) as [Hn Hnr].
      { assert (_fieldSize m1 = _fieldSize m0 /\ _state m1 <> READY) as [Hn1 Hst1].
        { destruct Hcases as [[_ ((_ & _ & Hn1 & _ & Hst1 & _) & _)]
                             |[(_ & _ & ->)|(_ & _ & m2 & (_ & Hn2 & _) & ->)]].
          - split; [done|congruence].
          - split; [done|congruence].
          - by split. }
        destruct (setWinIfNeeded_cases m1 m' Hwf1 Hwin) as [->|(_ & _ & Hw & _ & Hn' & _)].
        - by split.
        - split; congruence. }
      destruct (state_cases m') as [Hgate|[Hst'|Hst']]; [by apply openCell_gated|done|].
      pose proof (openCell_RUNNING_after x y m0 m' Hwf0 Hst0 Hrun Hst') as Hpend.
      rewrite <- Hn in Hp. destruct (wellFormed_look m' _ Hwf' Hp) as (c & Hc & _).
      apply (openCell_not_pending x y m' c); try done.
      + apply (Hrunning' Hst'). unfold inside in Hp. simpl in Hp. lia.
      + unfold pendingAt in Hpend. by rewrite Hc in Hpend.
    - intros Hrun.
      destruct (inside_dec (_fieldSize m0) (x, y)) as [Hp|Hp].
      + destruct (openCell_RUNNING_inside x y m0 Hwf0 Hst0 Hp) as (? & ? & H & _).
        congruence.
      + rewrite openCell_outside in Hrun by done. injection Hrun as <-.
        by apply openCell_outside. }
  destruct (state_cases m) as [Hgate|[Hst|Hst]].
  - rewrite openCell_gated by done. split; [|done]. intros [= <-]. by apply openCell_gated.
  - destruct (Hrunning (_setGameState m RUNNING)) as [Hok Hthrow];
      [by apply wellFormed_setGameState|done|].
    split; intros Hrun.
    + apply Hok; [by rewrite <- openCell_READY|]. by apply (reachable_openCell x y m).
    + apply Hthrow. by rewrite <- openCell_READY.
  - destruct (Hrunning m Hwf Hst) as [Hok Hthrow]. split; [|done].
    intros Hrun. apply Hok; [done|]. by apply (reachable_openCell x y m).
Qed.

Lemma openCell_twice_witness :
  reachable corner2 /\
  openCell 0 1 corner2 = Ok corner2_started /\
  openCell 0 1 corner2_started = Ok corner2_started.
Proof.
  assert (openCell 0 1 corner2 = Ok corner2_started) as H by (vm_compute; reflexivity).
  split; [exact corner2_reachable|]. split; [exact H|].
  exact (proj1 (openCell_twice 0 1 corner2 corner2_started corner2_reachable) H).
Defined.

(** ** What the commands keep *)

Lemma keeps_refl (m : Minesweeper) : keeps m m.
Proof. by repeat split. Qed.

Lemma keeps_trans (m1 m2 m3 : Minesweeper) : keeps m1 m2 -> keeps m2 m3 -> keeps m1 m3.
Proof.
  intros (Hn & Hb & Hbombs & Hterm) (Hn' & Hb' & Hbombs' & Hterm').
  split; [congruence|]. split; [congruence|]. split.
  - intros p. by rewrite Hbombs', Hbombs.
  - intros p s Hs Ht. apply Hterm'; [|done]. by apply Hterm.
Qed.

Lemma keeps_field (m m' : Minesweeper) :
  _gameField m = _gameField m' -> _fieldSize m' = _fieldSize m ->
  _bombNumber m' = _bombNumber m -> keeps m m'.
Proof.
  intros Hf Hn Hb. split; [done|]. split; [done|]. split.
  - intros p. symmetry. by apply isBombAt_field.
  - intros p s Hs _. by rewrite <- (stateAt_field m m').
Qed.

Lemma terminal_not_pending (s : CellState) : terminal s -> pending s = false.
Proof. by intros [-> | [-> | ->]]. Qed.

Lemma keeps_opens (m m' : Minesweeper) : opens m m' -> keeps m m'.
Proof.
  intros Hopens. pose proof Hopens as (_ & _ & Hn & Hb & _).
  split; [done|]. split; [done|]. split; [intros p; by apply opens_isBombAt|].
  intros p s Hs Ht. destruct (opens_stateAt m m' p Hopens) as [->|[Hpend _]]; [done|].
  unfold pendingAt, stateAt in *. destruct (look m p) as [c|]; [|done].
  injection Hs as <-. by rewrite terminal_not_pending in Hpend.
Qed.

Lemma keeps_resolved (s : CellState) (m m' : Minesweeper) :
  wellFormed m -> resolved (Cell._openOrDoOtherIfBomb s) m m' -> keeps m m'.
Proof.
  intros Hwf (Hwf' & Hn & Hb & _ & Hres).
  assert (forall p, look m p = None -> look m' p = None) as Hnone.
  { intros p Hp. destruct (look m' p) as [c'|] eqn:Hc'; [|done].
    apply (look_inside _ _ _ (proj1 Hwf')) in Hc'. rewrite Hn in Hc'.
    destruct (wellFormed_look m p Hwf Hc') as (c & Hc & _). congruence. }
  split; [done|]. split; [done|]. split.
  - intros p. unfold isBombAt. destruct (look m p) as [c|] eqn:Hc.
    + rewrite (Hres p c Hc). apply openOrDoOther_position.
    + by rewrite Hnone.
  - intros p st Hst Ht. unfold stateAt in *. destruct (look m p) as [c|] eqn:Hc; [|done].
    injection Hst as <-. rewrite (Hres p c Hc).
    by rewrite not_pending_openOrDoOther by (by apply terminal_not_pending).
Qed.

Lemma keeps_setWinIfNeeded (m m' : Minesweeper) :
  wellFormed m -> _setWinIfNeeded m = Ok m' -> keeps m m'.
Proof.
  intros Hwf Hrun.
  destruct (setWinIfNeeded_spec m Hwf) as [(_ & _ & m1 & Hres & Hrun')|[_ Hrun']];
    rewrite Hrun' in Hrun; injection Hrun as <-; [|apply keeps_refl].
  apply (keeps_trans _ m1); [by apply (keeps_resolved DEFUSED)|].
  apply keeps_field; done.
Qed.

Lemma keeps_openCell_RUNNING (x y : Z) (m m' : Minesweeper) :
  wellFormed m -> _state m = RUNNING ->
  openCell x y m = Ok m' \/ openCell x y m = TypeError m' -> keeps m m'.
Proof.
  intros Hwf Hst Hrun.
  destruct (inside_dec (_fieldSize m) (x, y)) as [Hp|Hp].
  - destruct (openCell_RUNNING_inside x y m Hwf Hst Hp)
      as (m1 & m2 & Hrun2 & Hwin & Hwf1 & Hcases).
    rewrite Hrun2 in Hrun. destruct Hrun as [[= <-]|?]; [|done].
    apply (keeps_trans _ m1); [|by apply keeps_setWinIfNeeded].
    destruct Hcases as [[_ (Hopens & _)]|[(_ & _ & ->)|(_ & _ & m3 & Hres & ->)]].
    + by apply keeps_opens.
    + apply keeps_refl.
    + apply (keeps_trans _ m3); [by apply (keeps_resolved DETONATED)|].
      apply keeps_field; done.
  - rewrite openCell_outside in Hrun by done.
    destruct Hrun as [?|[= <-]]; [done|apply keeps_refl].
Qed.

Lemma keeps_toggle_RUNNING (x y : Z) (m m' : Minesweeper) :
  wellFormed m -> _state m = RUNNING ->
  toggleCellBombMark x y m = Ok m' \/ toggleCellBombMark x y m = TypeError m' -> keeps m m'.
Proof.
  intros Hwf Hst Hrun.
  destruct (inside_dec (_fieldSize m) (x, y)) as [Hp|Hp].
  - destruct (wellFormed_look m _ Hwf Hp) as (c & Hc & Hpos).
    destruct (toggleCellBombMark_RUNNING x y m c Hwf Hst Hc) as [[_ H]|[Hpend H]];
      rewrite H in Hrun; clear H.
    { destruct Hrun as [[= <-]|?]; [apply keeps_refl|done]. }
    set (c' := Cell.set_state c _) in Hrun. set (m2 := fire _ _) in Hrun.
    assert (wellFormed m2) as Hwf2.
    { apply (wellFormed_field (store m (x, y) c')); [done|done|].
      by apply wellFormed_store. }
    assert (keeps m m2) as Hkeeps.
    { split; [unfold m2; simpl; by rewrite store_fieldSize|].
      split; [unfold m2; simpl; by rewrite store_bombNumber|]. split.
      - intros p. unfold isBombAt, m2.
        rewrite look_fire, look_store by (done || apply Hwf).
        case_decide; [|done]. subst p. by rewrite Hc.
      - intros p s. unfold stateAt, m2.
        rewrite look_fire, look_store by (done || apply Hwf).
        case_decide; [|done]. subst p. rewrite Hc. intros [= <-] Ht.
        by rewrite terminal_not_pending in Hpend. }
    destruct Hrun as [Hrun|Hrun].
    + apply (keeps_trans _ m2); [done|by apply keeps_setWinIfNeeded].
    + destruct (setWinIfNeeded_spec m2 Hwf2) as [(_ & _ & ? & _ & H)|[_ H]];
        rewrite H in Hrun; done.
  - rewrite toggleCellBombMark_outside in Hrun by done.
    destruct Hrun as [?|[= <-]]; [done|apply keeps_refl].
Qed.

Lemma keeps_run (c : Command) (m m' : Minesweeper) :
  wellFormed m -> run c m = Ok m' \/ run c m = TypeError m' -> keeps m m'.
Proof.
  intros Hwf Hrun.
  assert (keeps m (_setGameState m RUNNING)) as Hstart by (by apply keeps_field).
  destruct c as [[x y]|[x y]]; simpl in Hrun;
    destruct (state_cases m) as [Hgate|[Hst|Hst]].
  - rewrite openCell_gated in Hrun by done.
    destruct Hrun as [[= <-]|?]; [apply keeps_refl|done].
  - rewrite openCell_READY in Hrun by done. apply (keeps_trans _ _ _ Hstart).
    apply (keeps_openCell_RUNNING x y); [by apply wellFormed_setGameState|done|done].
  - by apply (keeps_openCell_RUNNING x y).
  - rewrite toggleCellBombMark_gated in Hrun by done.
    destruct Hrun as [[= <-]|?]; [apply keeps_refl|done].
  - rewrite toggleCellBombMark_READY in Hrun by done. apply (keeps_trans _ _ _ Hstart).
    apply (keeps_toggle_RUNNING x y); [by apply wellFormed_setGameState|done|done].
  - by apply (keeps_toggle_RUNNING x y).
Qed.

(** X12.  Until the game is restarted, no command moves a bomb or resizes
    the grid, and a cell that is OPENED, DEFUSED or DETONATED stays as it
    is: whatever [openCell] and [toggleCellBombMark] are called with,
    whether they return or throw. *)
Theorem commands_keep (c : Command) (m m' : Minesweeper) :
  wellFormed m ->
  run c m = Ok m' \/ run c m = TypeError m' ->
  _fieldSize m' = _fieldSize m /\ _bombNumber m' = _bombNumber m /\
  bombsOnField m' = bombsOnField m /\
  (forall p, isBombAt m' p = isBombAt m p) /\
  (forall p, bombsAround m' p = bombsAround m p) /\
  (forall p s, stateAt m p = Some s -> terminal s -> stateAt m' p = Some s).
Proof.
  intros Hwf Hrun. destruct (keeps_run c m m' Hwf Hrun) as (Hn & Hb & Hbombs & Hterm).
  do 2 (split; [done|]). split; [|split; [done|split; [|done]]].
  - unfold bombsOnField. rewrite Hn. apply count_ext. intros p _. apply Hbombs.
  - intros p. unfold bombsAround. rewrite Hn. apply count_ext. intros q _. apply Hbombs.
Qed.

Lemma commands_keep_witness :
  wellFormed corner2 /\
  run (Open (0, 0)) corner2 = Ok corner2_lost /\
  bombsOnField corner2_lost = bombsOnField corner2 /\
  (forall p, isBombAt corner2_lost p = isBombAt corner2 p).
Proof.
  assert (run (Open (0, 0)) corner2 = Ok corner2_lost) as H by (vm_compute; reflexivity).
  split; [exact (proj1 corner2_fresh)|]. split; [exact H|].
  destruct (commands_keep (Open (0, 0)) corner2 corner2_lost (proj1 corner2_fresh)
              (or_introl H)) as (_ & _ & Hcount & Hbombs & _).
  split; [exact Hcount|exact Hbombs].
Defined.

(** ** How a game is lost *)

Lemma openCell_RUNNING_state (x y : Z) (m : Minesweeper) :
  wellFormed m -> _state m = RUNNING -> runningCells m ->
  inside (_fieldSize m) (x, y) ->
  exists m', openCell x y m = Ok m' /\
    (_state m' = RUNNING \/ _state m' = WIN \/ _state m' = LOSS) /\
    (_state m' = LOSS <-> isBombAt m (x, y) = true).
Proof.
  intros Hwf Hst Hcells Hp.
  destruct (openCell_RUNNING_inside x y m Hwf Hst Hp)
    as (m1 & m' & Hrun & Hwin & Hwf1 & Hcases).
  exists m'. split; [done|].
  destruct Hcases as [[Hnb ((_ & _ & _ & _ & Hst1 & _) & _)]
                     |[(Hb & Hpend & ->)|(Hb & _ & m2 & _ & ->)]].
  - rewrite Hnb.
    destruct (setWinIfNeeded_cases m1 m' Hwf1 Hwin) as [->|(_ & _ & Hw & _)].
    + split; [left; congruence|]. split; [congruence|done].
    + rewrite Hw. split; [auto|done].
  - exfalso. unfold isBombAt, pendingAt in *.
    destruct (look m (x, y)) as [c|] eqn:Hc; [|done].
    destruct (Hcells _ c Hc) as [?|[_ ?]]; congruence.
  - assert (_setWinIfNeeded (_setGameState m2 LOSS) = Ok (_setGameState m2 LOSS)) as Hgo
      by done.
    rewrite Hgo in Hwin. injection Hwin as <-. simpl. split; [auto|done].
Qed.

(** X13.  A game is lost by opening a bomb, and by nothing else: in a READY
    or RUNNING game [openCell] on a cell of the grid returns, and the game
    is then LOSS if the cell holds a bomb, marked or not and be it the first
    cell opened, and RUNNING or WIN if it does not. *)
Theorem openCell_loses (x y : Z) (m : Minesweeper) :
  reachable m -> _state m = READY \/ _state m = RUNNING ->
  inside (_fieldSize m) (x, y) ->
  exists m', openCell x y m = Ok m' /\
    (_state m' = RUNNING \/ _state m' = WIN \/ _state m' = LOSS) /\
    (_state m' = LOSS <-> isBombAt m (x, y) = true).
Proof.
  intros Hm Hst Hp. pose proof (proj1 (reachable_consistent m Hm)) as Hwf.
  destruct (reachable_is_settled m Hm) as (_ & Hready & Hrunning & _).
  destruct Hst as [Hst|Hst].
  - rewrite openCell_READY by done.
    rewrite (isBombAt_field m (_setGameState m RUNNING)) by done.
    apply openCell_RUNNING_state; try done.
    + by apply wellFormed_setGameState.
    + by apply settled_started, Hready.
  - apply openCell_RUNNING_state; try done. by apply Hrunning.
Qed.

Lemma openCell_loses_witness :
  reachable corner3_marked /\
  (_state corner3_marked = READY \/ _state corner3_marked = RUNNING) /\
  inside (_fieldSize corner3_marked) (2, 2) /\
  stateAt corner3_marked (2, 2) = Some MARKED_AS_BOMB /\
  exists m', openCell 2 2 corner3_marked = Ok m' /\ _state m' = LOSS.
Proof.
  assert (_state corner3_marked = READY \/ _state corner3_marked = RUNNING) as Hst
    by (right; reflexivity).
  assert (inside (_fieldSize corner3_marked) (2, 2)) as Hp by (unfold inside; simpl; lia).
  split; [exact corner3_marked_reachable|]. split; [exact Hst|]. split; [exact Hp|].
  split; [reflexivity|].
  destruct (openCell_loses 2 2 corner3_marked corner3_marked_reachable Hst Hp)
    as (m' & Hrun & _ & Hloss).
  exists m'. split; [exact Hrun|]. exact (proj2 Hloss eq_refl).
Defined.

(** ** What a mark can do *)

Lemma toggle_RUNNING_effect (x y : Z) (m : Minesweeper) :
  wellFormed m -> _state m = RUNNING -> inside (_fieldSize m) (x, y) ->
  exists m', toggleCellBombMark x y m = Ok m' /\
    (_state m' = RUNNING \/ _state m' = WIN) /\
    (forall q s, stateAt m' q = Some s -> s = OPENED \/ s = DETONATED ->
       stateAt m q = Some s).
Proof.
  intros Hwf Hst Hp.
  destruct (wellFormed_look m _ Hwf Hp) as (c & Hc & Hpos).
  destruct (toggleCellBombMark_RUNNING x y m c Hwf Hst Hc) as [[_ ->]|[Hpend ->]];
    [exists m; split; [done|]; split; [by left|done]|].
  set (c' := Cell.set_state c _). set (m2 := fire _ _).
  assert (wellFormed m2) as Hwf2.
  { apply (wellFormed_field (store m (x, y) c')); [done|done|].
    by apply wellFormed_store. }
  assert (_state m2 = RUNNING) as Hst2 by (unfold m2; simpl; by rewrite store_state).
  assert (forall q s, stateAt m2 q = Some s -> s = OPENED \/ s = DETONATED ->
            stateAt m q = Some s) as Hm2.
  { intros q s. unfold stateAt, m2. rewrite look_fire, look_store by (done || apply Hwf).
    case_decide; [|done]. unfold c'. simpl. intros [= <-].
    case_bool_decide; intros [?|?]; done. }
  destruct (setWinIfNeeded_spec m2 Hwf2) as [(_ & _ & m3 & Hres & Hrun)|[_ Hrun]].
  - exists (_setGameState m3 WIN). split; [done|]. split; [by right|].
    intros q s Hs Hos. apply Hm2; [|done].
    destruct (setWinIfNeeded_stateAt m2 _ q Hwf2 Hrun) as [_ [<-|(_ & _ & _ & Hd)]]; [done|].
    rewrite Hd in Hs. injection Hs as <-. by destruct Hos.
  - exists m2. split; [done|]. split; [by left|done].
Qed.

(** X14.  A mark never loses the game and never opens or detonates a cell:
    in a READY or RUNNING game [toggleCellBombMark] on a cell of the grid
    returns, the game is then RUNNING or WIN, and every cell that is OPENED
    or DETONATED was so before. *)
Theorem mark_never_opens (x y : Z) (m : Minesweeper) :
  wellFormed m -> _state m = READY \/ _state m = RUNNING ->
  inside (_fieldSize m) (x, y) ->
  exists m', toggleCellBombMark x y m = Ok m' /\
    (_state m' = RUNNING \/ _state m' = WIN) /\
    (forall q s, stateAt m' q = Some s -> s = OPENED \/ s = DETONATED ->
       stateAt m q = Some s).
Proof.
  intros Hwf [Hst|Hst] Hp; [|by apply toggle_RUNNING_effect].
  rewrite toggleCellBombMark_READY by done.
  destruct (toggle_RUNNING_effect x y (_setGameState m RUNNING))
    as (m' & Hrun & Hst' & Hcells); [by apply wellFormed_setGameState|done|done|].
  exists m'. do 2 (split; [done|]). intros q s Hs Hos.
  rewrite (stateAt_field m (_setGameState m RUNNING)) by done. by apply Hcells.
Qed.

Lemma mark_never_opens_witness :
  wellFormed corner2_opened /\
  (_state corner2_opened = READY \/ _state corner2_opened = RUNNING) /\
  inside (_fieldSize corner2_opened) (0, 0) /\
  exists m', toggleCellBombMark 0 0 corner2_opened = Ok m' /\
    (_state m' = RUNNING \/ _state m' = WIN).
Proof.
  assert (wellFormed corner2_opened) as Hwf
    by exact (proj1 (reachable_consistent _ corner2_opened_reachable)).
  assert (_state corner2_opened = READY \/ _state corner2_opened = RUNNING) as Hst
    by (right; reflexivity).
  assert (inside (_fieldSize corner2_opened) (0, 0)) as Hp by (unfold inside; simpl; lia).
  split; [exact Hwf|]. split; [exact Hst|]. split; [exact Hp|].
  destruct (mark_never_opens 0 0 corner2_opened Hwf Hst Hp) as (m' & Hrun & Hst' & _).
  exists m'. split; [exact Hrun|exact Hst'].
Defined.

(** ** Opening a cell with bombs around it *)

Lemma openCell_numbered_engine (x y : Z) (m : Minesweeper) (c : Cell.t) :
  wellFormed m -> _state m = RUNNING -> look m (x, y) = Some c ->
  pending (Cell._state c) = true -> Cell._isBomb c = false ->
  bombsAround m (x, y) <> 0%nat ->
  openCell x y m
  = _setWinIfNeeded
      (fire (store m (x, y) (Cell.set_state c OPENED))
         (onCellStateChanged x y
            {| state := OPENED; numberBombs := Some (bombsAround m (x, y)) |})).
Proof.
  intros Hwf Hst Hc Hpend Hcb Hnum.
  pose proof (look_inside m _ c (proj1 Hwf) Hc) as Hp.
  rewrite openCell_RUNNING by done. unfold openFuel. simpl.
  rewrite (cell_at_look _ _ _ Hc). simpl.
  rewrite (pending_openOrDetonate c Hpend), Hcb. simpl.
  destruct (opens_store m (x, y) c Hwf Hc Hpend Hcb) as [Hopens _].
  set (this1 := store m (x, y) (Cell.set_state c OPENED)) in *.
  pose proof Hopens as (_ & Hwf1 & Hn1 & _).
  assert (look this1 (x, y) = Some (Cell.set_state c OPENED)) as Hc1.
  { unfold this1. rewrite look_store by (done || apply Hwf). by case_decide. }
  rewrite (notifyCellStateChanged_spec this1 (x, y) _ Hwf1 Hc1). simpl.
  unfold cellNotification. simpl. rewrite (opens_bombsAround m this1) by done.
  set (this2 := fire this1 _).
  assert (opens m this2) as Hopens2 by (by apply opens_fire).
  pose proof Hopens2 as (_ & Hwf2 & Hn2 & _).
  assert (look this2 (x, y) = Some (Cell.set_state c OPENED)) as Hc2
    by (unfold this2; by rewrite look_fire).
  rewrite (cell_at_look _ _ _ Hc2). simpl.
  rewrite getNumberAdjacentBombs_spec by (done || by rewrite Hn2).
  simpl. rewrite (opens_bombsAround m this2) by done.
  by case_bool_decide.
Qed.

(** X15.  In a running game, [openCell] on a pending cell without a bomb but
    with bombs around it opens that cell alone: it notifies it once, as
    OPENED with the number of bombs around it, and goes to no other cell;
    then comes the win check.  So unless the call wins the game, every other
    cell and the state of the game are as they were. *)
Theorem openCell_numbered (x y : Z) (m : Minesweeper) (c : Cell.t) :
  wellFormed m -> _state m = RUNNING -> look m (x, y) = Some c ->
  pending (Cell._state c) = true -> Cell._isBomb c = false ->
  bombsAround m (x, y) <> 0%nat ->
  exists m', openCell x y m = Ok m' /\
    _setWinIfNeeded
      (fire (store m (x, y) (Cell.set_state c OPENED))
         (onCellStateChanged x y
            {| state := OPENED; numberBombs := Some (bombsAround m (x, y)) |}))
    = Ok m' /\
    stateAt m' (x, y) = Some OPENED /\
    (_state m' = RUNNING \/ _state m' = WIN) /\
    (_state m' = RUNNING ->
       m' = fire (store m (x, y) (Cell.set_state c OPENED))
              (onCellStateChanged x y
                 {| state := OPENED; numberBombs := Some (bombsAround m (x, y)) |}) /\
       forall q, q <> (x, y) -> look m' q = look m q).
Proof.
  intros Hwf Hst Hc Hpend Hcb Hnum.
  pose proof (look_inside m _ c (proj1 Hwf) Hc) as Hp.
  assert (Cell._position c = (x, y)) as Hpos by (by apply Hwf).
  rewrite (openCell_numbered_engine x y m c) by done.
  set (m2 := fire _ _).
  assert (wellFormed m2) as Hwf2.
  { apply (wellFormed_field (store m (x, y) (Cell.set_state c OPENED))); [done|done|].
    by apply wellFormed_store. }
  assert (stateAt m2 (x, y) = Some OPENED) as Ho.
  { unfold stateAt, m2. rewrite look_fire, look_store by (done || apply Hwf).
    by case_decide. }
  assert (_state m2 = RUNNING) as Hst2 by (unfold m2; simpl; by rewrite store_state).
  destruct (setWinIfNeeded_spec m2 Hwf2) as [(_ & _ & m3 & Hres & Hrun)|[_ Hrun]].
  - exists (_setGameState m3 WIN). do 2 (split; [done|]). split; [|split; [by right|done]].
    destruct (keeps_setWinIfNeeded m2 _ Hwf2 Hrun) as (_ & _ & _ & Hterm).
    apply Hterm; [done|by left].
  - exists m2. do 2 (split; [done|]). split; [done|]. split; [by left|]. intros _.
    split; [done|]. intros q Hq. unfold m2.
    rewrite look_fire, look_store by (done || apply Hwf). by case_decide.
Qed.

Lemma openCell_numbered_witness :
  wellFormed corner2_started /\ _state corner2_started = RUNNING /\
  look corner2_started (1, 0) = Some (Cell.new 1 0) /\
  bombsAround corner2_started (1, 0) <> 0%nat /\
  exists m', openCell 1 0 corner2_started = Ok m' /\ stateAt m' (1, 0) = Some OPENED.
Proof.
  assert (wellFormed corner2_started) as Hwf
    by exact (proj1 (reachable_consistent _ corner2_started_reachable)).
  assert (bombsAround corner2_started (1, 0) <> 0%nat) as Hnum by (vm_compute; discriminate).
  split; [exact Hwf|]. split; [reflexivity|]. split; [reflexivity|]. split; [exact Hnum|].
  destruct (openCell_numbered 1 0 corner2_started (Cell.new 1 0) Hwf eq_refl eq_refl
              eq_refl eq_refl Hnum) as (m' & Hrun & _ & Ho & _).
  exists m'. split; [exact Hrun|exact Ho].
Defined.

(** ** The readers *)

Lemma forallb_count (f : position -> bool) (l : list position) :
  forallb f l = (count f l =? length l)%nat.
Proof.
  induction l as [|q l IH]; [done|]. rewrite count_cons. simpl. rewrite IH.
  pose proof (count_le_length f l).
  destruct (f q); simpl; [done|]. symmetry. apply Nat.eqb_neq. lia.
Qed.

(** X16.  On a cell of the grid the readers return and agree:
    [_getNumberAdjacentBombs] counts the bombs among the cells around it,
    eight at most; [_allAdjacentCellsAreBombs] answers true when that count
    is the number of cells around it (so always on a field of one cell);
    [_getCellData] gives the state of the cell, with the count when the cell
    is OPENED and without it otherwise; and [_notifyCellStateChanged]
    notifies that data at the cell's position and changes nothing else. *)
Theorem readers_agree (m : Minesweeper) (p : position) :
  wellFormed m -> inside (_fieldSize m) p ->
  exists c k,
    look m p = Some c /\
    _getNumberAdjacentBombs m p = Ok k /\
    k = count (isBombAt m) (List.filter (insideb (_fieldSize m)) (eightAround p)) /\
    (k <= 8)%nat /\
    _allAdjacentCellsAreBombs m p
    = Ok (k =? length (List.filter (insideb (_fieldSize m)) (eightAround p)))%nat /\
    _getCellData m p
    = Ok {| state := Cell._state c;
            numberBombs := if bool_decide (Cell._state c = OPENED) then Some k else None |} /\
    _notifyCellStateChanged m p
    = Ok (fire m (onCellStateChanged p.1 p.2
            {| state := Cell._state c;
               numberBombs := if bool_decide (Cell._state c = OPENED)
                              then Some k else None |})).
Proof.
  intros Hwf Hp. destruct (wellFormed_look m p Hwf Hp) as (c & Hc & Hpos).
  exists c, (bombsAround m p). split; [done|].
  split; [by apply getNumberAdjacentBombs_spec|].
  pose proof (adjacentPositions_clipped _ p Hp) as Heq.
  split; [unfold bombsAround; by rewrite Heq|].
  split.
  { unfold bombsAround. rewrite Heq. etransitivity; [apply count_le_length|].
    etransitivity; [apply List.filter_length_le|]. done. }
  split.
  { rewrite allAdjacentCellsAreBombs_spec by done. unfold surrounded, bombsAround.
    by rewrite forallb_count, Heq. }
  assert (_getCellData m p
          = Ok {| state := Cell._state c;
                  numberBombs := if bool_decide (Cell._state c = OPENED)
                                 then Some (bombsAround m p) else None |}) as Hdata.
  { unfold _getCellData. rewrite (cell_at_look _ _ _ Hc). simpl.
    case_bool_decide; [|done]. by rewrite getNumberAdjacentBombs_spec. }
  split; [done|].
  unfold _notifyCellStateChanged. rewrite (cell_at_look _ _ _ Hc). simpl.
  rewrite Hdata. simpl. by rewrite Hpos.
Qed.

Lemma readers_agree_witness :
  wellFormed corner2_opened /\ inside (_fieldSize corner2_opened) (1, 1) /\
  _getNumberAdjacentBombs corner2_opened (1, 1) = Ok 1%nat /\
  _allAdjacentCellsAreBombs corner2_opened (1, 1) = Ok false /\
  _getCellData corner2_opened (1, 1) = Ok {| state := OPENED; numberBombs := Some 1%nat |}.
Proof.
  assert (wellFormed corner2_opened) as Hwf
    by exact (proj1 (reachable_consistent _ corner2_opened_reachable)).
  assert (inside (_fieldSize corner2_opened) (1, 1)) as Hp by (unfold inside; simpl; lia).
  split; [exact Hwf|]. split; [exact Hp|].
  destruct (readers_agree corner2_opened (1, 1) Hwf Hp)
    as (c & k & Hc & Hnum & Hk & _ & Hall & Hdata & _).
  assert (c = {| Cell._isBomb := false; Cell._state := OPENED; Cell._position := (1, 1) |})
    as Ec by (vm_compute in Hc; congruence).
  assert (k = 1%nat) as Ek by (rewrite Hk; vm_compute; reflexivity).
  rewrite Ek in Hnum, Hall, Hdata. rewrite Ec in Hdata.
  split; [exact Hnum|]. split; [exact Hall|exact Hdata].
Defined.

(** ** One notification for each cell that changes *)

Lemma count_app (f : position -> bool) (l1 l2 : list position) :
  count f (l1 ++ l2) = (count f l1 + count f l2)%nat.
Proof. unfold count. by rewrite List.filter_app, length_app. Qed.

Lemma pendingOnField_field (m m' : Minesweeper) :
  _gameField m = _gameField m' -> _fieldSize m = _fieldSize m' ->
  pendingOnField m = pendingOnField m'.
Proof.
  intros Hf Hn. unfold pendingOnField. rewrite Hn. apply count_ext.
  intros p _. by apply pendingAt_field.
Qed.

(** A pending cell that leaves INITIAL and MARKED_AS_BOMB is one pending
    cell less. *)
Lemma pendingOnField_store (m : Minesweeper) (p : position) (c : Cell.t) (s : CellState) :
  wellFormed m -> look m p = Some c ->
  pending (Cell._state c) = true -> pending s = false ->
  pendingOnField m = S (pendingOnField (store m p (Cell.set_state c s))).
Proof.
  intros Hwf Hc Hpend Hs.
  pose proof (look_inside m p c (proj1 Hwf) Hc) as Hp.
  unfold pendingOnField. rewrite store_fieldSize.
  apply (count_flip _ _ _ p).
  - apply NoDup_fieldPositions.
  - by apply In_fieldPositions.
  - unfold pendingAt. rewrite look_store by (done || apply Hwf). by case_decide.
  - unfold pendingAt. by rewrite Hc.
  - intros q Hq. unfold pendingAt. rewrite look_store by (done || apply Hwf).
    by case_decide.
Qed.

(** The loop of [_setLoss] and of the win notifies each pending cell, once,
    and leaves none pending. *)
Lemma resolve_loop_ledger (s : CellState) (m : Minesweeper) :
  pending s = false -> wellFormed m ->
  exists m', _forEachCell m (resolveCell (Cell._openOrDoOtherIfBomb s)) m = Ok m' /\
    resolved (Cell._openOrDoOtherIfBomb s) m m' /\
    length (notified m') = (length (notified m) + pendingOnField m)%nat /\
    pendingOnField m' = 0%nat.
Proof.
  intros Hs Hwf. set (resolve := Cell._openOrDoOtherIfBomb s).
  assert (forall c, Cell._position (resolve c).1 = Cell._position c) as Hres
    by (intros c; apply openOrDoOther_position).
  destruct (forEach_ind (resolveCell resolve)
              (fun done a => resolving resolve m done a /\
                 length (notified a) = (length (notified m) + count (pendingAt m) done)%nat)
              (fieldPositions (_fieldSize m)) m) as (m' & Hrun & Hm' & Hfired).
  - split; [|simpl; unfold count; simpl; lia]. split; [done|]. by repeat split.
  - intros done p rest a Hcells [(Hwfa & Hn & Hb & Hst & Hdone & Hrest) Hfired].
    assert (inside (_fieldSize m) p) as Hp.
    { apply In_fieldPositions. rewrite Hcells. apply in_or_app. right. by left. }
    assert (~ In p done) as Hfresh.
    { apply (NoDup_app_middle done rest). rewrite <- Hcells. apply NoDup_fieldPositions. }
    destruct (wellFormed_look m p Hwf Hp) as (c & Hc & Hpos).
    assert (look a p = Some c) as Hca by (by rewrite Hrest).
    assert (inside (_fieldSize a) p) as Hpa by (by rewrite Hn).
    assert (wellFormed (store a p (resolve c).1)) as Hwf1
      by (apply wellFormed_store; [done|done|by rewrite Hres]).
    assert (resolving resolve m (done ++ [p]) (store a p (resolve c).1)) as Hnext.
    { split; [done|]. rewrite store_fieldSize, store_bombNumber, store_state.
      do 3 (split; [done|]). split.
      - intros q cq Hq Hcq. rewrite look_store by (done || apply Hwfa).
        case_decide; [by simplify_eq|].
        apply in_app_or in Hq as [Hq|[Hq|[]]]; [by apply Hdone|done].
      - intros q Hq. rewrite look_store by (done || apply Hwfa). case_decide.
        + exfalso. apply Hq, in_or_app. right. by left.
        + apply Hrest. intros Hin. apply Hq, in_or_app. by left. }
    assert ((resolve c).2 = pendingAt m p) as Hflag.
    { unfold pendingAt. rewrite Hc. unfold resolve, Cell._openOrDoOtherIfBomb.
      unfold pending. by destruct (_ || _). }
    rewrite count_app, count_cons. change (count (pendingAt m) []) with 0%nat.
    unfold resolveCell. rewrite (cell_at_look _ _ _ Hca). simpl.
    rewrite Hflag. destruct (pendingAt m p).
    + rewrite (notifyCellStateChanged_spec _ p (resolve c).1);
        [|done|rewrite look_store by (done || apply Hwfa); by case_decide].
      simpl. eexists. split; [done|]. split.
      * destruct Hnext as (? & ? & ? & ? & Hd & Hr).
        split; [by apply (wellFormed_field (store a p (resolve c).1))|].
        do 3 (split; [done|]). split; intros; rewrite look_fire; eauto.
      * simpl. rewrite length_app, store_notified. simpl. lia.
    + eexists. split; [done|]. split; [done|]. rewrite store_notified. lia.
  - exists m'. split; [done|].
    destruct Hm' as (Hwf' & Hn & Hb & Hst & Hdone & _).
    assert (resolved resolve m m') as Hresolved.
    { split; [done|]. do 3 (split; [done|]).
      intros p c Hc. apply Hdone; [|done].
      apply In_fieldPositions. by eapply look_inside; [apply Hwf|]. }
    split; [done|]. split; [done|].
    unfold pendingOnField. apply count_zero. intros p Hp. rewrite Hn in Hp.
    apply In_fieldPositions in Hp. destruct (wellFormed_look m p Hwf Hp) as (c & Hc & _).
    unfold pendingAt. rewrite (proj2 (proj2 (proj2 (proj2 Hresolved))) p c Hc).
    by apply pending_resolved.
Qed.

Lemma setLoss_ledger (m : Minesweeper) :
  wellFormed m ->
  exists m', _setLoss m = Ok m' /\ _state m' = LOSS /\
    length (notified m') = (length (notified m) + pendingOnField m + 1)%nat /\
    pendingOnField m' = 0%nat.
Proof.
  intros Hwf.
  destruct (resolve_loop_ledger DETONATED m eq_refl Hwf)
    as (m1 & Hrun & (_ & Hn & _) & Hfired & Hnone).
  exists (_setGameState m1 LOSS). unfold _setLoss.
  change Cell.openOrDetonate with (Cell._openOrDoOtherIfBomb DETONATED). rewrite Hrun.
  split; [done|]. split; [done|]. split; [simpl; rewrite length_app; simpl; lia|].
  by rewrite <- (pendingOnField_field m1).
Qed.

Lemma setWinIfNeeded_ledger (m : Minesweeper) :
  wellFormed m ->
  exists m', _setWinIfNeeded m = Ok m' /\
    ((m' = m /\ (_state m <> RUNNING \/ winning m = false)) \/
     (_state m = RUNNING /\ _state m' = WIN /\
      length (notified m') = (length (notified m) + pendingOnField m + 1)%nat /\
      pendingOnField m' = 0%nat)).
Proof.
  intros Hwf. unfold _setWinIfNeeded.
  case_bool_decide as Hst; simpl; [|exists m; split; [done|left; by split; [|left]]].
  rewrite winning_scan by done. simpl.
  destruct (winning m) eqn:Hwin; [|exists m; split; [done|left; by split; [|right]]].
  destruct (resolve_loop_ledger DEFUSED m eq_refl Hwf)
    as (m1 & Hrun & (_ & Hn & _) & Hfired & Hnone).
  exists (_setGameState m1 WIN).
  change Cell.openOrDefuse with (Cell._openOrDoOtherIfBomb DEFUSED). rewrite Hrun.
  split; [done|]. right. split; [done|]. split; [done|].
  split; [simpl; rewrite length_app; simpl; lia|].
  by rewrite <- (pendingOnField_field m1).
Qed.

Lemma balanced_neighbours (fuel : nat) (cells : list position) :
  (forall m p m', wellFormed m -> inside (_fieldSize m) p -> isBombAt m p = false ->
     (pendingOnField m < fuel)%nat -> _openCell fuel m p = Ok m' -> balanced m m') ->
  forall m0 m', wellFormed m0 ->
    (forall r, In r cells -> inside (_fieldSize m0) r /\ isBombAt m0 r = false) ->
    (pendingOnField m0 < fuel)%nat ->
    forEach (fun this3 adjacentCell =>
               this4 <- _openCell fuel this3 adjacentCell ;; Ok (this4, false))
            cells m0 = Ok m' ->
    balanced m0 m'.
Proof.
  intros Hrec. induction cells as [|r cells IH]; intros m0 m' Hwf Hcells Hfuel Hrun.
  - injection Hrun as <-. done.
  - destruct (Hcells r (or_introl eq_refl)) as [Hr Hnb].
    destruct (openCell_floods fuel m0 r Hwf Hr Hnb Hfuel) as (a & Hopen & Hopens & _).
    simpl in Hrun. rewrite Hopen in Hrun. simpl in Hrun.
    pose proof (opens_pendingOnField _ _ Hopens) as Hcount.
    pose proof Hopens as (_ & Hwfa & Hn & _).
    pose proof (Hrec m0 r a Hwf Hr Hnb Hfuel Hopen) as H1.
    assert (balanced a m') as H2.
    { apply IH; [done| |lia|done].
      intros r' Hr'. destruct (Hcells r' (or_intror Hr')) as [? ?].
      rewrite Hn, (opens_isBombAt m0 a) by done. done. }
    unfold balanced in *. lia.
Qed.

(** [_openCell] on a cell without a bomb notifies once each cell it opens. *)
Lemma openCell_balanced (fuel : nat) (m : Minesweeper) (p : position) (m' : Minesweeper) :
  wellFormed m -> inside (_fieldSize m) p -> isBombAt m p = false ->
  (pendingOnField m < fuel)%nat -> _openCell fuel m p = Ok m' -> balanced m m'.
Proof.
  revert m p m'. induction fuel as [|fuel IH]; intros m p m' Hwf Hp Hnb Hfuel Hrun; [lia|].
  destruct (wellFormed_look m p Hwf Hp) as (c & Hc & Hpos).
  assert (Cell._isBomb c = false) as Hcb by (unfold isBombAt in Hnb; by rewrite Hc in Hnb).
  simpl in Hrun. rewrite (cell_at_look _ _ _ Hc) in Hrun. simpl in Hrun.
  destruct (pending (Cell._state c)) eqn:Hpend.
  - rewrite (pending_openOrDetonate c Hpend), Hcb in Hrun. simpl in Hrun.
    destruct (opens_store m p c Hwf Hc Hpend Hcb) as [Hopens Hcount].
    set (this1 := store m p (Cell.set_state c OPENED)) in *.
    pose proof Hopens as (_ & Hwf1 & Hn1 & _).
    assert (look this1 p = Some (Cell.set_state c OPENED)) as Hc1.
    { unfold this1. rewrite look_store by (done || apply Hwf). by case_decide. }
    rewrite (notifyCellStateChanged_spec this1 p _ Hwf1 Hc1) in Hrun. simpl in Hrun.
    set (this2 := fire this1 _) in Hrun.
    assert (opens m this2) as Hopens2 by (by apply opens_fire).
    pose proof Hopens2 as (_ & Hwf2 & Hn2 & _).
    assert (look this2 p = Some (Cell.set_state c OPENED)) as Hc2
      by (unfold this2; by rewrite look_fire).
    assert (pendingOnField this2 = pendingOnField this1) as Hsame
      by (by apply pendingOnField_field).
    assert (balanced m this2) as Hfirst.
    { unfold balanced. rewrite Hsame, Hcount. unfold this2. simpl.
      rewrite length_app. unfold this1. rewrite store_notified. simpl. lia. }
    rewrite (cell_at_look _ _ _ Hc2) in Hrun. simpl in Hrun.
    rewrite getNumberAdjacentBombs_spec in Hrun by (done || by rewrite Hn2).
    simpl in Hrun. rewrite (opens_bombsAround m this2) in Hrun by done.
    case_bool_decide as Hz; simpl in Hrun; [|by injection Hrun as <-].
    rewrite forEachAdjacent_unfold in Hrun by (done || by rewrite Hn2).
    assert (balanced this2 m') as Hrest.
    { apply (balanced_neighbours fuel (adjacentPositions (_fieldSize this2) p) IH);
        [done| |lia|done].
      intros r Hr. split; [by apply adjacent_inside in Hr|].
      rewrite (opens_isBombAt m this2) by done.
      apply (count_zero_In _ _ _ Hz). by rewrite <- Hn2. }
    unfold balanced in *. lia.
  - unfold Cell.openOrDetonate in Hrun.
    rewrite (not_pending_openOrDoOther DETONATED c Hpend) in Hrun. simpl in Hrun.
    rewrite store_same in Hrun by done. by injection Hrun as <-.
Qed.

(** [_openCell] on a pending bomb notifies every pending cell, once, and
    the loss. *)
Lemma openCell_bomb_ledger (fuel : nat) (m : Minesweeper) (p : position) (c : Cell.t) :
  wellFormed m -> look m p = Some c -> Cell._isBomb c = true ->
  pending (Cell._state c) = true ->
  exists m', _openCell (S fuel) m p = Ok m' /\ _state m' = LOSS /\
    length (notified m') = (length (notified m) + pendingOnField m + 1)%nat /\
    pendingOnField m' = 0%nat.
Proof.
  intros Hwf Hc Hb Hpend.
  pose proof (look_inside m p c (proj1 Hwf) Hc) as Hp.
  assert (Cell._position c = p) as Hpos by (by apply Hwf).
  simpl. rewrite (cell_at_look _ _ _ Hc). simpl.
  rewrite (pending_openOrDetonate c Hpend), Hb. simpl.
  pose proof (pendingOnField_store m p c DETONATED Hwf Hc Hpend eq_refl) as Hcount.
  set (this1 := store m p (Cell.set_state c DETONATED)) in *.
  assert (wellFormed this1) as Hwf1 by (by apply wellFormed_store).
  assert (look this1 p = Some (Cell.set_state c DETONATED)) as Hc1.
  { unfold this1. rewrite look_store by (done || apply Hwf). by case_decide. }
  rewrite (notifyCellStateChanged_spec this1 p _ Hwf1 Hc1). simpl.
  set (this2 := fire this1 _).
  assert (wellFormed this2) as Hwf2 by (by apply (wellFormed_field this1)).
  assert (look this2 p = Some (Cell.set_state c DETONATED)) as Hc2
    by (unfold this2; by rewrite look_fire).
  assert (pendingOnField this2 = pendingOnField this1) as Hsame
    by (by apply pendingOnField_field).
  rewrite (cell_at_look _ _ _ Hc2). simpl.
  destruct (setLoss_ledger this2 Hwf2) as (m' & Hrun & Hst & Hfired & Hnone).
  exists m'. split; [done|]. split; [done|]. split; [|done].
  rewrite Hfired, Hsame, Hcount. unfold this2. simpl. rewrite length_app.
  unfold this1. rewrite store_notified. simpl. lia.
Qed.

(** X17.  Every notification of a command of a running game is accounted
    for: [openCell] notifies each cell it takes out of INITIAL or
    MARKED_AS_BOMB, once, and the state of the game if the game ends, as it
    then does with no cell left in those states; [toggleCellBombMark]
    notifies as well the cell it marks or unmarks.  Nothing else is
    notified. *)
Theorem notifications_account (x y : Z) (m : Minesweeper) :
  wellFormed m -> _state m = RUNNING -> inside (_fieldSize m) (x, y) ->
  (exists m', openCell x y m = Ok m' /\
     (length (notified m') + pendingOnField m'
      = length (notified m) + pendingOnField m
        + (if bool_decide (_state m' = RUNNING) then 0 else 1))%nat /\
     (_state m' <> RUNNING -> pendingOnField m' = 0%nat)) /\
  (exists m', toggleCellBombMark x y m = Ok m' /\
     (length (notified m') + pendingOnField m'
      = length (notified m) + pendingOnField m
        + (if bool_decide (_state m' = RUNNING) then 0 else 1)
        + (if pendingAt m (x, y) then 1 else 0))%nat /\
     (_state m' <> RUNNING -> pendingOnField m' = 0%nat)).
Proof.
  intros Hwf Hst Hp.
  assert (forall m1, wellFormed m1 -> _state m1 = RUNNING ->
            exists m', _setWinIfNeeded m1 = Ok m' /\
              (length (notified m') + pendingOnField m'
               = length (notified m1) + pendingOnField m1
                 + (if bool_decide (_state m' = RUNNING) then 0 else 1))%nat /\
              (_state m' <> RUNNING -> pendingOnField m' = 0%nat)) as Hcheck.
  { intros m1 Hwf1 Hst1.
    destruct (setWinIfNeeded_ledger m1 Hwf1) as (m' & Hrun & Hcase).
    exists m'. split; [done|].
    destruct Hcase as [[-> _]|(_ & Hw & Hfired & Hnone)].
    - rewrite Hst1. split; [simpl; lia|done].
    - rewrite Hw. simpl. split; [lia|done]. }
  destruct (wellFormed_look m _ Hwf Hp) as (c & Hc & Hpos). split.
  - rewrite openCell_RUNNING by done.
    destruct (Cell._isBomb c) eqn:Hb; [destruct (pending (Cell._state c)) eqn:Hpend|].
    + destruct (openCell_bomb_ledger (length (fieldPositions (_fieldSize m))) m _ c
                  Hwf Hc Hb Hpend) as (m' & Hrun & Hl & Hfired & Hnone).
      exists m'. unfold openFuel. rewrite Hrun. simpl.
      split; [unfold _setWinIfNeeded; by rewrite Hl|].
      rewrite Hl. simpl. split; [lia|done].
    + unfold openFuel.
      rewrite (openCell_bomb_resolved _ m _ c Hwf Hc Hb Hpend). simpl. by apply Hcheck.
    + assert (isBombAt m (x, y) = false) as Hnb by (unfold isBombAt; by rewrite Hc).
      destruct (openCell_floods (openFuel m) m _ Hwf Hp Hnb (pendingOnField_openFuel m))
        as (m1 & Hrun & (Hopens & _)).
      pose proof (openCell_balanced _ m _ m1 Hwf Hp Hnb (pendingOnField_openFuel m) Hrun)
        as Hbal.
      rewrite Hrun. simpl. pose proof Hopens as (_ & Hwf1 & _ & _ & Hst1 & _).
      destruct (Hcheck m1 Hwf1) as (m' & Hwin & Hfired & Hnone); [congruence|].
      exists m'. split; [done|]. split; [|done]. unfold balanced in Hbal. lia.
  - unfold pendingAt. rewrite Hc.
    destruct (toggleCellBombMark_RUNNING x y m c Hwf Hst Hc) as [[Hpend ->]|[Hpend ->]].
    + exists m. split; [done|]. rewrite Hpend, Hst. simpl. split; [lia|done].
    + rewrite Hpend. set (c' := Cell.set_state c _). set (m2 := fire _ _).
      assert (wellFormed m2) as Hwf2.
      { apply (wellFormed_field (store m (x, y) c')); [done|done|].
        by apply wellFormed_store. }
      assert (pendingOnField m2 = pendingOnField m) as Hsame.
      { unfold pendingOnField, m2. simpl. rewrite store_fieldSize. apply count_ext.
        intros q _. unfold pendingAt. rewrite look_fire, look_store by (done || apply Hwf).
        case_decide; [|done]. subst q. rewrite Hc, Hpend. unfold c'. simpl.
        by case_bool_decide. }
      destruct (Hcheck m2 Hwf2) as (m' & Hwin & Hfired & Hnone);
        [unfold m2; simpl; by rewrite store_state|].
      exists m'. split; [done|]. split; [|done].
      rewrite Hfired, Hsame. unfold m2. simpl. rewrite length_app, store_notified.
      simpl. lia.
Qed.

Lemma notifications_account_witness :
  wellFormed corner2_started /\ _state corner2_started = RUNNING /\
  inside (_fieldSize corner2_started) (1, 1) /\
  exists m', openCell 1 1 corner2_started = Ok m' /\
    (length (notified m') + pendingOnField m'
     = length (notified corner2_started) + pendingOnField corner2_started)%nat.
Proof.
  assert (wellFormed corner2_started) as Hwf
    by exact (proj1 (reachable_consistent _ corner2_started_reachable)).
  assert (inside (_fieldSize corner2_started) (1, 1)) as Hp by (unfold inside; simpl; lia).
  split; [exact Hwf|]. split; [reflexivity|]. split; [exact Hp|].
  destruct (notifications_account 1 1 corner2_started Hwf eq_refl Hp)
    as [(m' & Hrun & Hfired & _) _].
  exists m'. split; [exact Hrun|].
  assert (openCell 1 1 corner2_started = Ok (the (openCell 1 1 corner2_started))) as Hthe
    by (vm_compute; reflexivity).
  rewrite Hfired. rewrite Hthe in Hrun. injection Hrun as <-. vm_compute. reflexivity.
Defined.

(** ** What a loss notifies *)

Lemma resolving_isBombAt (resolve : Cell.t -> Cell.t * bool) (m a : Minesweeper)
    (done : list position) :
  (forall c, Cell._isBomb (resolve c).1 = Cell._isBomb c) ->
  wellFormed m -> (forall q, In q done -> inside (_fieldSize m) q) ->
  resolving resolve m done a ->
  forall q, isBombAt a q = isBombAt m q.
Proof.
  intros Hres Hwf Hin (_ & _ & _ & _ & Hdone & Hrest) q. unfold isBombAt.
  destruct (decide (q ∈ done)) as [Hq|Hq]; rewrite list_elem_of_In in Hq.
  - destruct (wellFormed_look m q Hwf (Hin q Hq)) as (c & Hc & _).
    by rewrite Hc, (Hdone q c Hq Hc).
  - by rewrite Hrest.
Qed.

(** The loop of [_setLoss] and of the win: what it notifies, in order. *)
Lemma resolve_loop_trace (s : CellState) (m : Minesweeper) :
  s = DEFUSED \/ s = DETONATED -> wellFormed m ->
  exists m', _forEachCell m (resolveCell (Cell._openOrDoOtherIfBomb s)) m = Ok m' /\
    resolved (Cell._openOrDoOtherIfBomb s) m m' /\
    notified m' = notified m
      ++ map (resolvedNotification s m)
             (List.filter (pendingAt m) (fieldPositions (_fieldSize m))).
Proof.
  intros Hs Hwf. set (resolve := Cell._openOrDoOtherIfBomb s).
  assert (forall c, Cell._position (resolve c).1 = Cell._position c) as Hres
    by (intros c; apply openOrDoOther_position).
  assert (forall c, Cell._isBomb (resolve c).1 = Cell._isBomb c) as Hresb
    by (intros c; apply openOrDoOther_position).
  destruct (forEach_ind (resolveCell resolve)
              (fun done a => resolving resolve m done a /\
                 notified a = notified m
                   ++ map (resolvedNotification s m) (List.filter (pendingAt m) done))
              (fieldPositions (_fieldSize m)) m) as (m' & Hrun & Hm' & Hfired).
  - split; [|simpl; by rewrite app_nil_r]. split; [done|]. by repeat split.
  - intros done p rest a Hcells [(Hwfa & Hn & Hb & Hst & Hdone & Hrest) Hfired].
    assert (forall q, In q (done ++ [p]) -> inside (_fieldSize m) q) as Hinside.
    { intros q Hq. apply In_fieldPositions. rewrite Hcells.
      apply in_app_or in Hq as [Hq|[<-|[]]]; apply in_or_app; [by left|right; by left]. }
    assert (inside (_fieldSize m) p) as Hp
      by (apply Hinside, in_or_app; right; by left).
    assert (~ In p done) as Hfresh.
    { apply (NoDup_app_middle done rest). rewrite <- Hcells. apply NoDup_fieldPositions. }
    destruct (wellFormed_look m p Hwf Hp) as (c & Hc & Hpos).
    assert (look a p = Some c) as Hca by (by rewrite Hrest).
    assert (inside (_fieldSize a) p) as Hpa by (by rewrite Hn).
    assert (wellFormed (store a p (resolve c).1)) as Hwf1
      by (apply wellFormed_store; [done|done|by rewrite Hres]).
    assert (resolving resolve m (done ++ [p]) (store a p (resolve c).1)) as Hnext.
    { split; [done|]. rewrite store_fieldSize, store_bombNumber, store_state.
      do 3 (split; [done|]). split.
      - intros q cq Hq Hcq. rewrite look_store by (done || apply Hwfa).
        case_decide; [by simplify_eq|].
        apply in_app_or in Hq as [Hq|[Hq|[]]]; [by apply Hdone|done].
      - intros q Hq. rewrite look_store by (done || apply Hwfa). case_decide.
        + exfalso. apply Hq, in_or_app. right. by left.
        + apply Hrest. intros Hin. apply Hq, in_or_app. by left. }
    pose proof (resolving_isBombAt resolve m _ _ Hresb Hwf Hinside Hnext) as Hbombs.
    assert ((resolve c).2 = pendingAt m p) as Hflag.
    { unfold pendingAt. rewrite Hc. unfold resolve, Cell._openOrDoOtherIfBomb.
      unfold pending. by destruct (_ || _). }
    rewrite List.filter_app, map_app, app_assoc, <- Hfired. simpl.
    unfold resolveCell. rewrite (cell_at_look _ _ _ Hca). simpl.
    rewrite Hflag. destruct (pendingAt m p) eqn:Hpend.
    + rewrite (notifyCellStateChanged_spec _ p (resolve c).1);
        [|done|rewrite look_store by (done || apply Hwfa); by case_decide].
      simpl. eexists. split; [done|]. split.
      * destruct Hnext as (? & ? & ? & ? & Hd & Hr).
        split; [by apply (wellFormed_field (store a p (resolve c).1))|].
        do 3 (split; [done|]). split; intros; rewrite look_fire; eauto.
      * simpl. rewrite store_notified. f_equal. f_equal.
        unfold cellNotification, resolvedNotification. f_equal.
        assert (bombsAround (store a p (resolve c).1) p = bombsAround m p) as ->.
        { unfold bombsAround. rewrite store_fieldSize, Hn. apply count_ext.
          intros q _. apply Hbombs. }
        unfold isBombAt. rewrite Hc.
        unfold pendingAt in Hpend. rewrite Hc in Hpend.
        unfold resolve, Cell._openOrDoOtherIfBomb. fold (pending (Cell._state c)).
        rewrite Hpend. simpl.
        destruct (Cell._isBomb c); [|done]. by destruct Hs as [-> | ->].
    + eexists. split; [done|]. split; [done|]. simpl.
      by rewrite store_notified, app_nil_r.
  - exists m'. split; [done|].
    destruct Hm' as (Hwf' & Hn & Hb & Hst & Hdone & _).
    split; [|done]. split; [done|]. do 3 (split; [done|]).
    intros p c Hc. apply Hdone; [|done].
    apply In_fieldPositions. by eapply look_inside; [apply Hwf|].
Qed.

(** X18.  What opening a bomb notifies, in a running game: first the cell
    opened, as DETONATED; then every other cell that was INITIAL or
    MARKED_AS_BOMB, in the order of [_forEachCell], a bomb as DETONATED and
    another cell as OPENED with the number of bombs around it; last the
    state LOSS.  Nothing else, and nothing for the cells that were OPENED. *)
Theorem loss_trace (x y : Z) (m : Minesweeper) (c : Cell.t) :
  wellFormed m -> _state m = RUNNING -> look m (x, y) = Some c ->
  Cell._isBomb c = true -> pending (Cell._state c) = true ->
  exists m', openCell x y m = Ok m' /\ _state m' = LOSS /\
    notified m' = notified m
      ++ onCellStateChanged x y {| state := DETONATED; numberBombs := None |}
         :: map (resolvedNotification DETONATED m)
                (List.filter (fun q => pendingAt m q && negb (bool_decide (q = (x, y))))
                             (fieldPositions (_fieldSize m)))
      ++ [onGameStateChanged LOSS].
Proof.
  intros Hwf Hst Hc Hb Hpend.
  pose proof (look_inside m _ c (proj1 Hwf) Hc) as Hp.
  assert (Cell._position c = (x, y)) as Hpos by (by apply Hwf).
  rewrite openCell_RUNNING by done. unfold openFuel. simpl.
  rewrite (cell_at_look _ _ _ Hc). simpl.
  rewrite (pending_openOrDetonate c Hpend), Hb. simpl.
  set (this1 := store m (x, y) (Cell.set_state c DETONATED)).
  assert (wellFormed this1) as Hwf1 by (by apply wellFormed_store).
  assert (look this1 (x, y) = Some (Cell.set_state c DETONATED)) as Hc1.
  { unfold this1. rewrite look_store by (done || apply Hwf). by case_decide. }
  rewrite (notifyCellStateChanged_spec this1 (x, y) _ Hwf1 Hc1). simpl.
  unfold cellNotification. simpl.
  set (this2 := fire this1 _).
  assert (wellFormed this2) as Hwf2 by (by apply (wellFormed_field this1)).
  assert (forall q, look this2 q
                    = if decide ((x, y) = q) then Some (Cell.set_state c DETONATED)
                      else look m q) as Hlook.
  { intros q. unfold this2, this1. rewrite look_fire, look_store by (done || apply Hwf).
    done. }
  rewrite (cell_at_look this2 (x, y) (Cell.set_state c DETONATED))
    by (rewrite Hlook; by case_decide).
  simpl.
  destruct (resolve_loop_trace DETONATED this2 (or_intror eq_refl) Hwf2)
    as (m2 & Hrun & _ & Hfired).
  unfold _setLoss. change Cell.openOrDetonate with (Cell._openOrDoOtherIfBomb DETONATED).
  rewrite Hrun. simpl. eexists. split; [reflexivity|]. split; [done|].
  simpl. rewrite Hfired. unfold this2 at 1. simpl. unfold this1 at 1.
  rewrite store_notified, <- !app_assoc. simpl. do 3 f_equal.
  assert (_fieldSize this2 = _fieldSize m) as Hn
    by (unfold this2, this1; simpl; by rewrite store_fieldSize).
  assert (forall q, isBombAt this2 q = isBombAt m q) as Hbombs.
  { intros q. unfold isBombAt. rewrite Hlook. case_decide; [|done]. subst q.
    by rewrite Hc. }
  replace (_fieldSize this1) with (_fieldSize m)
    by (unfold this1; by rewrite store_fieldSize).
  rewrite (List.filter_ext (pendingAt this2)
             (fun q => pendingAt m q && negb (bool_decide (q = (x, y))))).
  - apply map_ext. intros q. unfold resolvedNotification. rewrite Hbombs.
    f_equal. destruct (isBombAt m q); [done|]. do 2 f_equal.
    unfold bombsAround. rewrite Hn. apply count_ext. intros r _. apply Hbombs.
  - intros q. unfold pendingAt. rewrite Hlook. case_decide as Hq.
    + subst q. by rewrite bool_decide_true, andb_false_r.
    + rewrite bool_decide_false by congruence. by rewrite andb_true_r.
Qed.

Lemma loss_trace_witness :
  wellFormed corner2_started /\ _state corner2_started = RUNNING /\
  look corner2_started (0, 0)
  = Some {| Cell._isBomb := true; Cell._state := INITIAL; Cell._position := (0, 0) |} /\
  exists m', openCell 0 0 corner2_started = Ok m' /\ _state m' = LOSS /\
    notified m' = notified corner2_started
      ++ [onCellStateChanged 0 0 {| state := DETONATED; numberBombs := None |};
          onCellStateChanged 1 0 {| state := OPENED; numberBombs := Some 1%nat |};
          onCellStateChanged 1 1 {| state := OPENED; numberBombs := Some 1%nat |};
          onGameStateChanged LOSS].
Proof.
  assert (wellFormed corner2_started) as Hwf
    by exact (proj1 (reachable_consistent _ corner2_started_reachable)).
  split; [exact Hwf|]. split; [reflexivity|]. split; [reflexivity|].
  destruct (loss_trace 0 0 corner2_started
              {| Cell._isBomb := true; Cell._state := INITIAL; Cell._position := (0, 0) |}
              Hwf eq_refl eq_refl eq_refl eq_refl) as (m' & Hrun & Hst & Hfired).
  exists m'. split; [exact Hrun|]. split; [exact Hst|]. exact Hfired.
Defined.

(** ** The win check *)

Lemma winning_cells (m : Minesweeper) :
  wellFormed m ->
  (winning m = true <->
   forall p c, look m p = Some c ->
     Cell._state c <> INITIAL /\ (Cell._state c = MARKED_AS_BOMB -> Cell._isBomb c = true)).
Proof.
  intros Hwf. split.
  - intros Hw p c Hc. pose proof (winning_blocksWin m p Hwf Hw) as Hp.
    unfold blocksWin in Hp. rewrite Hc in Hp.
    apply orb_false_iff in Hp as [Hi Hm]. apply bool_decide_eq_false in Hi.
    split; [done|]. intros Hs. rewrite bool_decide_true in Hm by done.
    by destruct (Cell._isBomb c).
  - intros Hcells. unfold winning. apply negb_true_iff.
    destruct (existsb _ _) eqn:Hex; [|done]. exfalso.
    apply existsb_exists in Hex as (p & _ & Hp). unfold blocksWin in Hp.
    destruct (look m p) as [c|] eqn:Hc; [|done].
    destruct (Hcells p c Hc) as [Hi Hm].
    rewrite (bool_decide_false _ Hi) in Hp. simpl in Hp.
    apply andb_prop in Hp as [Hs Hb]. apply bool_decide_eq_true in Hs.
    rewrite (Hm Hs) in Hb. done.
Qed.

(** X19.  The win check of a running game.  The game is won when no cell is
    INITIAL and no cell without a bomb is marked; otherwise the check does
    nothing.  A win turns the marked cells, all of them bombs, to DEFUSED,
    notifies each of them in the order of [_forEachCell], then the state
    WIN; it opens nothing and leaves every other cell as it is. *)
Theorem win_check (m : Minesweeper) :
  wellFormed m -> _state m = RUNNING ->
  (winning m = true <->
   forall p c, look m p = Some c ->
     Cell._state c <> INITIAL /\ (Cell._state c = MARKED_AS_BOMB -> Cell._isBomb c = true)) /\
  (winning m = false -> _setWinIfNeeded m = Ok m) /\
  (winning m = true ->
   exists m', _setWinIfNeeded m = Ok m' /\ _state m' = WIN /\
     notified m' = notified m
       ++ map defusedNotification
              (List.filter (markedAt m) (fieldPositions (_fieldSize m)))
       ++ [onGameStateChanged WIN] /\
     forall p c, look m p = Some c ->
       look m' p = Some (if bool_decide (Cell._state c = MARKED_AS_BOMB)
                         then Cell.set_state c DEFUSED else c)).
Proof.
  intros Hwf Hst. split; [by apply winning_cells|].
  unfold _setWinIfNeeded. rewrite Hst. simpl. rewrite winning_scan by done. simpl.
  split; [by intros ->|]. intros Hw. rewrite Hw.
  pose proof (proj1 (winning_cells m Hwf) Hw) as Hcells.
  destruct (resolve_loop_trace DEFUSED m (or_introl eq_refl) Hwf)
    as (m1 & Hrun & (_ & _ & _ & _ & Hres) & Hfired).
  change Cell.openOrDefuse with (Cell._openOrDoOtherIfBomb DEFUSED). rewrite Hrun.
  eexists. split; [reflexivity|]. split; [done|]. split.
  - simpl. rewrite Hfired, <- app_assoc. do 2 f_equal.
    rewrite (List.filter_ext (pendingAt m) (markedAt m)).
    + apply List.map_ext_in. intros q Hq. apply List.filter_In in Hq as [_ Hq].
      unfold markedAt in Hq. unfold resolvedNotification, defusedNotification, isBombAt.
      destruct (look m q) as [c|] eqn:Hc; [|done].
      apply bool_decide_eq_true in Hq. by rewrite (proj2 (Hcells q c Hc) Hq).
    + intros q. unfold pendingAt, markedAt. destruct (look m q) as [c|] eqn:Hc; [|done].
      unfold pending. by rewrite (bool_decide_false _ (proj1 (Hcells q c Hc))).
  - intros p c Hc. rewrite look_setGameState, (Hres p c Hc).
    destruct (Hcells p c Hc) as [Hi Hm]. unfold Cell._openOrDoOtherIfBomb.
    rewrite (bool_decide_false _ Hi). simpl.
    case_bool_decide as Hs; [|done]. simpl. by rewrite (Hm Hs).
Qed.

Lemma win_check_witness :
  wellFormed corner3_marked /\ _state corner3_marked = RUNNING /\
  winning corner3_marked = false /\
  _setWinIfNeeded corner3_marked = Ok corner3_marked.
Proof.
  assert (wellFormed corner3_marked) as Hwf
    by exact (proj1 (reachable_consistent _ corner3_marked_reachable)).
  split; [exact Hwf|]. split; [reflexivity|].
  assert (winning corner3_marked = false) as Hw by (vm_compute; reflexivity).
  split; [exact Hw|].
  exact (proj1 (proj2 (win_check corner3_marked Hwf eq_refl)) Hw).
Defined.

(** ** A round of the placement; the restart and the constructor *)

(** A round of the placement loop, read off the grid. *)
Lemma placing_round_eq (random : nat -> fraction) (s : Placing) :
  wellFormed (engine s) -> (0 < _fieldSize (engine s))%nat ->
  inside (_fieldSize (engine s)) (drawn random s) /\
  placing_round random s
  = Ok (if canSetBomb (engine s) (drawn random s)
        then {| engine := withBomb (engine s) (drawn random s);
                numberSetBombs := S (numberSetBombs s);
                admissibleNumberFailedAttemptsToPutBomb :=
                  admissibleNumberFailedAttemptsToPutBomb s;
                iterations := S (iterations s) |}
        else {| engine := engine s;
                numberSetBombs := numberSetBombs s;
                admissibleNumberFailedAttemptsToPutBomb :=
                  Nat.pred (admissibleNumberFailedAttemptsToPutBomb s);
                iterations := S (iterations s) |}).
Proof.
  intros Hwf Hsize.
  assert (inside (_fieldSize (engine s)) (drawn random s)) as Hp
    by (split; simpl; by apply floorTimes_range).
  split; [done|]. unfold placing_round. fold (drawn random s).
  rewrite bombCanBeSetHere_spec by done. simpl.
  destruct (canSetBomb (engine s) (drawn random s)); [|done].
  destruct (wellFormed_look _ _ Hwf Hp) as (c & Hc & _).
  rewrite (cell_at_look _ _ _ Hc). simpl. by rewrite <- (withBomb_look _ _ _ Hc).
Qed.

(** X20.  A round of the placement loop draws a cell of the grid, whatever
    the draws.  A draw that is refused, as every draw of a cell that holds a
    bomb is, leaves the engine exactly as it was, the bomb set for the test
    having been taken away, and uses one admissible failure; a draw that is
    accepted sets one bomb, in the cell drawn, and changes nothing else. *)
Theorem placement_round (random : nat -> fraction) (s : Placing) :
  wellFormed (engine s) -> (0 < _fieldSize (engine s))%nat ->
  exists s', placing_round random s = Ok s' /\
    inside (_fieldSize (engine s)) (drawn random s) /\
    iterations s' = S (iterations s) /\
    (isBombAt (engine s) (drawn random s) = true ->
       canSetBomb (engine s) (drawn random s) = false) /\
    ((canSetBomb (engine s) (drawn random s) = false /\
      engine s' = engine s /\
      numberSetBombs s' = numberSetBombs s /\
      admissibleNumberFailedAttemptsToPutBomb s'
      = Nat.pred (admissibleNumberFailedAttemptsToPutBomb s))
     \/
     (canSetBomb (engine s) (drawn random s) = true /\
      numberSetBombs s' = S (numberSetBombs s) /\
      admissibleNumberFailedAttemptsToPutBomb s' = admissibleNumberFailedAttemptsToPutBomb s /\
      bombsOnField (engine s') = S (bombsOnField (engine s)) /\
      (forall q, isBombAt (engine s') q
                 = if decide (drawn random s = q) then true else isBombAt (engine s) q) /\
      (forall q, stateAt (engine s') q = stateAt (engine s) q))).
Proof.
  intros Hwf Hsize. destruct (placing_round_eq random s Hwf Hsize) as [Hp Hrun].
  eexists. split; [exact Hrun|]. split; [done|].
  split; [by destruct (canSetBomb _ _)|].
  split; [unfold canSetBomb; by intros ->|].
  destruct (canSetBomb (engine s) (drawn random s)) eqn:Hcan; [right|left; by simpl].
  simpl. do 3 (split; [done|]).
  apply canSetBomb_true in Hcan as (Hnb & _).
  split; [by apply bombsOnField_withBomb|]. split.
  - intros q. by apply isBombAt_withBomb.
  - intros q. destruct (wellFormed_look _ _ Hwf Hp) as (c & Hc & _).
    rewrite (withBomb_look _ _ _ Hc). unfold stateAt.
    rewrite look_store by (done || apply Hwf). case_decide; [|done]. subst q.
    by rewrite Hc.
Qed.

Lemma placement_round_witness :
  wellFormed (engine (startPlacing corner2)) /\
  (0 < _fieldSize (engine (startPlacing corner2)))%nat /\
  drawn (always zero) (startPlacing corner2) = (0, 0) /\
  exists s', placing_round (always zero) (startPlacing corner2) = Ok s' /\
    engine s' = corner2 /\
    admissibleNumberFailedAttemptsToPutBomb s' = 3%nat.
Proof.
  assert (0 < _fieldSize (engine (startPlacing corner2)))%nat as Hsize by (simpl; lia).
  split; [exact (proj1 corner2_fresh)|]. split; [exact Hsize|]. split; [reflexivity|].
  destruct (placement_round (always zero) (startPlacing corner2) (proj1 corner2_fresh) Hsize)
    as (s' & Hrun & _ & _ & Hbomb & Hcases).
  exists s'. split; [exact Hrun|].
  assert (canSetBomb (engine (startPlacing corner2)) (drawn (always zero) (startPlacing corner2))
          = false) as Hcan by (apply Hbomb; reflexivity).
  destruct Hcases as [(_ & He & _ & Ha)|(Hyes & _)].
  - split; [exact He|exact Ha].
  - rewrite Hcan in Hyes. discriminate Hyes.
Defined.

(** Two grids of the same shape that hold the same cells are the same. *)
Lemma field_ext (a b : Minesweeper) :
  shaped a -> shaped b -> _fieldSize a = _fieldSize b ->
  (forall p, look a p = look b p) -> _gameField a = _gameField b.
Proof.
  intros (Hla & Hra & _) (Hlb & Hrb & _) Hn Hlook.
  apply list_eq. intros i.
  destruct (_gameField a !! i) as [ra|] eqn:Ha, (_gameField b !! i) as [rb|] eqn:Hb.
  - f_equal. apply list_eq. intros j.
    pose proof (Hra _ _ Ha) as Hlra. pose proof (Hrb _ _ Hb) as Hlrb.
    destruct (ra !! j) as [sa|] eqn:Hsa, (rb !! j) as [sb|] eqn:Hsb.
    + f_equal. specialize (Hlook (Z.of_nat i, Z.of_nat j)).
      unfold look, slot_at, row_at in Hlook. simpl in Hlook.
      destruct (Z.leb_spec 0 (Z.of_nat i)); [|lia].
      destruct (Z.leb_spec 0 (Z.of_nat j)); [|lia].
      rewrite !Nat2Z.id, Ha, Hb, Hsa, Hsb in Hlook. simpl in Hlook.
      destruct sa, sb; congruence.
    + apply lookup_lt_Some in Hsa. apply lookup_ge_None in Hsb. lia.
    + apply lookup_ge_None in Hsa. apply lookup_lt_Some in Hsb. lia.
    + done.
  - apply lookup_lt_Some in Ha. apply lookup_ge_None in Hb. lia.
  - apply lookup_ge_None in Ha. apply lookup_lt_Some in Hb. lia.
  - done.
Qed.

Lemma sameGrid_store (a b : Minesweeper) (p : position) (c : Cell.t) :
  sameGrid a b -> sameGrid (store a p c) (store b p c).
Proof.
  intros (Hn & Hb & Hf). split; [by rewrite !store_fieldSize|].
  split; [by rewrite !store_bombNumber|].
  unfold store. destruct (_ && _); simpl; by rewrite ?Hf.
Qed.

Lemma sameGrid_withBomb (a b : Minesweeper) (p : position) :
  sameGrid a b -> sameGrid (withBomb a p) (withBomb b p).
Proof.
  intros Hab. pose proof Hab as (_ & _ & Hf). unfold withBomb.
  rewrite (look_field a b) by done. destruct (look b p); [|done].
  by apply sameGrid_store.
Qed.

Lemma sameGrid_surrounded (a b : Minesweeper) (p : position) :
  sameGrid a b -> surrounded a p = surrounded b p.
Proof.
  intros (Hn & _ & Hf). unfold surrounded. rewrite Hn. apply forallb_ext_In.
  intros q _. by apply isBombAt_field.
Qed.

Lemma sameGrid_canSetBomb (a b : Minesweeper) (p : position) :
  sameGrid a b -> canSetBomb a p = canSetBomb b p.
Proof.
  intros Hab. pose proof Hab as (Hn & _ & Hf).
  pose proof (sameGrid_withBomb a b p Hab) as Hw. pose proof Hw as (_ & _ & Hwf).
  unfold canSetBomb. rewrite (isBombAt_field a b), (sameGrid_surrounded a b), Hn by done.
  do 2 f_equal. induction (adjacentPositions (_fieldSize b) p) as [|q l IH]; [done|].
  simpl. rewrite IH. f_equal.
  by rewrite (isBombAt_field _ (withBomb b p)), (sameGrid_surrounded _ (withBomb b p)).
Qed.

(** The placement loop goes the same way on the same grid. *)
Lemma placing_loop_sameGrid (random : nat -> fraction) (base : Minesweeper) (fuel : nat) :
  forall sa sb sa',
    placingInvariant base sa -> sameGrid (engine sa) (engine sb) ->
    numberSetBombs sa = numberSetBombs sb ->
    admissibleNumberFailedAttemptsToPutBomb sa = admissibleNumberFailedAttemptsToPutBomb sb ->
    iterations sa = iterations sb ->
    placing_loop random fuel sa = Ok sa' ->
    exists sb', placing_loop random fuel sb = Ok sb' /\ sameGrid (engine sa') (engine sb').
Proof.
  induction fuel as [|fuel IH]; intros sa sb sa' Hinv Hab Hnum Hadm Hit Hrun;
    pose proof Hab as (Hn & Hb & Hf);
    assert (placing_goes_on sb = placing_goes_on sa) as Hgo
      by (unfold placing_goes_on; by rewrite Hnum, Hadm, Hb).
  - simpl in *. rewrite Hgo. destruct (placing_goes_on sa); [done|].
    injection Hrun as <-. by exists sb.
  - simpl in *. rewrite Hgo. destruct (placing_goes_on sa) eqn:Hon;
      [|injection Hrun as <-; by exists sb].
    destruct (placing_round_spec random base sa Hinv Hon) as (s1 & Hround & Hinv1 & _).
    rewrite Hround in Hrun. simpl in Hrun.
    pose proof Hinv as (Hwf & Hnb & _ & _ & _ & _ & _ & _ & _ & Hle & _).
    assert (0 < _fieldSize (engine sa))%nat as Hsize.
    { unfold placing_goes_on in Hon. apply andb_prop in Hon as [_ Hpos].
      apply negb_true_iff, Nat.eqb_neq in Hpos. rewrite Hnb. nia. }
    assert (wellFormed (engine sb)) as Hwfb by (by apply (wellFormed_field (engine sa))).
    destruct (placing_round_eq random sa Hwf Hsize) as [_ Ha].
    destruct (placing_round_eq random sb Hwfb) as [_ Hb']; [by rewrite <- Hn|].
    assert (drawn random sb = drawn random sa) as Hdrawn
      by (unfold drawn; by rewrite Hit, Hn).
    rewrite Hdrawn, <- (sameGrid_canSetBomb _ _ _ Hab) in Hb'.
    rewrite Hb'. simpl. rewrite Ha in Hround. injection Hround as <-.
    destruct (canSetBomb (engine sa) (drawn random sa)).
    + apply (IH _ _ sa' Hinv1); simpl; try congruence. by apply sameGrid_withBomb.
    + apply (IH _ _ sa' Hinv1); simpl; congruence.
Qed.

(** X21.  [restartGame] forgets the game: with the same draws, it leaves the
    grid and the state that the constructor gives for the same field size
    and number of bombs, whatever has been played before. *)
Theorem restart_as_new (random : nat -> fraction) (m : Minesweeper) :
  reachable m ->
  exists m' m0,
    restartGame random m = Ok m' /\
    new_Minesweeper (_fieldSize m) (_bombNumber m) random = Ok m0 /\
    _gameField m' = _gameField m0 /\ _state m' = _state m0 /\
    _fieldSize m' = _fieldSize m0 /\ _bombNumber m' = _bombNumber m0.
Proof.
  intros Hm. assert (shaped m) as Hs by (by apply reachable_consistent in Hm as [[? _] _]).
  pose proof (allocated_shaped (_fieldSize m) (_bombNumber m)) as Hs0.
  destruct (clearing_spec m Hs) as (m1 & Hclear & Hm1).
  destruct (clearing_spec _ Hs0) as (a1 & Hclear0 & Ha1). simpl in Hclear0, Ha1.
  assert (sameGrid m1 a1) as Hsame.
  { pose proof Hm1 as (Hsm & Hn & Hb & _ & Hdone & _).
    pose proof Ha1 as (Hsa & Hn0 & Hb0 & _ & Hdone0 & _). simpl in Hn0, Hb0.
    split; [congruence|]. split; [congruence|].
    apply field_ext; [done|done|congruence|]. intros p.
    destruct (inside_dec (_fieldSize m) p) as [Hp|Hp].
    - apply In_fieldPositions in Hp.
      destruct (Hdone p Hp) as (c & Hc & Hcb & Hcs).
      destruct (Hdone0 p Hp) as (c0 & Hc0 & Hcb0 & Hcs0).
      rewrite Hc, Hc0. f_equal.
      assert (Cell._position c = p) as Hpos by (by apply Hsm).
      assert (Cell._position c0 = p) as Hpos0 by (by apply Hsa).
      destruct c, c0. simpl in *. congruence.
    - destruct (look m1 p) as [c|] eqn:Hc.
      { apply (look_inside _ _ _ Hsm) in Hc. by rewrite Hn in Hc. }
      destruct (look a1 p) as [c|] eqn:Hc0; [|done].
      apply (look_inside _ _ _ Hsa) in Hc0. by rewrite Hn0 in Hc0. }
  destruct (placeBombs_spec random m Hs)
    as (m1' & s & Hclear' & _ & _ & _ & Hloop & Hinv & _).
  assert (m1' = m1) as -> by congruence.
  pose proof (cleared_wellFormed m m1 Hm1) as (Hwf1 & Hinit1 & Hnb1).
  destruct (placing_loop_sameGrid random m1 (placingFuel m1) (startPlacing m1)
              (startPlacing a1) s) as (s0 & Hloop0 & Hends);
    [by apply startPlacing_invariant|done|done| |done|by apply Hloop|].
  { destruct Hsame as (Hn & _). unfold startPlacing. simpl. by rewrite Hn. }
  assert (placingFuel a1 = placingFuel m1) as Hfuel.
  { destruct Hsame as (Hn & Hb & _). unfold placingFuel. by rewrite Hn, Hb. }
  exists (_setGameState (engine s) READY), (_setGameState (engine s0) READY).
  split.
  { unfold restartGame, _setBombsOnGameField, placeBombs. rewrite Hclear. simpl.
    by rewrite (Hloop _ (Nat.le_refl _)). }
  split.
  { unfold new_Minesweeper, _setBombsOnGameField, placeBombs. rewrite Hclear0. simpl.
    by rewrite Hfuel, Hloop0. }
  destruct Hends as (Hn & Hb & Hf). by repeat split.
Qed.

Lemma restart_as_new_witness :
  reachable corner2_lost /\
  exists m', restartGame (always zero) corner2_lost = Ok m' /\
    _gameField m' = _gameField corner2 /\ _state m' = READY.
Proof.
  split; [exact corner2_lost_reachable|].
  destruct (restart_as_new (always zero) corner2_lost corner2_lost_reachable)
    as (m' & m0 & Hrun & Hnew & Hf & Hst & _).
  assert (new_Minesweeper (_fieldSize corner2_lost) (_bombNumber corner2_lost) (always zero)
          = Ok corner2) as Hcorner by (vm_compute; reflexivity).
  rewrite Hcorner in Hnew. injection Hnew as <-.
  exists m'. split; [exact Hrun|]. split; [exact Hf|exact Hst].
Defined.

(** ** The bombs of a game that is played *)

Lemma keeps_noBombSurrounded (m m' : Minesweeper) :
  keeps m m' -> noBombSurrounded m -> noBombSurrounded m'.
Proof.
  intros (Hn & _ & Hbombs & _) Hnbs p Hp Hb. rewrite Hn in Hp. rewrite Hbombs in Hb.
  rewrite <- (Hnbs p Hp Hb). unfold surrounded. rewrite Hn.
  apply forallb_ext_In. intros q _. apply Hbombs.
Qed.

Lemma keeps_bombsOnField (m m' : Minesweeper) :
  keeps m m' -> bombsOnField m' = bombsOnField m.
Proof.
  intros (Hn & _ & Hbombs & _). unfold bombsOnField. rewrite Hn.
  apply count_ext. intros p _. apply Hbombs.
Qed.

Lemma reachable_placed (m : Minesweeper) :
  reachable m -> noBombSurrounded m /\ (bombsOnField m <= _bombNumber m)%nat.
Proof.
  assert (forall random m0 m', shaped m0 ->
            _setBombsOnGameField random m0 = Ok m' \/
            _setBombsOnGameField random m0 = TypeError m' ->
            noBombSurrounded m' /\ (bombsOnField m' <= _bombNumber m')%nat) as Hset.
  { intros random m0 m' Hs Hrun.
    destruct (setBombsOnGameField_Ok random m0 Hs) as (m1 & Hrun1 & _ & _ & Hnbs & _).
    destruct (setBombsOnGameField_fresh random m0 Hs)
      as (m2 & Hrun2 & _ & _ & Hb & _ & _ & Hle & _).
    assert (m2 = m1) as -> by congruence. rewrite Hrun1 in Hrun.
    destruct Hrun as [[= <-]|?]; [|done]. split; [done|]. by rewrite Hb. }
  assert (forall c m0 m', wellFormed m0 ->
            noBombSurrounded m0 /\ (bombsOnField m0 <= _bombNumber m0)%nat ->
            run c m0 = Ok m' \/ run c m0 = TypeError m' ->
            noBombSurrounded m' /\ (bombsOnField m' <= _bombNumber m')%nat) as Hcmd.
  { intros c m0 m' Hwf [Hnbs Hle] Hrun. pose proof (keeps_run c m0 m' Hwf Hrun) as Hk.
    split; [by apply (keeps_noBombSurrounded m0)|].
    rewrite (keeps_bombsOnField m0 m' Hk). destruct Hk as (_ & -> & _). done. }
  induction 1 as [n b random m Hnew|x y m m' Hm IH Hrun|x y m m' Hm IH Hrun
                 |x y m m' Hm IH Hrun|x y m m' Hm IH Hrun
                 |random m m' Hm IH Hrun|random m m' Hm IH Hrun];
    try (pose proof (proj1 (reachable_consistent m Hm)) as Hwf).
  - apply (Hset random _ m (allocated_shaped n b)). by left.
  - apply (Hcmd (Open (x, y)) m m' Hwf IH). by left.
  - apply (Hcmd (Open (x, y)) m m' Hwf IH). by right.
  - apply (Hcmd (Mark (x, y)) m m' Hwf IH). by left.
  - apply (Hcmd (Mark (x, y)) m m' Hwf IH). by right.
  - apply (Hset random m m' (proj1 Hwf)). by left.
  - apply (Hset random m m' (proj1 Hwf)). by right.
Qed.

(** X22.  What the placement has ensured holds as long as the game is
    played: in every engine a caller can hold, at most [bombNumber] cells
    hold a bomb, every bomb has a cell without a bomb next to it, and a
    field that has cells has a cell without a bomb. *)
Theorem bombs_as_placed (m : Minesweeper) :
  reachable m ->
  (bombsOnField m <= _bombNumber m)%nat /\
  (forall p, inside (_fieldSize m) p -> isBombAt m p = true ->
     exists q, In q (adjacentPositions (_fieldSize m) p) /\ isBombAt m q = false) /\
  ((0 < _fieldSize m)%nat -> exists p, inside (_fieldSize m) p /\ isBombAt m p = false).
Proof.
  intros Hm. destruct (reachable_placed m Hm) as [Hnbs Hle].
  split; [done|]. split; [|intros Hn; by apply noBombSurrounded_room].
  intros p Hp Hb. specialize (Hnbs p Hp Hb). unfold surrounded in Hnbs.
  apply (f_equal negb) in Hnbs. rewrite <- existsb_negb_forallb in Hnbs. simpl in Hnbs.
  apply existsb_exists in Hnbs as (q & Hq & Hqb). apply negb_true_iff in Hqb. by exists q.
Qed.

Lemma bombs_as_placed_witness :
  reachable corner2_lost /\ (bombsOnField corner2_lost <= 1)%nat /\
  exists q, In q (adjacentPositions (_fieldSize corner2_lost) (0, 0)) /\
            isBombAt corner2_lost q = false.
Proof.
  split; [exact corner2_lost_reachable|].
  destruct (bombs_as_placed corner2_lost corner2_lost_reachable) as (Hle & Hroom & _).
  split; [exact Hle|].
  assert (inside (_fieldSize corner2_lost) (0, 0)) as Hp by (unfold inside; simpl; lia).
  exact (Hroom (0, 0) Hp eq_refl).
Defined.

(** ** A game can be won *)

Lemma play_app (cs1 cs2 : list Command) (m : Minesweeper) :
  play (cs1 ++ cs2) m = (m' <- play cs1 m ;; play cs2 m').
Proof.
  revert m. induction cs1 as [|c cs1 IH]; intros m; simpl; [done|].
  destruct (run c m); simpl; [apply IH|done|done].
Qed.

(** A READY game is started by the command; a RUNNING game is as it is. *)
Lemma started_engine (a : Minesweeper) :
  wellFormed a -> _state a = READY \/ _state a = RUNNING ->
  exists a0, wellFormed a0 /\ _state a0 = RUNNING /\ _fieldSize a0 = _fieldSize a /\
    _gameField a0 = _gameField a /\
    (forall x y, toggleCellBombMark x y a = toggleCellBombMark x y a0) /\
    (forall x y, openCell x y a = openCell x y a0).
Proof.
  intros Hwf [Hst|Hst].
  - exists (_setGameState a RUNNING). split; [by apply wellFormed_setGameState|].
    do 3 (split; [done|]).
    split; intros x y; [by apply toggleCellBombMark_READY|by apply openCell_READY].
  - by exists a.
Qed.

Lemma marking_ext (m0 : Minesweeper) (f g : position -> bool) (a : Minesweeper) :
  (forall q, f q = g q) -> marking m0 f a -> marking m0 g a.
Proof.
  intros Hfg (Hr & Hst & Hn & Hbombs & Hcells). do 4 (split; [done|]).
  intros q c Hc. rewrite <- Hfg. by apply Hcells.
Qed.

(** Marking one more bomb, while a cell without a bomb is INITIAL. *)
Lemma mark_bomb (m0 : Minesweeper) (marked : position -> bool) (a : Minesweeper)
    (p p0 : position) :
  marking m0 marked a -> inside (_fieldSize m0) p -> marked p = false ->
  inside (_fieldSize m0) p0 -> marked p0 = false -> p <> p0 ->
  exists a', run (Mark p) a = Ok a' /\
    marking m0 (fun q => bool_decide (q = p) || marked q) a'.
Proof.
  intros (Hr & Hst & Hn & Hbombs & Hcells) Hp Hmp Hp0 Hmp0 Hne.
  pose proof (proj1 (reachable_consistent a Hr)) as Hwf.
  destruct (started_engine a Hwf Hst) as (a0 & Hwf0 & Hst0 & Hn0 & Hf0 & Htoggle & _).
  assert (forall q, look a0 q = look a q) as Hlook0 by (intros q; by apply look_field).
  destruct p as [x y]. simpl.
  destruct (wellFormed_look a0 (x, y) Hwf0) as (c & Hc & Hpos); [by rewrite Hn0, Hn|].
  assert (Cell._state c = INITIAL) as Hinit.
  { rewrite Hlook0 in Hc. by rewrite (Hcells _ c Hc), Hmp. }
  destruct (wellFormed_look a0 p0 Hwf0) as (c0 & Hc0 & _); [by rewrite Hn0, Hn|].
  assert (Cell._state c0 = INITIAL) as Hinit0.
  { rewrite Hlook0 in Hc0. by rewrite (Hcells _ c0 Hc0), Hmp0. }
  destruct (toggleCellBombMark_RUNNING x y a0 c Hwf0 Hst0 Hc) as [[Hpend _]|[_ Heq]];
    [by rewrite Hinit in Hpend|].
  simpl in Heq. rewrite Hinit in Heq. simpl in Heq.
  set (c' := Cell.set_state c MARKED_AS_BOMB) in Heq.
  set (a' := fire (store a0 (x, y) c') _) in Heq.
  assert (wellFormed a') as Hwf'.
  { apply (wellFormed_field (store a0 (x, y) c')); [done|done|].
    apply wellFormed_store; [done|by rewrite Hn0, Hn|done]. }
  assert (forall q, look a' q = if decide ((x, y) = q) then Some c' else look a q) as Hlook'.
  { intros q. unfold a'. rewrite look_fire, look_store; [|apply Hwf0|by rewrite Hn0, Hn].
    by rewrite Hlook0. }
  assert (_setWinIfNeeded a' = Ok a') as Hwin.
  { apply (setWinIfNeeded_blocked a' p0 Hwf'). unfold blocksWin. rewrite Hlook'.
    case_decide; [done|]. rewrite <- Hlook0, Hc0, Hinit0. done. }
  assert (toggleCellBombMark x y a = Ok a') as Hrun by (by rewrite Htoggle, Heq).
  exists a'. split; [done|].
  split; [by apply (reachable_toggleCellBombMark x y a)|].
  split; [right; unfold a'; simpl; by rewrite store_state|].
  split; [unfold a'; simpl; rewrite store_fieldSize; congruence|]. split.
  - intros q. rewrite <- Hbombs. unfold isBombAt. rewrite Hlook'.
    case_decide; [|done]. subst q. by rewrite <- Hlook0, Hc.
  - intros q cq. rewrite Hlook'. case_decide as Hq.
    + subst q. intros [= <-]. by rewrite bool_decide_true.
    + intros Hcq. rewrite bool_decide_false by congruence. by apply Hcells.
Qed.

Lemma mark_bombs (m0 : Minesweeper) (p0 : position) :
  inside (_fieldSize m0) p0 ->
  forall cells marked a,
    marking m0 marked a -> marked p0 = false -> List.NoDup cells ->
    (forall q, In q cells -> inside (_fieldSize m0) q /\ marked q = false /\ q <> p0) ->
    exists a', play (map Mark cells) a = Ok a' /\
      marking m0 (fun q => bool_decide (q ∈ cells) || marked q) a'.
Proof.
  intros Hp0. induction cells as [|p cells IH]; intros marked a Ha Hm0 Hnd Hcells.
  - exists a. split; [done|]. apply (marking_ext m0 marked); [|done].
    intros q. rewrite bool_decide_false; [done|]. apply not_elem_of_nil.
  - apply List.NoDup_cons_iff in Hnd as [Hfresh Hnd].
    destruct (Hcells p (or_introl eq_refl)) as (Hp & Hmp & Hne).
    destruct (mark_bomb m0 marked a p p0 Ha Hp Hmp Hp0 Hm0 Hne) as (a1 & Hrun & Ha1).
    destruct (IH _ a1 Ha1) as (a' & Hplay & Ha'); [|done| |].
    + by rewrite bool_decide_false, Hm0 by congruence.
    + intros q Hq. destruct (Hcells q (or_intror Hq)) as (? & ? & ?).
      split; [done|]. split; [|done].
      rewrite bool_decide_false; [done|]. intros ->. done.
    + exists a'. split.
      { change (play (map Mark (p :: cells)) a)
          with (m' <- run (Mark p) a ;; play (map Mark cells) m').
        by rewrite Hrun. }
      apply (marking_ext m0
               (fun q => bool_decide (q ∈ cells) || (bool_decide (q = p) || marked q)));
        [|done].
      intros q. destruct (decide (q = p)) as [->|Hq].
      * rewrite (bool_decide_true (p = p)) by done.
        rewrite (bool_decide_true (p ∈ p :: cells)) by (apply elem_of_cons; by left).
        by rewrite orb_true_r.
      * rewrite (bool_decide_false (q = p)) by done. simpl.
        f_equal. apply bool_decide_ext. rewrite elem_of_cons.
        split; [by right|intros [?|?]; done].
Qed.

(** Opening one more cell without a bomb, once the bombs are marked. *)
Lemma open_safe (m0 : Minesweeper) (done : list position) (a : Minesweeper) (p : position) :
  sweeping m0 done a -> inside (_fieldSize m0) p -> isBombAt m0 p = false ->
  exists a', run (Open p) a = Ok a' /\ sweeping m0 (p :: done) a'.
Proof.
  intros (Hr & Hn & Hbombs & Hcases) Hp Hpb.
  pose proof (proj1 (reachable_consistent a Hr)) as Hwf.
  destruct p as [x y]. simpl.
  destruct Hcases as [Hwon|(Hst & Hcells & Hdone)].
  { exists a. rewrite openCell_gated by auto. split; [done|]. do 3 (split; [done|]).
    by left. }
  destruct (started_engine a Hwf Hst) as (a0 & Hwf0 & Hst0 & Hn0 & Hf0 & _ & Hopen).
  assert (forall q, look a0 q = look a q) as Hlook0 by (intros q; by apply look_field).
  assert (inside (_fieldSize a0) (x, y)) as Hp' by (by rewrite Hn0, Hn).
  destruct (openCell_RUNNING_inside x y a0 Hwf0 Hst0 Hp')
    as (m1 & a' & Hrun & Hwin & Hwf1 & Hflood).
  assert (isBombAt a0 (x, y) = false) as Hpb0
    by (rewrite (isBombAt_field a0 a), Hbombs; done).
  destruct Hflood as [[_ (Hopens & Hpp & _)]|[(Hb & _)|(Hb & _)]]; [|congruence|congruence].
  assert (openCell x y a = Ok a') as Hrun' by (by rewrite Hopen).
  pose proof (keeps_openCell_RUNNING x y a0 a' Hwf0 Hst0 (or_introl Hrun))
    as (Hn' & _ & Hbombs' & _).
  exists a'. split; [done|].
  split; [by apply (reachable_openCell x y a)|].
  split; [congruence|].
  split; [intros q; by rewrite Hbombs', (isBombAt_field a0 a), Hbombs|].
  destruct (setWinIfNeeded_cases m1 a' Hwf1 Hwin) as [->|(_ & _ & Hw & _)]; [right|by left].
  pose proof Hopens as (_ & _ & Hn1 & _ & Hst1 & Hstep).
  split; [right; congruence|]. split.
  - intros q c' Hc'.
    pose proof (look_inside _ _ _ (proj1 Hwf1) Hc') as Hq. rewrite Hn1 in Hq.
    destruct (wellFormed_look a0 q Hwf0 Hq) as (c & Hc & _).
    pose proof (Hcells q c) as Hold. rewrite <- Hlook0 in Hold. specialize (Hold Hc).
    destruct (Hstep q c Hc) as [Hsame|(_ & Hnb & Hopened)].
    + by assert (c' = c) as -> by congruence.
    + assert (c' = Cell.set_state c OPENED) as -> by congruence. simpl.
      rewrite Hnb. by right.
  - intros q [<-|Hq]; [done|]. apply (opens_not_pending a0 m1); [done|].
    rewrite (pendingAt_field a0 a) by done. by apply Hdone.
Qed.

Lemma open_safes (m0 : Minesweeper) (cells : list position) :
  forall done a,
    sweeping m0 done a ->
    (forall q, In q cells -> inside (_fieldSize m0) q /\ isBombAt m0 q = false) ->
    exists a', play (map Open cells) a = Ok a' /\
      sweeping m0 (rev cells ++ done) a'.
Proof.
  induction cells as [|p cells IH]; intros done a Ha Hcells; [by exists a|].
  destruct (Hcells p (or_introl eq_refl)) as [Hp Hpb].
  destruct (open_safe m0 done a p Ha Hp Hpb) as (a1 & Hrun & Ha1).
  destruct (IH (p :: done) a1 Ha1) as (a' & Hplay & Ha').
  { intros q Hq. apply Hcells. by right. }
  exists a'. split.
  - change (play (map Open (p :: cells)) a)
      with (m' <- run (Open p) a ;; play (map Open cells) m').
    by rewrite Hrun.
  - simpl. by rewrite <- app_assoc.
Qed.

(** X23.  Every game can be won.  From a READY game a caller can hold, on a
    field that has cells, marking every bomb and then opening every other
    cell, in the order of [_forEachCell], never throws, never loses, and
    ends with the game WIN, the bombs where they were. *)
Theorem winnable (m : Minesweeper) :
  reachable m -> _state m = READY -> (0 < _fieldSize m)%nat ->
  exists m', play (winningPlay m) m = Ok m' /\ _state m' = WIN /\
    _fieldSize m' = _fieldSize m /\ (forall p, isBombAt m' p = isBombAt m p).
Proof.
  intros Hm Hst Hsize.
  pose proof (proj1 (reachable_consistent m Hm)) as Hwf.
  destruct (reachable_is_settled m Hm) as (_ & Hready & _).
  destruct (noBombSurrounded_room m Hsize (proj1 (reachable_placed m Hm)))
    as (p0 & Hp0 & Hpb0).
  assert (marking m (fun _ => false) m) as Hstart.
  { split; [done|]. split; [by left|]. do 2 (split; [done|]).
    intros q c Hc. by apply (Hready Hst q). }
  destruct (mark_bombs m p0 Hp0 (bombCells m) (fun _ => false) m Hstart eq_refl)
    as (a1 & Hplay1 & (Hr1 & Hst1 & Hn1 & Hbombs1 & Hcells1)).
  { apply List.NoDup_filter, NoDup_fieldPositions. }
  { intros q Hq. apply List.filter_In in Hq as [Hq Hqb].
    split; [by apply In_fieldPositions|]. split; [done|]. intros ->. congruence. }
  assert (sweeping m [] a1) as Hswept.
  { do 3 (split; [done|]). right. split; [done|]. split; [|done].
    intros q c Hc. specialize (Hcells1 q c Hc).
    pose proof (look_inside _ _ _ (proj1 (proj1 (reachable_consistent a1 Hr1))) Hc) as Hq.
    rewrite Hn1 in Hq.
    assert (isBombAt m q = Cell._isBomb c) as Hqb
      by (rewrite <- Hbombs1; unfold isBombAt; by rewrite Hc).
    rewrite orb_false_r in Hcells1. destruct (Cell._isBomb c).
    - rewrite bool_decide_true in Hcells1; [done|].
      apply list_elem_of_In, List.filter_In. split; [by apply In_fieldPositions|done].
    - rewrite bool_decide_false in Hcells1; [by left|].
      rewrite list_elem_of_In. intros Hin. apply List.filter_In in Hin as [_ Hin].
      congruence. }
  destruct (open_safes m (safeCells m) [] a1 Hswept) as (a2 & Hplay2 & Ha2).
  { intros q Hq. apply List.filter_In in Hq as [Hq Hqb].
    split; [by apply In_fieldPositions|by apply negb_true_iff]. }
  exists a2. split; [unfold winningPlay; rewrite play_app, Hplay1; exact Hplay2|].
  destruct Ha2 as (Hr2 & Hn2 & Hbombs2 & Hend). split; [|by split].
  destruct Hend as [Hwon|(Hst2 & Hcells2 & Hdone2)]; [done|]. exfalso.
  pose proof (proj1 (reachable_consistent a2 Hr2)) as Hwf2.
  assert (forall q, inside (_fieldSize m) q -> isBombAt m q = false ->
            pendingAt a2 q = false) as Hopened.
  { intros q Hq Hqb. apply Hdone2. rewrite app_nil_r. apply -> in_rev.
    apply List.filter_In. split; [by apply In_fieldPositions|by rewrite Hqb]. }
  destruct (reachable_is_settled a2 Hr2) as (_ & Hready2 & Hrunning2 & _).
  destruct Hst2 as [Hst2|Hst2].
  - destruct (wellFormed_look a2 p0 Hwf2) as (c0 & Hc0 & _); [by rewrite Hn2|].
    pose proof (Hopened p0 Hp0 Hpb0) as Hpend. unfold pendingAt in Hpend.
    rewrite Hc0, (Hready2 Hst2 p0 c0 Hc0) in Hpend. done.
  - destruct (Hrunning2 Hst2) as [_ Hnw]. specialize (Hnw ltac:(by rewrite Hn2)).
    unfold winning in Hnw. apply negb_false_iff, existsb_exists in Hnw as (q & Hq & Hblock).
    rewrite Hn2 in Hq. apply In_fieldPositions in Hq.
    unfold blocksWin in Hblock. destruct (look a2 q) as [c|] eqn:Hc; [|done].
    pose proof (Hcells2 q c Hc) as Hcell.
    assert (isBombAt m q = Cell._isBomb c) as Hqb
      by (rewrite <- Hbombs2; unfold isBombAt; by rewrite Hc).
    destruct (Cell._isBomb c).
    + by rewrite Hcell in Hblock.
    + pose proof (Hopened q Hq Hqb) as Hpend. unfold pendingAt in Hpend.
      rewrite Hc in Hpend. destruct Hcell as [Hcell|Hcell]; rewrite Hcell in *; done.
Qed.

Lemma winnable_witness :
  reachable corner3 /\ _state corner3 = READY /\ (0 < _fieldSize corner3)%nat /\
  winningPlay corner3
  = [Mark (2, 2); Open (0, 0); Open (0, 1); Open (0, 2); Open (1, 0); Open (1, 1);
     Open (1, 2); Open (2, 0); Open (2, 1)] /\
  exists m', play (winningPlay corner3) corner3 = Ok m' /\ _state m' = WIN.
Proof.
  assert (reachable corner3) as Hr
    by exact (reachable_new 3 1 (always twoThirds) corner3 eq_refl).
  assert (0 < _fieldSize corner3)%nat as Hsize by (simpl; lia).
  split; [exact Hr|]. split; [reflexivity|]. split; [exact Hsize|].
  split; [reflexivity|].
  destruct (winnable corner3 Hr eq_refl Hsize) as (m' & Hplay & Hwon & _).
  exists m'. split; [exact Hplay|exact Hwon].
Defined.
